(** * Heuristic auto-fill engine for the V3 ethical metadata columns

    A shallow embedding of [Script/autofill_v3_heuristics.py] and the
    properties of its per-row decision logic.

    Conventions of the model:
    - a DataFrame cell holds a Python value ([pyval]): a [str], an [int] or a
      [float] (pandas loads an empty CSV cell as the float NaN); [df.at]
      stores the value it is given, the conversions pandas applies to fit a
      column's dtype are not modelled;
    - Python floats are exact rationals ([Q]) extended with NaN and the two
      infinities: rounding errors of binary floating point are not modelled;
    - strings are sequences of ASCII characters;
    - the two pseudo-random generators ([random.Random(seed)] and numpy's
      global one) are tapes of raw draws read left to right; [random()]
      returns [k / 2^53] for a 53-bit [k], as the Mersenne Twister of both
      libraries does;
    - exceptions are values of [exn]; a computation of the engine is a
      function from the run state to a result. *)

From Stdlib Require Import ZArith QArith Qround Lqa String Ascii List Bool Lia.
From stdpp Require Import base gmap strings list pretty.

Local Open Scope string_scope.
Local Open Scope Z_scope.

(** ** Python values *)

Inductive pyfloat :=
| FNum (q : Q)
| FNaN
| FInf (negative : bool).

Inductive pyval :=
| VStr (s : string)
| VInt (z : Z)
| VFloat (f : pyfloat).

Inductive exn :=
| ValueError (msg : string)
| KeyError (key : string)
| TypeError (msg : string)
| ZeroDivisionError
| NameError (name : string)
| FileNotFoundError (path : string)
| OSError (msg : string).

Inductive result (A : Type) :=
| Ok (a : A)
| Raise (e : exn).
Arguments Ok {A} a.
Arguments Raise {A} e.

(** ** Strings, as the engine uses them *)

Module PyStr.

(** [str.isspace] on ASCII: TAB..CR, FS..US and the space. *)
Definition is_space (c : ascii) : bool :=
  let n := N_of_ascii c in
  ((9 <=? n) && (n <=? 13) || (28 <=? n) && (n <=? 32))%N.

Fixpoint lstrip_chars (l : list ascii) : list ascii :=
  match l with
  | c :: l' => if is_space c then lstrip_chars l' else l
  | [] => []
  end.

Definition strip_chars (l : list ascii) : list ascii :=
  rev (lstrip_chars (rev (lstrip_chars l))).

Definition strip (s : string) : string :=
  string_of_list_ascii (strip_chars (list_ascii_of_string s)).

Definition lower_char (c : ascii) : ascii :=
  let n := N_of_ascii c in
  if ((65 <=? n) && (n <=? 90))%N then ascii_of_N (n + 32) else c.

Definition lower (s : string) : string :=
  string_of_list_ascii (map lower_char (list_ascii_of_string s)).

(** ["|" in s] *)
Definition has_bar (s : string) : bool :=
  existsb (Ascii.eqb "|"%char) (list_ascii_of_string s).

(** [s in l] for a list of strings *)
Definition mem (s : string) (l : list string) : bool :=
  existsb (String.eqb s) l.

Definition startswith_slash (s : string) : bool :=
  match s with
  | String c _ => Ascii.eqb c "/"%char
  | EmptyString => false
  end.

(** [sep.join(l)] *)
Definition join (sep : string) (l : list string) : string :=
  String.concat sep l.

Fixpoint insert_sorted (s : string) (l : list string) : list string :=
  match l with
  | [] => [s]
  | t :: l' =>
      match String.compare s t with
      | Lt => s :: l
      | Eq => l                       (* a set holds one copy *)
      | Gt => t :: insert_sorted s l'
      end
  end.

(** [sorted(set(l))] *)
Definition sorted_set (l : list string) : list string :=
  fold_right insert_sorted [] l.

End PyStr.

(** ** Numbers *)

Module PyNum.

Definition pow10 (e : Z) : Q :=
  if 0 <=? e then inject_Z (10 ^ e) else 1 # Z.to_pos (10 ^ (- e)).

(** Round half to even, as Python's [round] does. *)
Definition round_half_even (q : Q) : Z :=
  let f := Qfloor q in
  let r := (q - inject_Z f)%Q in
  match Qcompare r (1 # 2) with
  | Lt => f
  | Gt => f + 1
  | Eq => if Z.even f then f else f + 1
  end.

(** [round(x, 3)] *)
Definition round3 (q : Q) : Q := round_half_even (q * 1000) # 1000.

Definition is_digit (c : ascii) : bool :=
  let n := N_of_ascii c in ((48 <=? n) && (n <=? 57))%N.

Definition digit_val (c : ascii) : Z := Z.of_N (N_of_ascii c) - 48.

(** [digit (["_"] digit)*]: the value read so far, the number of digits
    and the unread rest. *)
Fixpoint digitpart (acc : Z) (n : nat) (l : list ascii) : Z * nat * list ascii :=
  match l with
  | c :: l' =>
      if is_digit c then digitpart (10 * acc + digit_val c) (S n) l'
      else if (Ascii.eqb c "_"%char && negb (n =? 0)%nat)%bool then
        match l' with
        | d :: l'' =>
            if is_digit d then digitpart (10 * acc + digit_val d) (S n) l''
            else (acc, n, l)
        | [] => (acc, n, l)
        end
      else (acc, n, l)
  | [] => (acc, n, l)
  end.

Definition sign (l : list ascii) : bool * list ascii :=
  match l with
  | c :: l' =>
      if Ascii.eqb c "-"%char then (true, l')
      else if Ascii.eqb c "+"%char then (false, l')
      else (false, l)
  | [] => (false, l)
  end.

Definition exponent (l : list ascii) : option (Z * list ascii) :=
  match l with
  | c :: l' =>
      if (Ascii.eqb c "e"%char || Ascii.eqb c "E"%char)%bool then
        let '(neg, l1) := sign l' in
        let '(e, n, l2) := digitpart 0 0 l1 in
        if (n =? 0)%nat then None
        else Some (if neg then - e else e, l2)
      else Some (0, l)
  | [] => Some (0, l)
  end.

(** [[digitpart] "." digitpart | digitpart ["."]], then the exponent;
    nothing may be left over. *)
Definition floatnumber (l : list ascii) : option Q :=
  let '(ip, n1, l1) := digitpart 0 0 l in
  let '(fp, n2, l2) :=
    match l1 with
    | c :: l1' => if Ascii.eqb c "."%char then digitpart 0 0 l1' else (0, 0%nat, l1)
    | [] => (0, 0%nat, l1)
    end in
  if ((n1 + n2)%nat =? 0)%nat then None
  else
    match exponent l2 with
    | Some (e, []) =>
        Some (inject_Z (ip * 10 ^ Z.of_nat n2 + fp) * pow10 (e - Z.of_nat n2))%Q
    | _ => None
    end.

(** [float(s)] for a string: surrounding white space is dropped, the
    words [inf], [infinity] and [nan] are read in any case, anything that
    is not a float literal raises [ValueError]. *)
Definition float_of_string (s : string) : result pyfloat :=
  let '(neg, l) := sign (PyStr.strip_chars (list_ascii_of_string s)) in
  let w := PyStr.lower (string_of_list_ascii l) in
  if (String.eqb w "inf" || String.eqb w "infinity")%bool then Ok (FInf neg)
  else if String.eqb w "nan" then Ok FNaN
  else
    match floatnumber l with
    | Some q => Ok (FNum (if neg then - q else q)%Q)
    | None => Raise (ValueError ("could not convert string to float: '" +:+ s +:+ "'"))
    end.

(** The first [k] decimals of a fraction [0 <= n/d < 1]. *)
Fixpoint decimals (k : nat) (n d : Z) : list Z :=
  match k with
  | O => []
  | S k' => if n =? 0 then [] else (10 * n / d) :: decimals k' (10 * n mod d) d
  end.

(** [repr] of a finite float in positional notation (at most 17
    decimals; the exponent notation of very large or small values is not
    reproduced).  None of the engine's decisions looks at the digits. *)
Definition float_repr (q : Q) : string :=
  let n := Z.abs (Qnum q) in
  let d := Z.pos (Qden q) in
  let frac := decimals 17 (n mod d) d in
  (if Qnum q <? 0 then "-" else "") +:+ pretty (n / d) +:+ "." +:+
  (match frac with
   | [] => "0"
   | _ => fold_right (fun z s => pretty z +:+ s) "" frac
   end).

End PyNum.

(** [str(v)] *)
Definition py_str (v : pyval) : string :=
  match v with
  | VStr s => s
  | VInt z => pretty z
  | VFloat (FNum q) => PyNum.float_repr q
  | VFloat FNaN => "nan"
  | VFloat (FInf neg) => if neg then "-inf" else "inf"
  end.

(** [float(v)] *)
Definition py_float (v : pyval) : result pyfloat :=
  match v with
  | VStr s => PyNum.float_of_string s
  | VInt z => Ok (FNum (inject_Z z))
  | VFloat f => Ok f
  end.

(** [x < y] on finite floats *)
Definition Qltb (x y : Q) : bool := if Qlt_le_dec x y then true else false.

(** [f < t] for a finite [t]: false on NaN. *)
Definition float_lt (f : pyfloat) (t : Q) : bool :=
  match f with
  | FNum q => Qltb q t
  | FNaN => false
  | FInf neg => neg
  end.

(** [v == n] for an integer [n]: a string never equals a number. *)
Definition py_eq_int (v : pyval) (n : Z) : bool :=
  match v with
  | VStr _ => false
  | VInt z => z =? n
  | VFloat (FNum q) => Qeq_bool q (inject_Z n)
  | VFloat _ => false
  end.

(** [v == s] for a string [s] *)
Definition py_eq_str (v : pyval) (s : string) : bool :=
  match v with
  | VStr t => String.eqb t s
  | _ => false
  end.

(** [not str(v).strip()], the engine's test for a blank cell. *)
Definition is_blank (v : pyval) : bool :=
  String.eqb (PyStr.strip (py_str v)) "".


(** ** The pseudo-random generators *)

(** A generator is a tape of raw draws and a read position.  Seeding fixes
    the tape; every call reads one cell and moves right. *)
Record generator := { tape : nat -> N; pos : nat }.

Definition next_raw (g : generator) : N * generator :=
  (tape g (pos g), {| tape := tape g; pos := S (pos g) |}).

Definition two53 : positive := 9007199254740992.

(** [random()]: a multiple of [2^-53] in the half-open unit interval. *)
Definition gen_random (g : generator) : Q * generator :=
  let '(r, g') := next_raw g in
  (Z.of_N (r mod Npos two53) # two53, g').

(** [uniform(a, b)] is [a + (b - a) * random()]. *)
Definition gen_uniform (a b : Q) (g : generator) : Q * generator :=
  let '(u, g') := gen_random g in ((a + (b - a) * u)%Q, g').

(** [_randbelow(n)], for a positive [n]. *)
Definition gen_randbelow (n : nat) (g : generator) : nat * generator :=
  let '(r, g') := next_raw g in (N.to_nat r mod n, g')%nat.

(** ** The run state and the monad of the engine *)

Record run_state := {
  rng : generator;                      (* random.Random(args.seed) *)
  np_random : generator;                (* numpy's global generator *)
  filled_counts : gmap string nat
}.

Definition M (A : Type) : Type := run_state -> result (A * run_state).

Definition ret {A} (a : A) : M A := fun s => Ok (a, s).

Definition bind {A B} (m : M A) (k : A -> M B) : M B :=
  fun s => match m s with
           | Ok (a, s') => k a s'
           | Raise e => Raise e
           end.

Definition raise {A} (e : exn) : M A := fun _ => Raise e.

Definition lift {A} (r : result A) : M A :=
  fun s => match r with Ok a => Ok (a, s) | Raise e => Raise e end.

Notation "x <~ c1 ;; c2" := (bind c1 (fun x => c2))
  (at level 100, c1 at next level, right associativity).
Definition with_rng {A} (f : generator -> A * generator) : M A :=
  fun s => let '(a, g) := f (rng s) in
           Ok (a, {| rng := g; np_random := np_random s;
                     filled_counts := filled_counts s |}).

Definition with_np {A} (f : generator -> A * generator) : M A :=
  fun s => let '(a, g) := f (np_random s) in
           Ok (a, {| rng := rng s; np_random := g;
                     filled_counts := filled_counts s |}).

(** [filled_counts[k] += 1]; every key counted is one of the ten the
    dictionary starts with. *)
Definition count_filled (k : string) : M unit :=
  fun s => Ok (tt, {| rng := rng s; np_random := np_random s;
                      filled_counts :=
                        <[k := S (default O (filled_counts s !! k))]>
                          (filled_counts s) |}).

(** ** Configuration and environment *)

Inductive skin_method := Random | Brightness.

(** The parsed command line ([parse_args]); the three confidence bands are
    held as [urange] returns them. *)
Record args := {
  inp : string;
  outp : string;
  seed : Z;
  ambiguous_rate : Q;
  uncertain_rate : Q;
  prefer_not_rate : Q;
  hi_conf_range : Q * Q;
  mid_conf_range : Q * Q;
  lo_conf_range : Q * Q;
  lowconf_threshold : Q;
  skin_tone_method : skin_method;
  skin_bins : Z;
  marker_rate : Q;
  overwrite : bool;
  dry_run : bool
}.

(** A decoded image: its size and its grey levels after [convert("L")]. *)
Record image := { im_w : Z; im_h : Z; im_px : Z -> Z -> Z }.

(** What the run sees of its surroundings: whether the import of PIL
    succeeded, the files that exist, and how an image file decodes
    ([None] when [Image.open] or [convert] raises). *)
Record environment := {
  PIL_OK : bool;
  path_exists : string -> bool;
  image_open : string -> option image
}.

(** ** Module constants *)

Definition FF_CLASSES : list string :=
  ["White"; "Black"; "EastAsian"; "SouthAsian"; "SoutheastAsian";
   "MiddleEastern"; "Latino"].

Definition ADJACENT_PAIRS : list (string * string) :=
  [("MiddleEastern", "SouthAsian");
   ("EastAsian", "SoutheastAsian");
   ("Latino", "White");
   ("Latino", "MiddleEastern");
   ("SouthAsian", "SoutheastAsian")].

(** ** [choose_multilabel] *)

(** [tuple(sorted(p))] *)
Definition sorted_pair (p : string * string) : string * string :=
  if String.leb (fst p) (snd p) then p else (snd p, fst p).

(** [base_label in p] *)
Definition in_pair (base_label : string) (p : string * string) : bool :=
  (String.eqb base_label (fst p) || String.eqb base_label (snd p))%bool.

Definition candidates (base_label : string) : list (string * string) :=
  map sorted_pair (filter (fun p => in_pair base_label p = true) ADJACENT_PAIRS).

Definition multilabel (base_label : string) (pair : string * string) : string :=
  let '(a, b) := pair in
  let other := if String.eqb a base_label then b else a in
  base_label +:+ "|" +:+ other.

Definition choose_multilabel (base_label : string) (ambiguous_rate : Q) : M string :=
  if negb (PyStr.mem base_label FF_CLASSES) then ret base_label
  else
    let cands := candidates base_label in
    match cands with
    | [] => ret base_label
    | _ :: _ =>
        u <~ with_rng gen_random ;;
        if Qltb u ambiguous_rate then
          k <~ with_rng (gen_randbelow (length cands)) ;;
          ret (multilabel base_label (nth k cands ("", "")))
        else ret base_label
    end.

(** ** [brightness_to_bin] *)

Fixpoint sum_range (f : Z -> Z) (start : Z) (n : nat) : Z :=
  match n with
  | O => 0
  | S n' => f start + sum_range f (start + 1) n'
  end.

(** Mean grey level of the crop [x0 <= x < x0+cw], [y0 <= y < y0+ch]. *)
Definition crop_mean (im : image) (x0 y0 cw ch : Z) : Q :=
  let total :=
    sum_range (fun y => sum_range (fun x => im_px im x y) x0 (Z.to_nat cw))
              y0 (Z.to_nat ch) in
  (inject_Z total / inject_Z (cw * ch))%Q.

(** [int(np.clip(x, lo, hi))] *)
Definition clip (x lo hi : Z) : Z := Z.min (Z.max x lo) hi.

(** [None] stands for Python's [None]; every exception inside the [try]
    (a file that is missing or does not decode) ends there as well.  The
    mean and its scaling are exact rationals here; the code's float32 mean
    and double product can land one bin lower where [bright * bins] is
    within rounding of a whole number, so the properties below rely on the
    range of the bin and on the cases without a bin, not on the exact bin
    of a given grey level. *)
Definition brightness_to_bin (env : environment) (img_path : string) (bins : Z)
  : option Z :=
  if negb (PIL_OK env) then None
  else
    match image_open env img_path with
    | None => None
    | Some im =>
        let w := im_w im in
        let h := im_h im in
        if ((w <? 10) || (h <? 10))%bool then None
        else
          let cw := Z.max 8 (Qfloor (inject_Z w * (6 # 10))) in
          let ch := Z.max 8 (Qfloor (inject_Z h * (6 # 10))) in
          let x0 := (w - cw) / 2 in
          let y0 := (h - ch) / 2 in
          let bright := (crop_mean im x0 y0 cw ch / 255)%Q in
          Some (clip (Qfloor (bright * inject_Z bins) + 1) 1 bins)
    end.

(** ** [np.random.choice(a, p=...)] *)

Fixpoint cumsum (acc : Q) (p : list Q) : list Q :=
  match p with
  | [] => []
  | x :: p' => (acc + x)%Q :: cumsum (acc + x)%Q p'
  end.

(** [cdf.searchsorted(u, side="right")] on a non-decreasing [cdf]: the
    number of leading entries that are at most [u]. *)
Fixpoint searchsorted_right (cdf : list Q) (u : Q) : nat :=
  match cdf with
  | [] => O
  | c :: cdf' => if Qle_bool c u then S (searchsorted_right cdf' u) else O
  end.

(** [np.sum] *)
Fixpoint Qsum (l : list Q) : Q :=
  match l with
  | [] => 0
  | x :: l' => x + Qsum l'
  end%Q.

Definition np_random_choice (a : list Z) (p : list Q) : M Z :=
  match a with
  | [] => raise (ValueError "'a' cannot be empty unless no samples are taken")
  | _ :: _ =>
      if negb (length p =? length a)%nat then
        raise (ValueError "'a' and 'p' must have same size")
      else if existsb (fun x => negb (Qle_bool 0 x)) p then
        raise (ValueError "probabilities are not non-negative")
      else if negb (Qeq_bool (Qsum p) 1) then
        raise (ValueError "probabilities do not sum to 1")
      else
        let cdf := cumsum 0 p in
        let cdf := map (fun c => (c / List.last cdf 1)%Q) cdf in
        u <~ with_np gen_random ;;
        ret (nth (searchsorted_right cdf u) a 0)
  end.

(** ** The per-row heuristics of [main] *)

(** [row[col]] and [df.at[i, col]] *)
Definition getitem (row : gmap string pyval) (col : string) : M pyval :=
  match row !! col with
  | Some v => ret v
  | None => raise (KeyError col)
  end.

(** [row.get(col, "")] *)
Definition row_get (row : gmap string pyval) (col : string) : pyval :=
  default (VStr "") (row !! col).

(** [args.overwrite or not str(row[col]).strip()] *)
Definition needs_fill (a : args) (row : gmap string pyval) (col : string) : M bool :=
  if overwrite a then ret true
  else v <~ getitem row col ;; ret (is_blank v).

Definition bernoulli (rate : Q) : M bool :=
  u <~ with_rng gen_random ;;
  ret (Qltb u rate).

Definition flag (b : bool) : pyval := VInt (if b then 1 else 0).

Section Row.

Variable a : args.
Variable env : environment.
(** [row] is the copy handed out by [df.iterrows()]; [cur] is the row of
    the frame itself, which [df.at] reads and writes. *)
Variable row : gmap string pyval.

Definition base_race : string := py_str (row_get row "race_cat").

Definition race_ml_block (cur : gmap string pyval)
  : M (string * gmap string pyval) :=
  fill <~ needs_fill a row "race_ml" ;;
  if fill then
    ml <~ choose_multilabel base_race (ambiguous_rate a) ;;
    let cur := <["race_ml" := VStr ml]> cur in
    _ <~ count_filled "race_ml" ;;
    ret (ml, cur)
  else
    v <~ getitem row "race_ml" ;;
    ret (py_str v, cur).

Definition ambiguous_mixed_block (ml : string) (cur : gmap string pyval)
  : M (gmap string pyval) :=
  fill <~ needs_fill a row "ambiguous_mixed" ;;
  if fill then
    let cur := <["ambiguous_mixed" := flag (PyStr.has_bar ml)]> cur in
    _ <~ count_filled "ambiguous_mixed" ;;
    ret cur
  else ret cur.

Definition prefer_not_to_label_block (cur : gmap string pyval)
  : M (gmap string pyval) :=
  fill <~ needs_fill a row "prefer_not_to_label" ;;
  if fill then
    b <~ bernoulli (prefer_not_rate a) ;;
    let cur := <["prefer_not_to_label" := flag b]> cur in
    _ <~ count_filled "prefer_not_to_label" ;;
    ret cur
  else ret cur.

Definition uniform (range : Q * Q) : M Q :=
  with_rng (gen_uniform (fst range) (snd range)).

Definition conf_race_block (ml : string) (cur : gmap string pyval)
  : M (gmap string pyval) :=
  fill <~ needs_fill a row "conf_race" ;;
  if fill then
    p <~ getitem cur "prefer_not_to_label" ;;
    conf <~ (if py_eq_int p 1 then uniform (lo_conf_range a)
             else if PyStr.has_bar ml then uniform (mid_conf_range a)
             else
               (* sometimes still uncertain *)
               u <~ with_rng gen_random ;;
               if Qltb (uncertain_rate a) u
               then uniform (hi_conf_range a)
               else uniform (lo_conf_range a)) ;;
    let cur := <["conf_race" := VFloat (FNum (PyNum.round3 conf))]> cur in
    _ <~ count_filled "conf_race" ;;
    ret cur
  else ret cur.

(** [conf_val] *)
Definition conf_val (cur : gmap string pyval) : M pyfloat :=
  v <~ getitem cur "conf_race" ;;
  if is_blank v then ret (FNum (1 # 2)) else lift (py_float v).

Definition unknown_uncertain_block (conf : pyfloat) (cur : gmap string pyval)
  : M (gmap string pyval) :=
  fill <~ needs_fill a row "unknown_uncertain" ;;
  if fill then
    unk <~ (if float_lt conf (lowconf_threshold a) then ret true
            else bernoulli (uncertain_rate a)) ;;
    let cur := <["unknown_uncertain" := flag unk]> cur in
    _ <~ count_filled "unknown_uncertain" ;;
    ret cur
  else ret cur.

(** [cond and rng.random() < rate]: no draw when [cond] is false. *)
Definition marker_if (cond : bool) (rate : Q) (name : string) : M (list string) :=
  if cond then
    b <~ bernoulli rate ;; ret (if b then [name] else [])
  else ret [].

Definition cultural_markers_block (cur : gmap string pyval)
  : M (gmap string pyval) :=
  fill <~ needs_fill a row "cultural_markers" ;;
  if fill then
    m1 <~ marker_if (PyStr.mem base_race ["MiddleEastern"; "SouthAsian"])
                    (marker_rate a) "religious_headwear" ;;
    m2 <~ marker_if (PyStr.mem (PyStr.lower (py_str (row_get row "gender_cat")))
                               ["male"; "m"])
                    (marker_rate a) "beard" ;;
    m3 <~ marker_if true (marker_rate a / 2)%Q "piercing_visible" ;;
    let markers := (m1 ++ m2 ++ m3)%list in
    let markers := match markers with [] => ["none"] | _ => markers end in
    let cur := <["cultural_markers" :=
                   VStr (PyStr.join "|" (PyStr.sorted_set markers))]> cur in
    _ <~ count_filled "cultural_markers" ;;
    ret cur
  else ret cur.

(** [root / img_path]; [Path(".")] is the empty prefix. *)
Definition path_join (root p : string) : string :=
  if String.eqb root "." then p else root +:+ "/" +:+ p.

(** The first of the common roots under which the path exists. *)
Fixpoint try_roots (roots : list string) (p : string) : string :=
  match roots with
  | [] => p
  | root :: roots' =>
      let candidate := path_join root p in
      if path_exists env candidate then candidate else try_roots roots' p
  end.

Definition resolve_path (p : string) : string :=
  if PyStr.startswith_slash p then p
  else try_roots ["."; "data/images"; "data"] p.

(** The brightness estimate of the row, when it is tried at all. *)
Definition brightness_attempt : M (option Z) :=
  match skin_tone_method a with
  | Brightness =>
      if PIL_OK env then
        rp <~ getitem row "rel_path" ;;
        if negb (is_blank rp) then
          match rp with
          | VStr p => ret (brightness_to_bin env (resolve_path p) (skin_bins a))
          | _ => raise (TypeError "expected str, bytes or os.PathLike object")
          end
        else ret None
      else ret None
  | Random => ret None
  end.

Definition black_weights : list Q :=
  [25 # 100; 22 # 100; 18 # 100; 14 # 100; 10 # 100; 7 # 100; 4 # 100]%Q.
Definition white_weights : list Q :=
  [4 # 100; 7 # 100; 10 # 100; 14 # 100; 18 # 100; 22 # 100; 25 # 100]%Q.

(** [[x] * n]: empty for [n <= 0]. *)
Definition repeat_list (x : Q) (n : Z) : list Q := repeat x (Z.to_nat n).

(** [list(range(1, n + 1))] *)
Definition range1 (n : Z) : list Z := map (fun k => Z.of_nat k + 1) (seq 0 (Z.to_nat n)).

(** The race-weighted random draw.  The default of [dict.get] is
    evaluated before the look-up, so [1/args.skin_bins] is computed for
    every race. *)
Definition random_bin : M Z :=
  if skin_bins a =? 0 then raise ZeroDivisionError
  else
    let uniform_weights := repeat_list (1 / inject_Z (skin_bins a))%Q (skin_bins a) in
    let weights :=
      if String.eqb base_race "Black" then black_weights
      else if String.eqb base_race "White" then white_weights
      else uniform_weights in
    let choices := range1 (skin_bins a) in
    let total := Qsum weights in
    np_random_choice choices (map (fun w => (w / total)%Q) weights).

Definition skin_tone_bin_block (cur : gmap string pyval)
  : M (gmap string pyval) :=
  fill <~ needs_fill a row "skin_tone_bin" ;;
  if fill then
    bin_val <~ brightness_attempt ;;
    bin_val <~ match bin_val with
               | Some b => ret b
               | None => random_bin
               end ;;
    let cur := <["skin_tone_bin" := VStr (pretty bin_val)]> cur in
    _ <~ count_filled "skin_tone_bin" ;;
    ret cur
  else ret cur.

Definition conf_skin_block (cur : gmap string pyval)
  : M (gmap string pyval) :=
  fill <~ needs_fill a row "conf_skin" ;;
  if fill then
    (* higher confidence if brightness-based succeeded; else moderate *)
    high <~ match skin_tone_method a with
            | Brightness =>
                if PIL_OK env then
                  s <~ getitem cur "skin_tone_bin" ;;
                  ret (negb (py_eq_str s "" || py_eq_str s "Unknown"))
                else ret false
            | Random => ret false
            end ;;
    conf <~ (if high : bool then uniform (6 # 10, 9 # 10)%Q
             else uniform (5 # 10, 8 # 10)%Q) ;;
    let cur := <["conf_skin" := VFloat (FNum (PyNum.round3 conf))]> cur in
    _ <~ count_filled "conf_skin" ;;
    ret cur
  else ret cur.

Definition conf_gender_block (cur : gmap string pyval)
  : M (gmap string pyval) :=
  fill <~ needs_fill a row "conf_gender" ;;
  if fill then
    let g := PyStr.lower (PyStr.strip (py_str (row_get row "gender_cat"))) in
    conf <~ (if PyStr.mem g ["male"; "m"; "female"; "f"]
             then uniform (8 # 10, 1)%Q
             else uniform (4 # 10, 7 # 10)%Q) ;;
    let cur := <["conf_gender" := VFloat (FNum (PyNum.round3 conf))]> cur in
    _ <~ count_filled "conf_gender" ;;
    ret cur
  else ret cur.

Definition annotation_notes_block (ml : string) (cur : gmap string pyval)
  : M (gmap string pyval) :=
  fill <~ needs_fill a row "annotation_notes" ;;
  if fill then
    unk <~ getitem cur "unknown_uncertain" ;;
    pnl <~ getitem cur "prefer_not_to_label" ;;
    let notes :=
      ((if PyStr.has_bar ml then ["auto: multi-heritage heuristic"] else []) ++
       (if py_eq_int unk 1 then ["auto: low confidence / uncertain"] else []) ++
       (if py_eq_int pnl 1 then ["auto: prefer-not-to-label set"] else []))%list in
    let cur := <["annotation_notes" := VStr (PyStr.join "; " notes)]> cur in
    match notes with
    | [] => ret cur
    | _ :: _ => _ <~ count_filled "annotation_notes" ;; ret cur
    end
  else ret cur.

(** The part of the loop body up to and including [conf_val]. *)
Definition row_to_conf : M (string * pyfloat * gmap string pyval) :=
  r <~ race_ml_block row ;;
  let '(ml, cur) := r in
  cur <~ ambiguous_mixed_block ml cur ;;
  cur <~ prefer_not_to_label_block cur ;;
  cur <~ conf_race_block ml cur ;;
  conf <~ conf_val cur ;;
  ret (ml, conf, cur).

(** The rest of the loop body, from the uncertainty flag on. *)
Definition row_from_conf (ml : string) (conf : pyfloat) (cur : gmap string pyval)
  : M (gmap string pyval) :=
  cur <~ unknown_uncertain_block conf cur ;;
  cur <~ cultural_markers_block cur ;;
  cur <~ skin_tone_bin_block cur ;;
  cur <~ conf_skin_block cur ;;
  cur <~ conf_gender_block cur ;;
  annotation_notes_block ml cur.

(** One iteration of [for i, row in df.iterrows()]. *)
Definition process_row : M (gmap string pyval) :=
  r <~ row_to_conf ;;
  let '(ml, conf, cur) := r in
  row_from_conf ml conf cur.

End Row.

(** ** The table and the run *)

Record DataFrame := {
  columns : list string;
  rows : list (gmap string pyval)
}.

(** What the run prints, line groups rather than characters. *)
Inductive message :=
| Banner                                            (* generator header *)
| Summary (n : nat) (counts : gmap string nat) (stats : string)
| DryRunNotice
| Saved (path : string)
| SaveError (e : exn)
| ErrorMessage (e : exn).

(** The libraries and the file system, as far as the run calls them:
    the two seeding routines, pandas' reader, writer and column
    statistics, and [Path.mkdir]. *)
Record platform := {
  seed_random : Z -> generator;
  seed_numpy : Z -> result generator;
  read_csv : string -> result DataFrame;
  flag_rates_and_medians : DataFrame -> result string;
  mkdir_parents : string -> result unit;
  to_csv : DataFrame -> string -> result unit
}.

(** What a finished run leaves behind. *)
Record report := {
  stdout : list message;
  table : DataFrame;
  saved : option DataFrame;
  exit_status : Z
}.

Definition safe_col (df : DataFrame) (col : string) (default : pyval) : DataFrame :=
  if PyStr.mem col (columns df) then df
  else {| columns := columns df ++ [col];
          rows := map (insert col default) (rows df) |}.

Definition base_columns : list string :=
  ["image_id"; "rel_path"; "race_cat"; "gender_cat"; "age_cat"; "split"].

Definition derived_columns : list string :=
  ["race_ml"; "skin_tone_bin"; "cultural_markers"; "ambiguous_mixed";
   "prefer_not_to_label"; "unknown_uncertain"; "conf_race"; "conf_gender";
   "conf_skin"; "annotation_notes"].

(** Ensure required columns exist *)
Definition ensure_columns (df : DataFrame) : DataFrame :=
  fold_left (fun df c => safe_col df c (VStr ""))
            (base_columns ++ derived_columns)%list df.

Definition counted_columns : list string :=
  ["race_ml"; "ambiguous_mixed"; "unknown_uncertain"; "prefer_not_to_label";
   "conf_race"; "skin_tone_bin"; "conf_skin"; "cultural_markers";
   "conf_gender"; "annotation_notes"].

Definition initial_counts : gmap string nat :=
  list_to_map (map (fun k => (k, O)) counted_columns).

(** [for i, row in df.iterrows(): ...] *)
Fixpoint iterrows (a : args) (env : environment) (rs : list (gmap string pyval))
  : M (list (gmap string pyval)) :=
  match rs with
  | [] => ret []
  | r :: rs' =>
      r' <~ process_row a env r ;;
      rs'' <~ iterrows a env rs' ;;
      ret (r' :: rs'')
  end.

(** The body of the first [main]: the engine.  An uncaught exception is
    [Raise]; [sys.exit(1)] after a failed save is a report with exit
    status 1. *)
Definition engine (sys : platform) (env : environment) (a : args) : result report :=
  let g := seed_random sys (seed a) in
  match seed_numpy sys (seed a) with
  | Raise e => Raise e
  | Ok npg =>
  match read_csv sys (inp a) with
  | Raise e => Raise e
  | Ok df =>
  let df := ensure_columns df in
  let s0 := {| rng := g; np_random := npg; filled_counts := initial_counts |} in
  match iterrows a env (rows df) s0 with
  | Raise e => Raise e
  | Ok (rows', s) =>
  let df := {| columns := columns df; rows := rows' |} in
  let n := length rows' in
  (* v/n in the tally of filled columns *)
  if (n =? 0)%nat then Raise ZeroDivisionError
  else
  match flag_rates_and_medians sys df with
  | Raise e => Raise e
  | Ok stats =>
  let out := [Summary n (filled_counts s) stats] in
  if dry_run a then
    Ok {| stdout := out ++ [DryRunNotice]; table := df; saved := None;
          exit_status := 0 |}
  else
  match mkdir_parents sys (outp a) with
  | Raise e => Raise e
  | Ok _ =>
  match to_csv sys df (outp a) with
  | Ok _ =>
      Ok {| stdout := out ++ [Saved (outp a)]; table := df; saved := Some df;
            exit_status := 0 |}
  | Raise e =>
      Ok {| stdout := out ++ [SaveError e]; table := df; saved := None;
            exit_status := 1 |}
  end end end end end end.

(** ** The program as the module defines it *)

(** The functions defined by the module's [def] statements. *)
Inductive function :=
| Fn_parse_args
| Fn_urange
| Fn_safe_col
| Fn_choose_multilabel
| Fn_brightness_to_bin
| Fn_main_engine                (* the first [def main] *)
| Fn_main_entry                 (* the second [def main] *)
| Fn_generate_v3_metadata.

(** The [def] statements in the order the module runs them. *)
Definition module_defs : list (string * function) :=
  [("parse_args", Fn_parse_args);
   ("urange", Fn_urange);
   ("safe_col", Fn_safe_col);
   ("choose_multilabel", Fn_choose_multilabel);
   ("brightness_to_bin", Fn_brightness_to_bin);
   ("main", Fn_main_engine);
   ("main", Fn_main_entry);
   ("generate_v3_metadata", Fn_generate_v3_metadata)].

(** The module's global names once it is loaded: a later [def] rebinds. *)
Definition globals : gmap string function :=
  fold_left (fun g kv => <[fst kv := snd kv]> g) module_defs ∅.

(** [main_logic(args)]: the name is looked up among the globals when the
    call runs. *)
Definition call_main_logic (sys : platform) (env : environment) (a : args)
  : result report :=
  match globals !! "main_logic" with
  | None => Raise (NameError "main_logic")
  | Some Fn_main_engine => engine sys env a
  | Some _ => Raise (TypeError "unexpected positional argument")
  end.

Definition generate_v3_metadata (sys : platform) (env : environment) (a : args)
  : result report :=
  if negb (path_exists env (inp a)) then Raise (FileNotFoundError (inp a))
  else call_main_logic sys env a.

(** What the operating system sees of a finished process. *)
Record process := {
  status : Z;
  printed : list message;
  written : option DataFrame
}.

(** The second [main], which [if __name__ == "__main__"] runs: every
    [Exception] is printed and turned into exit status 1. *)
Definition main (sys : platform) (env : environment) (a : args) : process :=
  match globals !! "main" with
  | Some Fn_main_entry =>
      match generate_v3_metadata sys env a with
      | Ok r => {| status := exit_status r; printed := Banner :: stdout r;
                   written := saved r |}
      | Raise e => {| status := 1; printed := [Banner; ErrorMessage e];
                      written := None |}
      end
  | Some Fn_main_engine =>
      match engine sys env a with
      | Ok r => {| status := exit_status r; printed := stdout r;
                   written := saved r |}
      | Raise e => {| status := 1; printed := []; written := None |}
      end
  | _ => {| status := 1; printed := []; written := None |}
  end.

(** ** Concrete inputs *)

Module Sample.

(** The defaults of [parse_args]. *)
Definition default_args : args :=
  {| inp := "./Data/labels_v3.csv";
     outp := "./Data/labels_v3.csv";
     seed := 42;
     ambiguous_rate := 15 # 100;
     uncertain_rate := 10 # 100;
     prefer_not_rate := 1 # 100;
     hi_conf_range := (80 # 100, 1)%Q;
     mid_conf_range := (55 # 100, 80 # 100)%Q;
     lo_conf_range := (30 # 100, 55 # 100)%Q;
     lowconf_threshold := 60 # 100;
     skin_tone_method := Random;
     skin_bins := 7;
     marker_rate := 12 # 100;
     overwrite := false;
     dry_run := false |}.

Definition with_skin (m : skin_method) (bins : Z) (a : args) : args :=
  {| inp := inp a; outp := outp a; seed := seed a;
     ambiguous_rate := ambiguous_rate a; uncertain_rate := uncertain_rate a;
     prefer_not_rate := prefer_not_rate a; hi_conf_range := hi_conf_range a;
     mid_conf_range := mid_conf_range a; lo_conf_range := lo_conf_range a;
     lowconf_threshold := lowconf_threshold a;
     skin_tone_method := m; skin_bins := bins;
     marker_rate := marker_rate a; overwrite := overwrite a;
     dry_run := dry_run a |}.

Definition with_ambiguous_rate (r : Q) (a : args) : args :=
  {| inp := inp a; outp := outp a; seed := seed a;
     ambiguous_rate := r; uncertain_rate := uncertain_rate a;
     prefer_not_rate := prefer_not_rate a; hi_conf_range := hi_conf_range a;
     mid_conf_range := mid_conf_range a; lo_conf_range := lo_conf_range a;
     lowconf_threshold := lowconf_threshold a;
     skin_tone_method := skin_tone_method a; skin_bins := skin_bins a;
     marker_rate := marker_rate a; overwrite := overwrite a;
     dry_run := dry_run a |}.

Definition with_hi_conf_range (r : Q * Q) (a : args) : args :=
  {| inp := inp a; outp := outp a; seed := seed a;
     ambiguous_rate := ambiguous_rate a; uncertain_rate := uncertain_rate a;
     prefer_not_rate := prefer_not_rate a; hi_conf_range := r;
     mid_conf_range := mid_conf_range a; lo_conf_range := lo_conf_range a;
     lowconf_threshold := lowconf_threshold a;
     skin_tone_method := skin_tone_method a; skin_bins := skin_bins a;
     marker_rate := marker_rate a; overwrite := overwrite a;
     dry_run := dry_run a |}.

(** A generator whose tape starts with the given raw draws (zeros after). *)
Definition tape_of (l : list N) : generator :=
  {| tape := fun i => nth i l 0%N; pos := 0 |}.

(** The raw draw behind [random() = n/8]. *)
Definition eighths (n : N) : N := (n * 1125899906842624)%N.

Definition state_of (py np : list N) : run_state :=
  {| rng := tape_of py; np_random := tape_of np;
     filled_counts := initial_counts |}.

(** No PIL, no files. *)
Definition bare : environment :=
  {| PIL_OK := false; path_exists := fun _ => false;
     image_open := fun _ => None |}.

(** PIL is there, but no image file is. *)
Definition no_images : environment :=
  {| PIL_OK := true; path_exists := fun _ => false;
     image_open := fun _ => None |}.

(** A scaffold row: the derived columns as [safe_col] creates them. *)
Definition scaffold (race gender : string) : gmap string pyval :=
  list_to_map
    ([("image_id", VStr "img_0001"); ("rel_path", VStr "img_0001.jpg");
      ("race_cat", VStr race); ("gender_cat", VStr gender);
      ("age_cat", VStr "20-29"); ("split", VStr "train")]
     ++ map (fun c => (c, VStr "")) derived_columns)%list.

(** A row whose derived columns are all filled in. *)
Definition filled_row (conf_race : pyval) : gmap string pyval :=
  list_to_map
    [("image_id", VStr "img_0001"); ("rel_path", VStr "img_0001.jpg");
     ("race_cat", VStr "Latino"); ("gender_cat", VStr "female");
     ("age_cat", VStr "20-29"); ("split", VStr "train");
     ("race_ml", VStr "Latino|White"); ("skin_tone_bin", VInt 4);
     ("cultural_markers", VStr "none"); ("ambiguous_mixed", VInt 0);
     ("prefer_not_to_label", VInt 0); ("unknown_uncertain", VInt 0);
     ("conf_race", conf_race); ("conf_gender", VFloat (FNum (9 # 10)));
     ("conf_skin", VFloat (FNum (7 # 10)));
     ("annotation_notes", VStr "checked by hand")].

Definition all_columns : list string := (base_columns ++ derived_columns)%list.

Definition table_of (rs : list (gmap string pyval)) : DataFrame :=
  {| columns := all_columns; rows := rs |}.

(** A platform on which the input file holds [df] and every call of the
    libraries succeeds. *)
Definition platform_of (df : DataFrame) : platform :=
  {| seed_random := fun _ => tape_of [];
     seed_numpy := fun _ => Ok (tape_of []);
     read_csv := fun _ => Ok df;
     flag_rates_and_medians := fun _ => Ok "";
     mkdir_parents := fun _ => Ok tt;
     to_csv := fun _ _ => Ok tt |}.

(** The input file is there. *)
Definition with_input (env : environment) : environment :=
  {| PIL_OK := PIL_OK env; path_exists := fun _ => true;
     image_open := image_open env |}.

End Sample.


(** A column is filled when overwriting, or when its cell is blank. *)
Definition to_fill (a : args) (row : gmap string pyval) (col : string) : Prop :=
  overwrite a = true \/ exists v, row !! col = Some v /\ is_blank v = true.

(** A column is kept when not overwriting and its cell is not blank. *)
Definition to_keep (a : args) (row : gmap string pyval) (col : string) : Prop :=
  overwrite a = false /\ exists v, row !! col = Some v /\ is_blank v = false.

(** The cell a processed row ends with; nothing after an exception. *)
Definition cell_after (r : result (gmap string pyval * run_state)) (col : string)
  : option pyval :=
  match r with
  | Ok (cur, _) => cur !! col
  | Raise _ => None
  end.

(** A value between 0 and 1. *)
Definition in_unit (q : Q) : Prop := (0 <= q /\ q <= 1)%Q.

(** A whole number of thousandths. *)
Definition three_decimals (q : Q) : Prop := exists k : Z, q = k # 1000.

(** The three configured confidence bands lie between 0 and 1. *)
Definition bands_in_unit (a : args) : Prop :=
  (in_unit (fst (lo_conf_range a)) /\ in_unit (snd (lo_conf_range a))) /\
  (in_unit (fst (mid_conf_range a)) /\ in_unit (snd (mid_conf_range a))) /\
  (in_unit (fst (hi_conf_range a)) /\ in_unit (snd (hi_conf_range a))).

(** A confidence cell written by the engine: a float between 0 and 1 with
    three decimals. *)
Definition good_confidence (cur : gmap string pyval) (col : string) : Prop :=
  exists q, cur !! col = Some (VFloat (FNum q)) /\ in_unit q /\ three_decimals q.

(** Every derived column of the row is kept by a fill-blanks run, and its
    [conf_race] converts to a float. *)
Definition fully_filled (a : args) (row : gmap string pyval) : Prop :=
  (forall c, In c derived_columns -> to_keep a row c) /\
  exists v f, row !! "conf_race" = Some v /\ py_float v = Ok f.

(** No derived cell of the row is blank. *)
Definition no_blank_cell (row : gmap string pyval) : bool :=
  forallb (fun c => match row !! c with
                    | Some v => negb (is_blank v)
                    | None => false
                    end) derived_columns.

(** ** [urange] *)

(** [l.split(sep)] on characters: one more piece than separators. *)
Fixpoint split_chars (sep : ascii) (l : list ascii) : list (list ascii) :=
  match l with
  | [] => [[]]
  | c :: l' =>
      if Ascii.eqb c sep then [] :: split_chars sep l'
      else match split_chars sep l' with
           | piece :: pieces => (c :: piece) :: pieces
           | [] => [[c]]
           end
  end.

(** [s.split(",")] *)
Definition split_comma (s : string) : list string :=
  map string_of_list_ascii (split_chars ","%char (list_ascii_of_string s)).

(** The number of commas of a string. *)
Definition commas (s : string) : nat :=
  length (filter (fun c => Ascii.eqb c ","%char = true) (list_ascii_of_string s)).

(** [a,b = s.split(","); return float(a), float(b)]: the unpacking comes
    first, then the two conversions from left to right. *)
Definition urange (s : string) : result (pyfloat * pyfloat) :=
  match split_comma s with
  | [x; y] =>
      match PyNum.float_of_string x with
      | Raise e => Raise e
      | Ok fx =>
          match PyNum.float_of_string y with
          | Raise e => Raise e
          | Ok fy => Ok (fx, fy)
          end
      end
  | [] | [_] => Raise (ValueError "not enough values to unpack (expected 2, got 1)")
  | _ => Raise (ValueError "too many values to unpack (expected 2)")
  end.

(** A cell written as [round(rng.uniform(lo, hi), 3)]. *)
Definition drawn_from (range : Q * Q) (v : pyval) : Prop :=
  exists u : Q, (0 <= u)%Q /\ (u < 1)%Q /\
    v = VFloat (FNum (PyNum.round3
                        (fst range + (snd range - fst range) * u)%Q)).

(** The texts the cultural-marker block can write. *)
Definition marker_texts : list string :=
  ["none"; "beard"; "piercing_visible"; "religious_headwear";
   "beard|piercing_visible"; "beard|religious_headwear";
   "piercing_visible|religious_headwear";
   "beard|piercing_visible|religious_headwear"].

(** The derived columns other than the notes. *)
Definition value_columns : list string :=
  ["race_ml"; "skin_tone_bin"; "cultural_markers"; "ambiguous_mixed";
   "prefer_not_to_label"; "unknown_uncertain"; "conf_race"; "conf_gender";
   "conf_skin"].

(** The notes of the row are settled: either non-blank, or empty with none
    of the three flags set, so that writing them again writes the same. *)
Definition notes_settled (a : args) (r : gmap string pyval) : Prop :=
  to_keep a r "annotation_notes" \/
  (overwrite a = false /\
   r !! "annotation_notes" = Some (VStr "") /\
   exists ml u p,
     r !! "race_ml" = Some ml /\ r !! "unknown_uncertain" = Some u /\
     r !! "prefer_not_to_label" = Some p /\
     PyStr.has_bar (py_str ml) = false /\
     py_eq_int u 1 = false /\ py_eq_int p 1 = false).

(** A row that a fill-blanks pass leaves alone. *)
Definition settled (a : args) (r : gmap string pyval) : Prop :=
  (forall c, In c value_columns -> to_keep a r c) /\
  (exists v f, r !! "conf_race" = Some v /\ py_float v = Ok f) /\
  notes_settled a r.

(** Whether a result is a value. *)
Definition succeeds {A} (r : result A) : bool :=
  match r with
  | Ok _ => true
  | Raise _ => false
  end.

(** * Properties *)

(** ** Reasoning about the monad *)

Lemma bind_Ok {A B} (m : M A) (k : A -> M B) s r :
  bind m k s = Ok r -> exists x s1, m s = Ok (x, s1) /\ k x s1 = Ok r.
Proof.
  unfold bind. destruct (m s) as [[x s1]|e]; [|discriminate].
  intros H. exists x, s1. split; [reflexivity|exact H].
Qed.

Lemma bind_eq {A B} (m : M A) (k : A -> M B) s x s1 :
  m s = Ok (x, s1) -> bind m k s = k x s1.
Proof. unfold bind. by intros ->. Qed.

Lemma ret_Ok {A} (x y : A) s s' : ret x s = Ok (y, s') -> y = x /\ s' = s.
Proof. unfold ret. intros H. injection H as -> ->. split; reflexivity. Qed.

Lemma getitem_Ok row col s v s' :
  getitem row col s = Ok (v, s') -> row !! col = Some v /\ s' = s.
Proof.
  unfold getitem. destruct (row !! col) as [w|]; [|discriminate].
  intros H. apply ret_Ok in H as [-> ->]. split; reflexivity.
Qed.

Lemma needs_fill_Ok a row col s b s' :
  needs_fill a row col s = Ok (b, s') ->
  s' = s /\ (if b then to_fill a row col else to_keep a row col).
Proof.
  unfold needs_fill, to_fill, to_keep. destruct (overwrite a) eqn:Ho.
  - intros H. apply ret_Ok in H as [-> ->]. split; [reflexivity|]. by left.
  - intros H. apply bind_Ok in H as (v & s1 & Hg & H).
    apply getitem_Ok in Hg as [Hv ->]. apply ret_Ok in H as [-> ->].
    split; [reflexivity|]. destruct (is_blank v) eqn:Hb.
    + right. eauto.
    + split; [reflexivity|]. eauto.
Qed.

Lemma to_fill_keep a row col : to_fill a row col -> to_keep a row col -> False.
Proof.
  intros [Ho | (v & Hv & Hb)] [Ho' (w & Hw & Hb')]; [congruence|].
  rewrite Hv in Hw. injection Hw as <-. congruence.
Qed.

Lemma needs_fill_keep a row col s :
  to_keep a row col -> needs_fill a row col s = Ok (false, s).
Proof.
  intros [Ho (v & Hv & Hb)]. unfold needs_fill, bind, getitem, ret.
  rewrite Ho, Hv, Hb. reflexivity.
Qed.

Lemma needs_fill_fill a row col s :
  to_fill a row col -> needs_fill a row col s = Ok (true, s).
Proof.
  intros Hf. unfold needs_fill. destruct (overwrite a) eqn:Ho; [reflexivity|].
  destruct Hf as [Hf | (v & Hv & Hb)]; [congruence|].
  unfold bind, getitem, ret. rewrite Hv, Hb. reflexivity.
Qed.

(** Take a monadic equation apart, one [bind] at a time. *)
Ltac step_bind H :=
  let x := fresh "x" in
  let s := fresh "s" in
  let Hx := fresh "Hx" in
  apply bind_Ok in H as (x & s & Hx & H).

Tactic Notation "invert_bind" hyp(H) "as" ident(x) ident(s) ident(Hx) :=
  apply bind_Ok in H as (x & s & Hx & H).

Ltac done_ret H :=
  apply ret_Ok in H; destruct H; simplify_eq.

(** ** Each block writes its own column only *)

Section Frames.

Variable a : args.
Variable env : environment.
Variable row : gmap string pyval.

(** Open a block: case on the fill test, drop the trailing count. *)
Ltac open_block H :=
  let Hf := fresh "Hfill" in
  step_bind H;
  match goal with
  | Hx : needs_fill _ _ _ _ = Ok (?b, _) |- _ =>
      apply needs_fill_Ok in Hx as [-> Hf]; destruct b
  end.

Lemma race_ml_block_frame cur s ml cur' s' c :
  race_ml_block a row cur s = Ok (ml, cur', s') ->
  c <> "race_ml" -> cur' !! c = cur !! c.
Proof.
  intros H Hc. unfold race_ml_block in H. open_block H.
  - step_bind H. step_bind H. done_ret H. by rewrite lookup_insert_ne.
  - step_bind H. done_ret H. reflexivity.
Qed.

Lemma ambiguous_mixed_block_frame ml cur s cur' s' c :
  ambiguous_mixed_block a row ml cur s = Ok (cur', s') ->
  c <> "ambiguous_mixed" -> cur' !! c = cur !! c.
Proof.
  intros H Hc. unfold ambiguous_mixed_block in H. open_block H.
  - step_bind H. done_ret H. by rewrite lookup_insert_ne.
  - done_ret H. reflexivity.
Qed.

Lemma prefer_not_to_label_block_frame cur s cur' s' c :
  prefer_not_to_label_block a row cur s = Ok (cur', s') ->
  c <> "prefer_not_to_label" -> cur' !! c = cur !! c.
Proof.
  intros H Hc. unfold prefer_not_to_label_block in H. open_block H.
  - step_bind H. step_bind H. done_ret H. by rewrite lookup_insert_ne.
  - done_ret H. reflexivity.
Qed.

Lemma conf_race_block_frame ml cur s cur' s' c :
  conf_race_block a row ml cur s = Ok (cur', s') ->
  c <> "conf_race" -> cur' !! c = cur !! c.
Proof.
  intros H Hc. unfold conf_race_block in H. open_block H.
  - step_bind H. step_bind H. step_bind H. done_ret H.
    by rewrite lookup_insert_ne.
  - done_ret H. reflexivity.
Qed.

Lemma unknown_uncertain_block_frame conf cur s cur' s' c :
  unknown_uncertain_block a row conf cur s = Ok (cur', s') ->
  c <> "unknown_uncertain" -> cur' !! c = cur !! c.
Proof.
  intros H Hc. unfold unknown_uncertain_block in H. open_block H.
  - step_bind H. step_bind H. done_ret H. by rewrite lookup_insert_ne.
  - done_ret H. reflexivity.
Qed.

Lemma cultural_markers_block_frame cur s cur' s' c :
  cultural_markers_block a row cur s = Ok (cur', s') ->
  c <> "cultural_markers" -> cur' !! c = cur !! c.
Proof.
  intros H Hc. unfold cultural_markers_block in H. open_block H.
  - do 4 step_bind H. done_ret H. by rewrite lookup_insert_ne.
  - done_ret H. reflexivity.
Qed.

Lemma skin_tone_bin_block_frame cur s cur' s' c :
  skin_tone_bin_block a env row cur s = Ok (cur', s') ->
  c <> "skin_tone_bin" -> cur' !! c = cur !! c.
Proof.
  intros H Hc. unfold skin_tone_bin_block in H. open_block H.
  - do 3 step_bind H. done_ret H. by rewrite lookup_insert_ne.
  - done_ret H. reflexivity.
Qed.

Lemma conf_skin_block_frame cur s cur' s' c :
  conf_skin_block a env row cur s = Ok (cur', s') ->
  c <> "conf_skin" -> cur' !! c = cur !! c.
Proof.
  intros H Hc. unfold conf_skin_block in H. open_block H.
  - do 3 step_bind H. done_ret H. by rewrite lookup_insert_ne.
  - done_ret H. reflexivity.
Qed.

Lemma conf_gender_block_frame cur s cur' s' c :
  conf_gender_block a row cur s = Ok (cur', s') ->
  c <> "conf_gender" -> cur' !! c = cur !! c.
Proof.
  intros H Hc. unfold conf_gender_block in H. open_block H.
  - do 2 step_bind H. done_ret H. by rewrite lookup_insert_ne.
  - done_ret H. reflexivity.
Qed.

Lemma annotation_notes_block_frame ml cur s cur' s' c :
  annotation_notes_block a row ml cur s = Ok (cur', s') ->
  c <> "annotation_notes" -> cur' !! c = cur !! c.
Proof.
  intros H Hc. unfold annotation_notes_block in H. open_block H.
  - do 2 step_bind H.
    destruct (_ ++ _)%list in H.
    + done_ret H. by rewrite lookup_insert_ne.
    + step_bind H. done_ret H. by rewrite lookup_insert_ne.
  - done_ret H. reflexivity.
Qed.

End Frames.

(** ** The loop body, block by block *)

Lemma process_row_Ok a env row s cur s' :
  process_row a env row s = Ok (cur, s') ->
  exists ml conf c1 s1 c2 s2 c3 s3 c4 s4 c5 s5 c6 s6 c7 s7 c8 s8 c9 s9,
    race_ml_block a row row s = Ok (ml, c1, s1) /\
    ambiguous_mixed_block a row ml c1 s1 = Ok (c2, s2) /\
    prefer_not_to_label_block a row c2 s2 = Ok (c3, s3) /\
    conf_race_block a row ml c3 s3 = Ok (c4, s4) /\
    conf_val c4 s4 = Ok (conf, s4) /\
    unknown_uncertain_block a row conf c4 s4 = Ok (c5, s5) /\
    cultural_markers_block a row c5 s5 = Ok (c6, s6) /\
    skin_tone_bin_block a env row c6 s6 = Ok (c7, s7) /\
    conf_skin_block a env row c7 s7 = Ok (c8, s8) /\
    conf_gender_block a row c8 s8 = Ok (c9, s9) /\
    annotation_notes_block a row ml c9 s9 = Ok (cur, s') /\
    row_to_conf a row s = Ok (ml, conf, c4, s4).
Proof.
  intros H. unfold process_row in H. invert_bind H as r s40 Hpre.
  destruct r as [[ml0 conf0] c40].
  pose proof Hpre as Hx.
  unfold row_to_conf in Hx. invert_bind Hx as r s1 H1. destruct r as [ml c1].
  invert_bind Hx as c2 s2 H2. invert_bind Hx as c3 s3 H3.
  invert_bind Hx as c4 s4 H4. invert_bind Hx as conf s4b H5.
  apply ret_Ok in Hx as [Er Es]. injection Er as -> -> ->. subst s40.
  assert (s4b = s4) as ->.
  { unfold conf_val in H5. invert_bind H5 as v t Hv.
    apply getitem_Ok in Hv as [_ ->].
    destruct (is_blank v); [by apply ret_Ok in H5 as [_ ->]|].
    unfold lift in H5. destruct (py_float v); by simplify_eq. }
  unfold row_from_conf in H.
  invert_bind H as c5 s5 H6. invert_bind H as c6 s6 H7. invert_bind H as c7 s7 H8.
  invert_bind H as c8 s8 H9. invert_bind H as c9 s9 H10.
  exists ml, conf, c1, s1, c2, s2, c3, s3, c4, s4, c5, s5, c6, s6, c7, s7,
         c8, s8, c9, s9.
  repeat split; assumption.
Qed.

(** The final row agrees with the intermediate rows on earlier columns. *)
Ltac frame_all :=
  repeat match goal with
  | H : annotation_notes_block _ _ _ _ _ = Ok (?c, _) |- context [?c !! ?k] =>
      rewrite (annotation_notes_block_frame _ _ _ _ _ _ _ k H) by done
  | H : conf_gender_block _ _ _ _ = Ok (?c, _) |- context [?c !! ?k] =>
      rewrite (conf_gender_block_frame _ _ _ _ _ _ k H) by done
  | H : conf_skin_block _ _ _ _ _ = Ok (?c, _) |- context [?c !! ?k] =>
      rewrite (conf_skin_block_frame _ _ _ _ _ _ _ k H) by done
  | H : skin_tone_bin_block _ _ _ _ _ = Ok (?c, _) |- context [?c !! ?k] =>
      rewrite (skin_tone_bin_block_frame _ _ _ _ _ _ _ k H) by done
  | H : cultural_markers_block _ _ _ _ = Ok (?c, _) |- context [?c !! ?k] =>
      rewrite (cultural_markers_block_frame _ _ _ _ _ _ k H) by done
  | H : unknown_uncertain_block _ _ _ _ _ = Ok (?c, _) |- context [?c !! ?k] =>
      rewrite (unknown_uncertain_block_frame _ _ _ _ _ _ _ k H) by done
  | H : conf_race_block _ _ _ _ _ = Ok (?c, _) |- context [?c !! ?k] =>
      rewrite (conf_race_block_frame _ _ _ _ _ _ _ k H) by done
  | H : prefer_not_to_label_block _ _ _ _ = Ok (?c, _) |- context [?c !! ?k] =>
      rewrite (prefer_not_to_label_block_frame _ _ _ _ _ _ k H) by done
  | H : ambiguous_mixed_block _ _ _ _ _ = Ok (?c, _) |- context [?c !! ?k] =>
      rewrite (ambiguous_mixed_block_frame _ _ _ _ _ _ _ k H) by done
  | H : race_ml_block _ _ _ _ = Ok (_, ?c, _) |- context [?c !! ?k] =>
      rewrite (race_ml_block_frame _ _ _ _ _ _ _ k H) by done
  end.

Ltac open_row H :=
  apply process_row_Ok in H as
    (ml & conf & c1 & s1 & c2 & s2 & c3 & s3 & c4 & s4 & c5 & s5 & c6 & s6 &
     c7 & s7 & c8 & s8 & c9 & s9 & Hrace & Hamb & Hpref & Hconf & Hval & Hunk &
     Hmark & Hskin & Hcskin & Hcgen & Hnotes & Hprefix).

Lemma race_ml_block_label a row s ml cur s' :
  race_ml_block a row row s = Ok (ml, cur, s') ->
  exists v, cur !! "race_ml" = Some v /\ py_str v = ml.
Proof.
  intros H. unfold race_ml_block in H. step_bind H.
  apply needs_fill_Ok in Hx as [-> Hf]. destruct x.
  - do 2 step_bind H. done_ret H. eexists.
    split; [by rewrite lookup_insert_eq|reflexivity].
  - step_bind H. apply getitem_Ok in Hx as [Hv ->]. done_ret H. eauto.
Qed.

Lemma ambiguous_mixed_block_filled a row ml cur s cur' s' :
  ambiguous_mixed_block a row ml cur s = Ok (cur', s') ->
  to_fill a row "ambiguous_mixed" ->
  cur' !! "ambiguous_mixed" = Some (flag (PyStr.has_bar ml)).
Proof.
  intros H Hf. unfold ambiguous_mixed_block in H. step_bind H.
  apply needs_fill_Ok in Hx as [-> Hk]. destruct x.
  - step_bind H. done_ret H. by rewrite lookup_insert_eq.
  - destruct (to_fill_keep _ _ _ Hf Hk).
Qed.

Lemma py_eq_int_flag b : py_eq_int (flag b) 1 = b.
Proof. by destruct b. Qed.

(** C5 (as amended).  When the engine fills [ambiguous_mixed] (the cell was
    blank, or overwrite mode is on), the flag of the processed row equals 1
    exactly when the row's final [race_ml] contains the separator ["|"],
    whether [race_ml] was filled in this run or kept from the input. *)
Theorem ambiguous_mixed_iff_separator a env row s cur s' :
  process_row a env row s = Ok (cur, s') ->
  to_fill a row "ambiguous_mixed" ->
  exists v ml,
    cur !! "ambiguous_mixed" = Some v /\
    cur !! "race_ml" = Some ml /\
    (py_eq_int v 1 = true <-> PyStr.has_bar (py_str ml) = true).
Proof.
  intros H Hf. open_row H.
  destruct (race_ml_block_label _ _ _ _ _ _ Hrace) as (w & Hw & Hml).
  pose proof (ambiguous_mixed_block_filled _ _ _ _ _ _ _ Hamb Hf) as Hflag.
  exists (flag (PyStr.has_bar ml)), w. frame_all.
  repeat split; try done.
  - rewrite py_eq_int_flag, Hml. done.
  - rewrite py_eq_int_flag, Hml. done.
Qed.

Lemma ambiguous_mixed_iff_separator_witness :
  exists v ml,
    cell_after (process_row Sample.default_args Sample.bare
                  (Sample.scaffold "Latino" "female")
                  (Sample.state_of [] [])) "ambiguous_mixed" = Some v /\
    cell_after (process_row Sample.default_args Sample.bare
                  (Sample.scaffold "Latino" "female")
                  (Sample.state_of [] [])) "race_ml" = Some ml /\
    (py_eq_int v 1 = true <-> PyStr.has_bar (py_str ml) = true).
Proof.
  destruct (process_row Sample.default_args Sample.bare
              (Sample.scaffold "Latino" "female") (Sample.state_of [] []))
    as [[cur s']|e] eqn:E; [|vm_compute in E; discriminate].
  apply (ambiguous_mixed_iff_separator _ _ _ _ _ _ E).
  right. exists (VStr ""). split; reflexivity.
Defined.

(** C5 (as stated) fails: in fill-blanks mode a row that arrives with
    [race_ml = "Latino|White"] and [ambiguous_mixed = 0] keeps both. *)
Lemma ambiguous_mixed_kept_inconsistent :
  cell_after (process_row Sample.default_args Sample.bare
                (Sample.filled_row (VFloat (FNum (9 # 10))))
                (Sample.state_of [] [])) "ambiguous_mixed" = Some (VInt 0) /\
  cell_after (process_row Sample.default_args Sample.bare
                (Sample.filled_row (VFloat (FNum (9 # 10))))
                (Sample.state_of [] [])) "race_ml" = Some (VStr "Latino|White") /\
  py_eq_int (VInt 0) 1 = false /\
  PyStr.has_bar "Latino|White" = true.
Proof. vm_compute. repeat split; reflexivity. Qed.

(** ** Draws and rounding *)

Lemma gen_random_unit g u g' :
  gen_random g = (u, g') -> (0 <= u)%Q /\ (u < 1)%Q.
Proof.
  unfold gen_random, next_raw. intros H. injection H as <- _.
  pose proof (N.mod_lt (tape g (pos g)) (N.pos two53) ltac:(discriminate)) as Hlt.
  unfold Qle, Qlt. cbn [Qnum Qden].
  change (Z.pos two53) with (Z.of_N (N.pos two53)).
  generalize dependent (tape g (pos g) mod N.pos two53)%N.
  generalize (N.pos two53). intros n m Hlt. lia.
Qed.

Lemma with_rng_random s u s' :
  with_rng gen_random s = Ok (u, s') ->
  u = fst (gen_random (rng s)) /\ (0 <= u)%Q /\ (u < 1)%Q.
Proof.
  unfold with_rng. destruct (gen_random (rng s)) as [v g] eqn:E.
  intros H. injection H as <- _. split; [reflexivity|].
  exact (gen_random_unit _ _ _ E).
Qed.

Lemma uniform_between range s q s' :
  uniform range s = Ok (q, s') ->
  in_unit (fst range) -> in_unit (snd range) -> in_unit q.
Proof.
  unfold uniform, with_rng, gen_uniform.
  destruct (gen_random (rng s)) as [u g] eqn:E.
  destruct (gen_random_unit _ _ _ E) as [H0 H1].
  intros H [Ha0 Ha1] [Hb0 Hb1]. injection H as <- _.
  unfold in_unit. split; nra.
Qed.

Lemma round_half_even_between q lo hi :
  (inject_Z lo <= q)%Q -> (q <= inject_Z hi)%Q ->
  lo <= PyNum.round_half_even q <= hi.
Proof.
  intros Hlo Hhi. unfold PyNum.round_half_even.
  pose proof (Qfloor_resp_le _ _ Hlo) as Hf1. rewrite Qfloor_Z in Hf1.
  pose proof (Qfloor_resp_le _ _ Hhi) as Hf2. rewrite Qfloor_Z in Hf2.
  pose proof (Qfloor_le q) as Hfl.
  assert (Hup : (1 # 2 <= q - inject_Z (Qfloor q))%Q -> Qfloor q + 1 <= hi).
  { intros Hr. destruct (Z.eq_dec (Qfloor q) hi) as [E|]; [|lia].
    rewrite E in Hr. lra. }
  destruct (Qcompare (q - inject_Z (Qfloor q)) (1 # 2)) eqn:E.
  - apply Qeq_alt in E. destruct (Z.even (Qfloor q)); [lia|].
    split; [lia|]. apply Hup. lra.
  - lia.
  - apply Qgt_alt in E. split; [lia|]. apply Hup. lra.
Qed.

Lemma round3_in_unit q : in_unit q -> in_unit (PyNum.round3 q).
Proof.
  intros [H0 H1]. unfold PyNum.round3.
  destruct (round_half_even_between (q * 1000) 0 1000) as [Hlo Hhi].
  - change (inject_Z 0) with 0%Q. lra.
  - change (inject_Z 1000) with 1000%Q. lra.
  - unfold in_unit, Qle. cbn [Qnum Qden]. lia.
Qed.

Lemma round3_three_decimals q : three_decimals (PyNum.round3 q).
Proof. eexists. reflexivity. Qed.

(** ** The confidence blocks *)

Section Confidence.

Variable a : args.
Variable env : environment.
Variable row : gmap string pyval.

Lemma conf_race_block_filled ml cur s cur' s' :
  conf_race_block a row ml cur s = Ok (cur', s') ->
  to_fill a row "conf_race" ->
  exists q, cur' !! "conf_race" = Some (VFloat (FNum (PyNum.round3 q))) /\
            (bands_in_unit a -> in_unit q).
Proof.
  intros H Hf. unfold conf_race_block in H.
  invert_bind H as fill t Hn. apply needs_fill_Ok in Hn as [-> Hk].
  destruct fill; [|destruct (to_fill_keep _ _ _ Hf Hk)].
  invert_bind H as p t Hp. invert_bind H as q t' Hq. invert_bind H as u t'' Hc.
  apply ret_Ok in H as [-> ->]. exists q.
  split; [by rewrite lookup_insert_eq|]. intros (Hlo & Hmid & Hhi).
  destruct (py_eq_int p 1).
  { eapply uniform_between; [exact Hq|apply Hlo..]. }
  destruct (PyStr.has_bar ml).
  { eapply uniform_between; [exact Hq|apply Hmid..]. }
  invert_bind Hq as v t3 Hv.
  destruct (Qltb (uncertain_rate a) v).
  - eapply uniform_between; [exact Hq|apply Hhi..].
  - eapply uniform_between; [exact Hq|apply Hlo..].
Qed.

Lemma conf_skin_block_filled cur s cur' s' :
  conf_skin_block a env row cur s = Ok (cur', s') ->
  to_fill a row "conf_skin" ->
  exists q, cur' !! "conf_skin" = Some (VFloat (FNum (PyNum.round3 q))) /\
            in_unit q.
Proof.
  intros H Hf. unfold conf_skin_block in H.
  invert_bind H as fill t Hn. apply needs_fill_Ok in Hn as [-> Hk].
  destruct fill; [|destruct (to_fill_keep _ _ _ Hf Hk)].
  invert_bind H as high t Hh. invert_bind H as q t' Hq. invert_bind H as u t'' Hc.
  apply ret_Ok in H as [-> ->]. exists q.
  split; [by rewrite lookup_insert_eq|].
  destruct high;
    (eapply uniform_between; [exact Hq|..]); unfold in_unit; cbn [fst snd]; lra.
Qed.

Lemma conf_gender_block_filled cur s cur' s' :
  conf_gender_block a row cur s = Ok (cur', s') ->
  to_fill a row "conf_gender" ->
  exists q, cur' !! "conf_gender" = Some (VFloat (FNum (PyNum.round3 q))) /\
            in_unit q.
Proof.
  intros H Hf. unfold conf_gender_block in H.
  invert_bind H as fill t Hn. apply needs_fill_Ok in Hn as [-> Hk].
  destruct fill; [|destruct (to_fill_keep _ _ _ Hf Hk)].
  invert_bind H as q t' Hq. invert_bind H as u t'' Hc.
  apply ret_Ok in H as [-> ->]. exists q.
  split; [by rewrite lookup_insert_eq|].
  destruct (PyStr.mem _ _);
    (eapply uniform_between; [exact Hq|..]); unfold in_unit; cbn [fst snd]; lra.
Qed.

End Confidence.

Lemma default_bands_in_unit : bands_in_unit Sample.default_args.
Proof. unfold bands_in_unit, in_unit. cbn. repeat split; lra. Qed.


(** The configured bands are used as given: with the high band set to
    [2, 3] a confident "Black" row gets [conf_race = 2.5]. *)
Example conf_race_follows_configured_band :
  cell_after (process_row (Sample.with_hi_conf_range (2, 3)%Q Sample.default_args)
                Sample.bare (Sample.scaffold "Black" "female")
                (Sample.state_of (repeat (Sample.eighths 4) 20) []))
             "conf_race"
  = Some (VFloat (FNum (2500 # 1000))).
Proof. vm_compute. reflexivity. Qed.

(** ** Multi-label race *)

Lemma candidates_MiddleEastern :
  candidates "MiddleEastern" =
  [("MiddleEastern", "SouthAsian"); ("Latino", "MiddleEastern")].
Proof. reflexivity. Qed.

Lemma Qltb_below_one u rate : (u < 1)%Q -> (rate == 1)%Q -> Qltb u rate = true.
Proof.
  intros Hu Hr. unfold Qltb. destruct (Qlt_le_dec u rate); [reflexivity|lra].
Qed.

Lemma with_rng_randbelow n s k s' :
  n <> O -> with_rng (gen_randbelow n) s = Ok (k, s') -> (k < n)%nat.
Proof.
  intros Hn H. unfold with_rng, gen_randbelow, next_raw in H.
  injection H as <- _. by apply Nat.mod_upper_bound.
Qed.

Lemma choose_multilabel_MiddleEastern rate s ml s' :
  (rate == 1)%Q ->
  choose_multilabel "MiddleEastern" rate s = Ok (ml, s') ->
  ml = "MiddleEastern|SouthAsian" \/ ml = "MiddleEastern|Latino".
Proof.
  intros Hr H. unfold choose_multilabel in H.
  change (negb (PyStr.mem "MiddleEastern" FF_CLASSES)) with false in H.
  rewrite candidates_MiddleEastern in H. cbv iota beta in H.
  invert_bind H as u t Hu. apply with_rng_random in Hu as (_ & _ & Hu).
  rewrite (Qltb_below_one _ _ Hu Hr) in H.
  invert_bind H as k t' Hk. apply ret_Ok in H as [-> _].
  apply with_rng_randbelow in Hk; [|discriminate]. cbn [length] in Hk.
  destruct k as [|[|k]]; [by left|by right|lia].
Qed.

(** C7 (as amended).  For a row whose base race is "MiddleEastern", with the
    ambiguous-rate 1.0 and [race_ml] to be filled, the emitted [race_ml] is
    "MiddleEastern|SouthAsian" or "MiddleEastern|Latino": the category has two
    configured adjacent pairs. *)
Theorem MiddleEastern_race_ml a env row s cur s' :
  base_race row = "MiddleEastern" ->
  (ambiguous_rate a == 1)%Q ->
  to_fill a row "race_ml" ->
  process_row a env row s = Ok (cur, s') ->
  cur !! "race_ml" = Some (VStr "MiddleEastern|SouthAsian") \/
  cur !! "race_ml" = Some (VStr "MiddleEastern|Latino").
Proof.
  intros Hb Hr Hf H. open_row H. frame_all.
  unfold race_ml_block in Hrace. invert_bind Hrace as fill t Hn.
  apply needs_fill_Ok in Hn as [-> Hk].
  destruct fill; [|destruct (to_fill_keep _ _ _ Hf Hk)].
  invert_bind Hrace as ml' t Hc. invert_bind Hrace as u t' Hu.
  apply ret_Ok in Hrace as [E _]. injection E as -> ->.
  rewrite Hb in Hc. rewrite lookup_insert_eq.
  destruct (choose_multilabel_MiddleEastern _ _ _ _ Hr Hc) as [-> | ->]; auto.
Qed.

Lemma MiddleEastern_race_ml_witness :
  exists cur s',
    process_row (Sample.with_ambiguous_rate 1 Sample.default_args) Sample.bare
      (Sample.scaffold "MiddleEastern" "male") (Sample.state_of [] [])
      = Ok (cur, s') /\
    (cur !! "race_ml" = Some (VStr "MiddleEastern|SouthAsian") \/
     cur !! "race_ml" = Some (VStr "MiddleEastern|Latino")).
Proof.
  destruct (process_row (Sample.with_ambiguous_rate 1 Sample.default_args)
              Sample.bare (Sample.scaffold "MiddleEastern" "male")
              (Sample.state_of [] []))
    as [[cur s']|e] eqn:E; [|vm_compute in E; discriminate].
  exists cur, s'. split; [reflexivity|].
  apply (MiddleEastern_race_ml
           (Sample.with_ambiguous_rate 1 Sample.default_args) Sample.bare
           (Sample.scaffold "MiddleEastern" "male") (Sample.state_of [] [])
           cur s');
    [reflexivity|reflexivity| |exact E].
  right. exists (VStr ""). split; reflexivity.
Defined.

(** C7 (as stated) fails: with the ambiguous-rate 1.0, a blank [race_ml] and
    a generator whose index draw is 1, a "MiddleEastern" row is labelled
    "MiddleEastern|Latino". *)
Lemma MiddleEastern_paired_with_Latino :
  base_race (Sample.scaffold "MiddleEastern" "male") = "MiddleEastern" /\
  is_blank (VStr "") = true /\
  cell_after (process_row (Sample.with_ambiguous_rate 1 Sample.default_args)
                Sample.bare (Sample.scaffold "MiddleEastern" "male")
                (Sample.state_of [0; 1]%N [])) "race_ml"
    = Some (VStr "MiddleEastern|Latino").
Proof. vm_compute. repeat split; reflexivity. Qed.

(** ** The uncertainty flag *)

Lemma list_ascii_of_string_app s1 s2 :
  list_ascii_of_string (s1 +:+ s2) =
  (list_ascii_of_string s1 ++ list_ascii_of_string s2)%list.
Proof.
  induction s1 as [|c s1 IH]; [reflexivity|].
  change (String c s1 +:+ s2) with (String c (s1 +:+ s2)).
  cbn [list_ascii_of_string]. by rewrite IH.
Qed.

Lemma lstrip_chars_keeps c l :
  PyStr.is_space c = false -> In c l -> In c (PyStr.lstrip_chars l).
Proof.
  intros Hc. induction l as [|d l IH]; cbn; [done|].
  destruct (PyStr.is_space d) eqn:Hd; [|done].
  intros [-> | Hin]; [congruence|auto].
Qed.

Lemma strip_not_empty c s :
  PyStr.is_space c = false -> In c (list_ascii_of_string s) ->
  String.eqb (PyStr.strip s) "" = false.
Proof.
  intros Hc Hin. unfold PyStr.strip, PyStr.strip_chars.
  assert (Hk : In c (rev (PyStr.lstrip_chars (rev
                 (PyStr.lstrip_chars (list_ascii_of_string s)))))).
  { apply in_rev. rewrite rev_involutive.
    apply lstrip_chars_keeps; [done|]. apply in_rev. rewrite rev_involutive.
    by apply lstrip_chars_keeps. }
  destruct (rev _) as [|d l]; [destruct Hk|reflexivity].
Qed.

(** A number is never a blank cell. *)
Lemma is_blank_float q : is_blank (VFloat (FNum q)) = false.
Proof.
  unfold is_blank. apply (strip_not_empty "."%char); [reflexivity|].
  cbn [py_str]. unfold PyNum.float_repr.
  rewrite !list_ascii_of_string_app. rewrite !in_app_iff.
  right. right. left. by left.
Qed.

(** Nor is NaN, the value pandas gives to an empty CSV cell: only the
    empty string that [safe_col] puts into a missing column is blank. *)
Example nan_cell_is_not_blank :
  is_blank (VFloat FNaN) = false /\ is_blank (VStr "") = true.
Proof. split; reflexivity. Qed.

Lemma conf_race_block_not_blank a row ml s cur' s' c1 :
  c1 !! "conf_race" = row !! "conf_race" ->
  conf_race_block a row ml c1 s = Ok (cur', s') ->
  exists v, cur' !! "conf_race" = Some v /\ is_blank v = false.
Proof.
  intros Hsame H. unfold conf_race_block in H.
  invert_bind H as fill t Hn. apply needs_fill_Ok in Hn as [-> Hk].
  destruct fill.
  - invert_bind H as p t Hp. invert_bind H as q t' Hq. invert_bind H as u t'' Hc.
    apply ret_Ok in H as [-> ->]. eexists.
    split; [by rewrite lookup_insert_eq|apply is_blank_float].
  - apply ret_Ok in H as [-> ->]. destruct Hk as (_ & v & Hv & Hb).
    exists v. by rewrite Hsame.
Qed.

Lemma unknown_uncertain_block_filled a row conf cur s cur' s' :
  unknown_uncertain_block a row conf cur s = Ok (cur', s') ->
  to_fill a row "unknown_uncertain" ->
  cur' !! "unknown_uncertain" =
    Some (flag (float_lt conf (lowconf_threshold a) ||
                Qltb (fst (gen_random (rng s))) (uncertain_rate a))).
Proof.
  intros H Hf. unfold unknown_uncertain_block in H.
  invert_bind H as fill t Hn. apply needs_fill_Ok in Hn as [-> Hk].
  destruct fill; [|destruct (to_fill_keep _ _ _ Hf Hk)].
  invert_bind H as unk t Hu. invert_bind H as u t' Hc.
  apply ret_Ok in H as [-> ->]. rewrite lookup_insert_eq.
  destruct (float_lt conf (lowconf_threshold a)).
  - apply ret_Ok in Hu as [-> _]. reflexivity.
  - unfold bernoulli in Hu. invert_bind Hu as v t2 Hv.
    apply with_rng_random in Hv as (-> & _). apply ret_Ok in Hu as [-> _].
    reflexivity.
Qed.

(** C9.  When the engine fills [unknown_uncertain], the flag is 1 if the
    row's race confidence (the float value of its final [conf_race]) is below
    the configured threshold or the next draw of the generator is below the
    uncertain-rate, and 0 otherwise; a confidence below the threshold always
    gives 1. *)
Theorem unknown_uncertain_rule a env row s cur s' :
  process_row a env row s = Ok (cur, s') ->
  to_fill a row "unknown_uncertain" ->
  exists ml conf c4 s4 v,
    row_to_conf a row s = Ok (ml, conf, c4, s4) /\
    cur !! "conf_race" = Some v /\
    py_float v = Ok conf /\
    cur !! "unknown_uncertain" =
      Some (flag (float_lt conf (lowconf_threshold a) ||
                  Qltb (fst (gen_random (rng s4))) (uncertain_rate a))) /\
    (float_lt conf (lowconf_threshold a) = true ->
     cur !! "unknown_uncertain" = Some (VInt 1)).
Proof.
  intros H Hf. open_row H.
  pose proof (unknown_uncertain_block_filled _ _ _ _ _ _ _ Hunk Hf) as Hflag.
  assert (Hsame : c3 !! "conf_race" = row !! "conf_race") by (by frame_all).
  destruct (conf_race_block_not_blank _ _ _ _ _ _ _ Hsame Hconf) as (v & Hv & Hb).
  assert (Hfl : py_float v = Ok conf).
  { unfold conf_val in Hval. invert_bind Hval as w t Hw.
    apply getitem_Ok in Hw as [Hw ->]. rewrite Hv in Hw. injection Hw as <-.
    rewrite Hb in Hval. unfold lift in Hval.
    destruct (py_float v); by simplify_eq. }
  exists ml, conf, c4, s4, v. frame_all.
  repeat split; try done.
  intros Hlt. rewrite Hflag, Hlt. reflexivity.
Qed.

Lemma unknown_uncertain_rule_witness :
  exists cur s' ml conf c4 s4 v,
    process_row Sample.default_args Sample.bare
      (Sample.scaffold "Black" "male") (Sample.state_of [] []) = Ok (cur, s') /\
    row_to_conf Sample.default_args (Sample.scaffold "Black" "male")
      (Sample.state_of [] []) = Ok (ml, conf, c4, s4) /\
    cur !! "conf_race" = Some v /\
    py_float v = Ok conf /\
    cur !! "unknown_uncertain" =
      Some (flag (float_lt conf (lowconf_threshold Sample.default_args) ||
                  Qltb (fst (gen_random (rng s4)))
                       (uncertain_rate Sample.default_args))) /\
    (float_lt conf (lowconf_threshold Sample.default_args) = true ->
     cur !! "unknown_uncertain" = Some (VInt 1)).
Proof.
  destruct (process_row Sample.default_args Sample.bare
              (Sample.scaffold "Black" "male") (Sample.state_of [] []))
    as [[cur s']|e] eqn:E; [|vm_compute in E; discriminate].
  destruct (unknown_uncertain_rule _ _ _ _ _ _ E
              (or_intror (ex_intro _ (VStr "") (conj eq_refl eq_refl))))
    as (ml & conf & c4 & s4 & v & H).
  exists cur, s', ml, conf, c4, s4, v. split; [reflexivity|exact H].
Defined.

(** ** The skin-tone bin *)

Lemma Qsum_scale (ws : list Q) (d : Q) :
  (Qsum (map (fun w => w / d) ws) == Qsum ws / d)%Q.
Proof.
  induction ws as [|w ws IH]; cbn [map Qsum].
  - unfold Qdiv. ring.
  - rewrite IH. unfold Qdiv. ring.
Qed.

Lemma Qsum_positive (ws : list Q) :
  ws <> [] -> Forall (fun w => 0 < w)%Q ws -> (0 < Qsum ws)%Q.
Proof.
  intros Hne Hall. induction Hall as [|w ws Hw Hall IH]; [done|].
  cbn. destruct ws as [|w' ws].
  - cbn. lra.
  - specialize (IH ltac:(discriminate)). lra.
Qed.

Lemma last_cumsum acc p x :
  p <> [] -> (List.last (cumsum acc p) x == acc + Qsum p)%Q.
Proof.
  revert acc. induction p as [|w p IH]; intros acc Hne; [done|].
  destruct p as [|w' p].
  - cbn. ring.
  - change (cumsum acc (w :: w' :: p))
      with ((acc + w)%Q :: cumsum (acc + w)%Q (w' :: p)).
    change (List.last ((acc + w)%Q :: cumsum (acc + w)%Q (w' :: p)) x)
      with (List.last (cumsum (acc + w)%Q (w' :: p)) x).
    rewrite IH by discriminate. cbn. ring.
Qed.

Lemma last_of_map {A B} (f : A -> B) (l : list A) (x : A) :
  List.last (map f l) (f x) = f (List.last l x).
Proof.
  induction l as [|y l IH]; [reflexivity|].
  destruct l as [|z l]; [reflexivity|]. exact IH.
Qed.

Lemma length_cumsum acc p : length (cumsum acc p) = length p.
Proof. revert acc. induction p as [|w p IH]; intros acc; cbn; [done|by rewrite IH]. Qed.

Lemma searchsorted_right_lt (cdf : list Q) (u x : Q) :
  cdf <> [] -> Qle_bool (List.last cdf x) u = false ->
  (searchsorted_right cdf u < length cdf)%nat.
Proof.
  induction cdf as [|c cdf IH]; intros Hne Hlast; [done|].
  cbn [searchsorted_right length]. destruct (Qle_bool c u) eqn:Hc; [|lia].
  destruct cdf as [|c' cdf].
  - cbn in Hlast. congruence.
  - apply ->Nat.succ_lt_mono. apply IH; [discriminate|exact Hlast].
Qed.

Lemma nth_range1 (n : Z) (k : nat) :
  (k < Z.to_nat n)%nat -> nth k (range1 n) 0 = Z.of_nat k + 1.
Proof.
  intros Hk. unfold range1.
  rewrite nth_indep with (d' := (fun k => Z.of_nat k + 1) O)
    by (by rewrite length_map, length_seq).
  rewrite (map_nth (fun k => Z.of_nat k + 1)).
  rewrite seq_nth by exact Hk. reflexivity.
Qed.

Lemma length_range1 n : length (range1 n) = Z.to_nat n.
Proof. unfold range1. by rewrite length_map, length_seq. Qed.

(** The index found in the normalised cumulative sums is a valid one. *)
Lemma choice_index_lt (p : list Q) (u : Q) :
  p <> [] -> (Qsum p == 1)%Q -> (u < 1)%Q ->
  (searchsorted_right
     (map (fun c => (c / List.last (cumsum 0 p) 1)%Q) (cumsum 0 p)) u
   < length p)%nat.
Proof.
  intros Hpne Hp1 Hu1.
  set (cdf := cumsum 0 p).
  set (ncdf := map (fun c => (c / List.last cdf 1)%Q) cdf).
  assert (Hlen : length ncdf = length p).
  { unfold ncdf, cdf. by rewrite length_map, length_cumsum. }
  rewrite <- Hlen.
  assert (Hcne : cdf <> []).
  { intros E. apply (f_equal length) in E. unfold cdf in E.
    rewrite length_cumsum in E. destruct p; [done|discriminate]. }
  apply searchsorted_right_lt with (x := (1 / List.last cdf 1)%Q).
  - unfold ncdf. destruct cdf; [done|discriminate].
  - unfold ncdf.
    change (1 / List.last cdf 1)%Q with ((fun c => c / List.last cdf 1)%Q 1%Q).
    rewrite last_of_map.
    apply not_true_is_false. intros Hle. apply Qle_bool_iff in Hle.
    assert (Hd : (List.last cdf 1 == 1)%Q).
    { unfold cdf. rewrite last_cumsum by exact Hpne. rewrite Hp1. ring. }
    cbv beta in Hle.
    assert (Hq : (List.last cdf 1 / List.last cdf 1 == 1)%Q)
      by (rewrite Hd; reflexivity).
    rewrite Hq in Hle. lra.
Qed.

(** Whatever [np.random.choice] returns from the bins 1..n is one of them. *)
Lemma np_random_choice_range1 (n : Z) (p : list Q) s b s' :
  np_random_choice (range1 n) p s = Ok (b, s') ->
  1 <= b <= n /\ rng s' = rng s /\ filled_counts s' = filled_counts s.
Proof.
  unfold np_random_choice. destruct (range1 n) as [|z zs] eqn:Hr; [discriminate|].
  rewrite <- Hr.
  destruct (length p =? length (range1 n))%nat eqn:Hl; [|discriminate].
  cbn [negb].
  destruct (existsb _ p); [discriminate|].
  destruct (Qeq_bool (Qsum p) 1) eqn:Hp1; [|discriminate]. cbn [negb].
  apply Qeq_bool_eq in Hp1. apply Nat.eqb_eq in Hl.
  assert (Hpne : p <> []).
  { intros ->. rewrite Hr in Hl. discriminate. }
  unfold bind, with_np, ret.
  destruct (gen_random (np_random s)) as [u g] eqn:Hu.
  destruct (gen_random_unit _ _ _ Hu) as [_ Hu1].
  intros H. injection H as <- <-.
  pose proof (choice_index_lt p u Hpne Hp1 Hu1) as Hk.
  rewrite Hl, length_range1 in Hk.
  rewrite nth_range1 by exact Hk. cbn [rng filled_counts].
  repeat split; lia.
Qed.

(** With one positive weight per bin, the weighted draw succeeds. *)
Lemma weighted_choice_succeeds (n : Z) (ws : list Q) s :
  0 < n -> length ws = Z.to_nat n -> Forall (fun w => 0 < w)%Q ws ->
  exists b s',
    np_random_choice (range1 n) (map (fun w => (w / Qsum ws)%Q) ws) s
      = Ok (b, s').
Proof.
  intros Hn Hlen Hpos.
  assert (Hne : ws <> []) by (intros ->; cbn in Hlen; lia).
  pose proof (Qsum_positive ws Hne Hpos) as Htot.
  set (p := map (fun w => (w / Qsum ws)%Q) ws).
  assert (Hp1 : (Qsum p == 1)%Q).
  { unfold p. rewrite Qsum_scale. field. lra. }
  unfold np_random_choice.
  destruct (range1 n) as [|z zs] eqn:Hr.
  { apply (f_equal length) in Hr. rewrite length_range1 in Hr. cbn in Hr. lia. }
  rewrite <- Hr.
  assert (Hl : (length p =? length (range1 n))%nat = true).
  { apply Nat.eqb_eq. unfold p. by rewrite length_map, length_range1. }
  rewrite Hl. cbn [negb].
  assert (Hnn : existsb (fun x => negb (Qle_bool 0 x)) p = false).
  { apply not_true_is_false. intros Hex. apply existsb_exists in Hex as (x & Hin & Hx).
    unfold p in Hin. apply in_map_iff in Hin as (w & <- & Hw).
    rewrite Forall_forall in Hpos. specialize (Hpos w).
    assert (0 < w)%Q as Hw0. { apply Hpos. by apply list_elem_of_In. }
    assert (0 <= w / Qsum ws)%Q as Hge.
    { apply Qle_shift_div_l; [exact Htot|lra]. }
    apply Qle_bool_iff in Hge. rewrite Hge in Hx. discriminate. }
  rewrite Hnn. rewrite (Qeq_eq_bool _ _ Hp1). cbn [negb].
  unfold bind, with_np, ret.
  destruct (gen_random (np_random s)) as [u g]. eauto.
Qed.

Lemma clip_between x n : 0 < n -> 1 <= clip x 1 n <= n.
Proof. unfold clip. lia. Qed.

Lemma brightness_to_bin_in_range env img_path n b :
  0 < n -> brightness_to_bin env img_path n = Some b -> 1 <= b <= n.
Proof.
  intros Hn. unfold brightness_to_bin.
  destruct (negb (PIL_OK env)); [discriminate|].
  destruct (image_open env img_path) as [im|]; [|discriminate].
  destruct (_ || _)%bool; [discriminate|].
  intros H. injection H as <-. by apply clip_between.
Qed.

(** The estimator has no bin when PIL is missing, when the file does not
    decode, and when the image is narrower or lower than 10 pixels. *)
Lemma brightness_to_bin_None env img_path n :
  PIL_OK env = false \/
  image_open env img_path = None \/
  (exists im, image_open env img_path = Some im /\ (im_w im < 10 \/ im_h im < 10)) ->
  brightness_to_bin env img_path n = None.
Proof.
  unfold brightness_to_bin. intros [-> | [-> | (im & -> & Hsmall)]].
  - reflexivity.
  - by destruct (negb (PIL_OK env)).
  - destruct (negb (PIL_OK env)); [reflexivity|].
    assert ((im_w im <? 10) || (im_h im <? 10) = true)%bool as ->; [|reflexivity].
    apply orb_true_iff. destruct Hsmall; [left|right]; by apply Z.ltb_lt.
Qed.

Section SkinTone.

Variable a : args.
Variable env : environment.
Variable row : gmap string pyval.

Lemma black_weights_positive : Forall (fun w => 0 < w)%Q black_weights.
Proof. repeat constructor. Qed.

Lemma white_weights_positive : Forall (fun w => 0 < w)%Q white_weights.
Proof. repeat constructor. Qed.

(** The random strategy succeeds with seven bins, and with any positive
    number of bins for the races that have no weight table. *)
Lemma random_bin_succeeds s :
  0 < skin_bins a ->
  skin_bins a = 7 \/ (base_race row <> "Black" /\ base_race row <> "White") ->
  exists b s', random_bin a row s = Ok (b, s') /\ 1 <= b <= skin_bins a.
Proof.
  intros Hn Hcase. unfold random_bin.
  destruct (skin_bins a =? 0) eqn:E; [apply Z.eqb_eq in E; lia|].
  assert (Hw : exists ws,
    (if String.eqb (base_race row) "Black" then black_weights
     else if String.eqb (base_race row) "White" then white_weights
     else repeat_list (1 / inject_Z (skin_bins a))%Q (skin_bins a)) = ws /\
    length ws = Z.to_nat (skin_bins a) /\ Forall (fun w => 0 < w)%Q ws).
  { destruct (String.eqb (base_race row) "Black") eqn:Eb.
    { apply String.eqb_eq in Eb. destruct Hcase as [-> | [Hc _]]; [|done].
      eexists. split; [reflexivity|]. split; [reflexivity|].
      apply black_weights_positive. }
    destruct (String.eqb (base_race row) "White") eqn:Ew.
    { apply String.eqb_eq in Ew. destruct Hcase as [-> | [_ Hc]]; [|done].
      eexists. split; [reflexivity|]. split; [reflexivity|].
      apply white_weights_positive. }
    eexists. split; [reflexivity|]. unfold repeat_list.
    split; [apply repeat_length|].
    apply Forall_forall. intros w Hin. apply list_elem_of_In in Hin.
    apply repeat_spec in Hin as ->.
    apply Qlt_shift_div_l; [|lra].
    change 0%Q with (inject_Z 0). rewrite <- Zlt_Qlt. exact Hn. }
  destruct Hw as (ws & -> & Hlen & Hpos).
  destruct (weighted_choice_succeeds _ ws s Hn Hlen Hpos) as (b & s' & Hb).
  exists b, s'. split; [exact Hb|].
  by destruct (np_random_choice_range1 _ _ _ _ _ Hb).
Qed.

Lemma random_bin_range s b s' :
  random_bin a row s = Ok (b, s') ->
  1 <= b <= skin_bins a /\ rng s' = rng s /\ filled_counts s' = filled_counts s.
Proof.
  unfold random_bin. destruct (skin_bins a =? 0); [discriminate|].
  apply np_random_choice_range1.
Qed.

Lemma brightness_attempt_Ok s r s' :
  brightness_attempt a env row s = Ok (r, s') ->
  s' = s /\
  (r = None \/
   skin_tone_method a = Brightness /\ PIL_OK env = true /\
   exists p, r = brightness_to_bin env p (skin_bins a)).
Proof.
  unfold brightness_attempt. intros H.
  destruct (skin_tone_method a); [by apply ret_Ok in H as [-> ->]; auto|].
  destruct (PIL_OK env); [|by apply ret_Ok in H as [-> ->]; auto].
  invert_bind H as rp t Hrp. apply getitem_Ok in Hrp as [_ ->].
  destruct (negb (is_blank rp)); [|by apply ret_Ok in H as [-> ->]; auto].
  destruct rp as [p| |]; try discriminate.
  apply ret_Ok in H as [-> ->]. split; [reflexivity|]. right. eauto.
Qed.

(** Without an estimate the block is the random strategy: same bin, same
    draws, same exception if there is one. *)
Lemma skin_tone_bin_block_falls_back cur s :
  to_fill a row "skin_tone_bin" ->
  brightness_attempt a env row s = Ok (None, s) ->
  skin_tone_bin_block a env row cur s =
  bind (random_bin a row)
       (fun b => bind (count_filled "skin_tone_bin")
                      (fun _ => ret (<["skin_tone_bin" := VStr (pretty b)]> cur))) s.
Proof.
  intros Hf Hb. unfold skin_tone_bin_block, bind.
  rewrite (needs_fill_fill _ _ _ _ Hf), Hb. reflexivity.
Qed.

(** Whenever the skin-tone block fills the cell, it writes the decimal
    form of a bin between 1 and the number of bins. *)
Lemma skin_tone_bin_block_filled cur s cur' s' :
  0 < skin_bins a ->
  skin_tone_bin_block a env row cur s = Ok (cur', s') ->
  to_fill a row "skin_tone_bin" ->
  exists b, cur' !! "skin_tone_bin" = Some (VStr (pretty b)) /\
            1 <= b <= skin_bins a.
Proof.
  intros Hn H Hf. unfold skin_tone_bin_block in H.
  invert_bind H as fill t Hnf. apply needs_fill_Ok in Hnf as [-> Hk].
  destruct fill; [|destruct (to_fill_keep _ _ _ Hf Hk)].
  invert_bind H as r t Hr. invert_bind H as b t' Hb. invert_bind H as u t'' Hc.
  apply ret_Ok in H as [-> ->]. exists b.
  split; [by rewrite lookup_insert_eq|].
  apply brightness_attempt_Ok in Hr as [-> Hr].
  destruct r as [b'|].
  - apply ret_Ok in Hb as [-> _].
    destruct Hr as [|(_ & _ & p & Hp)]; [done|].
    eapply brightness_to_bin_in_range; [exact Hn|symmetry; exact Hp].
  - by destruct (random_bin_range _ _ _ Hb).
Qed.

End SkinTone.

(** Every bin the engine assigns lies between 1 and the configured number
    of bins, whatever that number and the row's race. *)
Lemma assigned_skin_tone_bin_in_range a env row s cur s' :
  0 < skin_bins a ->
  process_row a env row s = Ok (cur, s') ->
  to_fill a row "skin_tone_bin" ->
  exists b, cur !! "skin_tone_bin" = Some (VStr (pretty b)) /\
            1 <= b <= skin_bins a.
Proof.
  intros Hn H Hf. open_row H. frame_all.
  by apply (skin_tone_bin_block_filled _ _ _ _ _ _ _ Hn Hskin).
Qed.

(** C1.  Failing input: five bins under the default random strategy and a
    "Black" row with a blank [skin_tone_bin].  The seven weights of the
    table do not match the five bins, [np.random.choice] raises
    [ValueError], and the row gets no bin. *)
Theorem skin_bins_five_Black_raises :
  process_row (Sample.with_skin Random 5 Sample.default_args) Sample.bare
    (Sample.scaffold "Black" "male") (Sample.state_of [] [])
  = Raise (ValueError "'a' and 'p' must have same size").
Proof. vm_compute. reflexivity. Qed.

(** C8.  Failing input: the brightness strategy is configured, PIL is
    there, but the row's image does not decode, so the bin comes from the
    random strategy; with [random() = 0.75] at every draw the skin
    confidence is 0.825, drawn from [0.6, 0.9] and above 0.8. *)
Theorem fallback_row_gets_high_skin_confidence :
  brightness_attempt (Sample.with_skin Brightness 7 Sample.default_args)
    Sample.no_images (Sample.scaffold "Latino" "male")
    (Sample.state_of (repeat (Sample.eighths 6) 20) [Sample.eighths 7])
  = Ok (None, Sample.state_of (repeat (Sample.eighths 6) 20) [Sample.eighths 7]) /\
  cell_after
    (process_row (Sample.with_skin Brightness 7 Sample.default_args)
       Sample.no_images (Sample.scaffold "Latino" "male")
       (Sample.state_of (repeat (Sample.eighths 6) 20) [Sample.eighths 7]))
    "conf_skin" = Some (VFloat (FNum (825 # 1000))) /\
  ~ (825 # 1000 <= 8 # 10)%Q.
Proof.
  split; [vm_compute; reflexivity|]. split; [vm_compute; reflexivity|].
  unfold Qle. cbn. lia.
Qed.

(** C10.  Failing input: the brightness strategy with five bins and a
    "Black" row, once without PIL and once with an image that does not
    decode.  The estimator returns no bin, the engine falls back to the
    random strategy, and that raises [ValueError] (the seven weights
    against five bins). *)
Theorem fallback_five_Black_raises :
  brightness_to_bin Sample.bare "img_0001.jpg" 5 = None /\
  process_row (Sample.with_skin Brightness 5 Sample.default_args) Sample.bare
    (Sample.scaffold "Black" "male") (Sample.state_of [] [])
  = Raise (ValueError "'a' and 'p' must have same size") /\
  brightness_to_bin Sample.no_images "img_0001.jpg" 5 = None /\
  process_row (Sample.with_skin Brightness 5 Sample.default_args) Sample.no_images
    (Sample.scaffold "Black" "male") (Sample.state_of [] [])
  = Raise (ValueError "'a' and 'p' must have same size").
Proof. vm_compute. repeat split; reflexivity. Qed.

(** ** The program *)

Lemma globals_main : globals !! "main" = Some Fn_main_entry.
Proof. vm_compute. reflexivity. Qed.

Lemma globals_main_logic : globals !! "main_logic" = None.
Proof. vm_compute. reflexivity. Qed.

(** C2.  Whatever the platform, the files and the arguments, the program
    prints an error and exits with status 1 without writing anything: with
    the input file in place the error is the [NameError] of the undefined
    [main_logic], otherwise the [FileNotFoundError]. *)
Theorem main_always_fails sys env a :
  status (main sys env a) = 1 /\
  written (main sys env a) = None /\
  printed (main sys env a) =
    [Banner;
     ErrorMessage (if path_exists env (inp a) then NameError "main_logic"
                   else FileNotFoundError (inp a))].
Proof.
  unfold main. rewrite globals_main. unfold generate_v3_metadata, call_main_logic.
  rewrite globals_main_logic. destruct (path_exists env (inp a)); cbn; auto.
Qed.

(** The run of the failing input of C2: an input table of one scaffold row
    that exists and can be read, and an output that can be written. *)
Example main_fails_on_good_input :
  main (Sample.platform_of (Sample.table_of [Sample.scaffold "Latino" "female"]))
       (Sample.with_input Sample.bare) Sample.default_args
  = {| status := 1;
       printed := [Banner; ErrorMessage (NameError "main_logic")];
       written := None |}.
Proof. vm_compute. reflexivity. Qed.

(** ** The random strategy and the environment *)

Section Determinism.

Variable a : args.
Hypothesis Hrandom : skin_tone_method a = Random.
Variables env1 env2 : environment.

Lemma skin_tone_bin_block_env row cur s :
  skin_tone_bin_block a env1 row cur s = skin_tone_bin_block a env2 row cur s.
Proof.
  unfold skin_tone_bin_block, brightness_attempt. by rewrite Hrandom.
Qed.

Lemma conf_skin_block_env row cur s :
  conf_skin_block a env1 row cur s = conf_skin_block a env2 row cur s.
Proof. unfold conf_skin_block. by rewrite Hrandom. Qed.

Lemma process_row_env row s :
  process_row a env1 row s = process_row a env2 row s.
Proof.
  unfold process_row, bind.
  destruct (row_to_conf a row s) as [[[[ml conf] cur] s1]|e]; [|reflexivity].
  unfold row_from_conf, bind.
  destruct (unknown_uncertain_block a row conf cur s1) as [[c5 s5]|e];
    [|reflexivity].
  destruct (cultural_markers_block a row c5 s5) as [[c6 s6]|e]; [|reflexivity].
  rewrite skin_tone_bin_block_env.
  destruct (skin_tone_bin_block a env2 row c6 s6) as [[c7 s7]|e]; [|reflexivity].
  rewrite conf_skin_block_env. reflexivity.
Qed.

Lemma iterrows_env rs s : iterrows a env1 rs s = iterrows a env2 rs s.
Proof.
  revert s. induction rs as [|r rs IH]; intros s; [reflexivity|].
  cbn [iterrows]. unfold bind. rewrite process_row_env.
  destruct (process_row a env2 r s) as [[r' s1]|e]; [|reflexivity].
  by rewrite IH.
Qed.

End Determinism.

(** ** Reruns on a filled table *)

Section Noop.

Variable a : args.
Variable env : environment.
Variable row : gmap string pyval.
Hypothesis Hfilled : fully_filled a row.

Lemma keep_derived c : In c derived_columns -> to_keep a row c.
Proof. apply Hfilled. Qed.

Ltac kept := apply needs_fill_keep, keep_derived; cbn; tauto.

Lemma race_ml_block_noop cur s :
  exists ml, race_ml_block a row cur s = Ok (ml, cur, s).
Proof.
  unfold race_ml_block. erewrite bind_eq by kept. cbv iota.
  destruct (keep_derived "race_ml" ltac:(cbn; tauto)) as (_ & v & Hv & _).
  exists (py_str v). unfold bind, getitem. by rewrite Hv.
Qed.

Lemma conf_val_noop s : exists f, conf_val row s = Ok (f, s).
Proof.
  destruct Hfilled as (_ & v & f & Hv & Hf).
  destruct (keep_derived "conf_race" ltac:(cbn; tauto)) as (_ & w & Hw & Hb).
  rewrite Hv in Hw. injection Hw as <-.
  exists f. unfold conf_val, bind, getitem, lift, ret.
  by rewrite Hv, Hb, Hf.
Qed.

Lemma row_to_conf_noop s :
  exists ml f, row_to_conf a row s = Ok (ml, f, row, s).
Proof.
  destruct (race_ml_block_noop row s) as (ml & Hml).
  destruct (conf_val_noop s) as (f & Hf).
  exists ml, f. unfold row_to_conf.
  erewrite bind_eq by exact Hml. cbv iota beta.
  unfold ambiguous_mixed_block.
  erewrite bind_eq by (erewrite bind_eq by kept; reflexivity).
  unfold prefer_not_to_label_block.
  erewrite bind_eq by (erewrite bind_eq by kept; reflexivity).
  unfold conf_race_block.
  erewrite bind_eq by (erewrite bind_eq by kept; reflexivity).
  erewrite bind_eq by exact Hf. reflexivity.
Qed.

Lemma row_from_conf_noop ml f s :
  row_from_conf a env row ml f row s = Ok (row, s).
Proof.
  unfold row_from_conf, unknown_uncertain_block.
  erewrite bind_eq by (erewrite bind_eq by kept; reflexivity).
  unfold cultural_markers_block.
  erewrite bind_eq by (erewrite bind_eq by kept; reflexivity).
  unfold skin_tone_bin_block.
  erewrite bind_eq by (erewrite bind_eq by kept; reflexivity).
  unfold conf_skin_block.
  erewrite bind_eq by (erewrite bind_eq by kept; reflexivity).
  unfold conf_gender_block.
  erewrite bind_eq by (erewrite bind_eq by kept; reflexivity).
  unfold annotation_notes_block.
  erewrite bind_eq by kept. reflexivity.
Qed.

(** A filled row goes through the loop body untouched, and so does the
    run state: nothing is drawn, nothing is counted. *)
Lemma process_row_noop s : process_row a env row s = Ok (row, s).
Proof.
  destruct (row_to_conf_noop s) as (ml & f & Hpre).
  unfold process_row. erewrite bind_eq by exact Hpre.
  apply row_from_conf_noop.
Qed.

End Noop.

Lemma iterrows_noop a env rs s :
  Forall (fully_filled a) rs -> iterrows a env rs s = Ok (rs, s).
Proof.
  intros H. induction H as [|r rs Hr _ IH]; [reflexivity|].
  cbn [iterrows]. erewrite bind_eq by (by apply process_row_noop).
  erewrite bind_eq by exact IH. reflexivity.
Qed.

Lemma safe_col_present df col default :
  In col (columns df) -> safe_col df col default = df.
Proof.
  intros Hin. unfold safe_col, PyStr.mem.
  assert (existsb (String.eqb col) (columns df) = true) as ->; [|reflexivity].
  apply existsb_exists. exists col. split; [exact Hin|apply String.eqb_refl].
Qed.

Lemma ensure_columns_present df :
  (forall c, In c (base_columns ++ derived_columns)%list -> In c (columns df)) ->
  ensure_columns df = df.
Proof.
  intros H. unfold ensure_columns.
  cbn [base_columns derived_columns app fold_left].
  repeat (rewrite (safe_col_present df) by (apply H; cbn; tauto)).
  reflexivity.
Qed.

Lemma filled_row_fully_filled :
  fully_filled Sample.default_args (Sample.filled_row (VFloat (FNum (9 # 10)))).
Proof.
  split.
  - intros c Hc. split; [reflexivity|].
    cbn in Hc.
    repeat (destruct Hc as [<- | Hc]; [eexists; split; vm_compute; reflexivity|]).
    destruct Hc.
  - eexists _, _. split; vm_compute; reflexivity.
Qed.


(** * Further properties of the module *)

Lemma succeeds_Ok {A} (r : result A) :
  succeeds r = true -> exists x, r = Ok x.
Proof. destruct r; [eauto|discriminate]. Qed.

(** ** [safe_col] and the column check *)

Lemma mem_In (c : string) (l : list string) : PyStr.mem c l = true <-> In c l.
Proof.
  unfold PyStr.mem. rewrite existsb_exists. split.
  - intros (x & Hin & Heq). apply String.eqb_eq in Heq. by subst.
  - intros Hin. exists c. split; [done|apply String.eqb_refl].
Qed.

Lemma safe_col_spec df col d :
  length (rows (safe_col df col d)) = length (rows df) /\
  (forall c, In c (columns (safe_col df col d)) <-> In c (columns df) \/ c = col) /\
  (forall i r, nth_error (rows df) i = Some r ->
     exists r', nth_error (rows (safe_col df col d)) i = Some r' /\
       (forall c, In c (columns df) -> r' !! c = r !! c) /\
       (~ In col (columns df) -> r' !! col = Some d)).
Proof.
  unfold safe_col. destruct (PyStr.mem col (columns df)) eqn:E.
  - apply mem_In in E. split; [done|]. split.
    + intros c. split; [tauto|]. intros [H | ->]; done.
    + intros i r Hr. exists r. split; [done|]. split; done.
  - assert (Hn : ~ In col (columns df)).
    { intros H. apply mem_In in H. congruence. }
    cbn [columns rows]. split; [apply length_map|]. split.
    + intros c. rewrite in_app_iff. cbn. split.
      * intros [H | [-> | []]]; auto.
      * intros [H | ->]; auto.
    + intros i r Hr. exists (<[col := d]> r). split; [|split].
      * by apply map_nth_error.
      * intros c Hc. rewrite lookup_insert_ne; [done|]. by intros ->.
      * intros _. by rewrite lookup_insert_eq.
Qed.

Lemma ensure_columns_fold df :
  ensure_columns df =
  fold_left (fun df c => safe_col df c (VStr ""))
            (base_columns ++ derived_columns)%list df.
Proof. reflexivity. Qed.

Lemma fold_safe_col_spec (cols : list string) : forall df df',
  df' = fold_left (fun df c => safe_col df c (VStr "")) cols df ->
  length (rows df') = length (rows df) /\
  (forall c, In c (columns df') <-> In c (columns df) \/ In c cols) /\
  (forall i r, nth_error (rows df) i = Some r ->
     exists r', nth_error (rows df') i = Some r' /\
       (forall c, In c (columns df) -> r' !! c = r !! c) /\
       (forall c, In c cols -> ~ In c (columns df) -> r' !! c = Some (VStr ""))).
Proof.
  induction cols as [|h cols IH]; intros df df' ->; cbn [fold_left].
  - split; [done|]. split.
    + intros c. cbn. tauto.
    + intros i r Hr. exists r. split; [done|]. split; [done|]. intros c [].
  - destruct (safe_col_spec df h (VStr "")) as (Hl1 & Hc1 & Hr1).
    destruct (IH (safe_col df h (VStr "")) _ eq_refl) as (Hl2 & Hc2 & Hr2).
    split; [congruence|]. split.
    + intros c. rewrite Hc2, Hc1. cbn [In]. split.
      * intros [[H | ->] | H]; auto.
      * intros [H | [<- | H]]; auto.
    + intros i r Hr.
      destruct (Hr1 i r Hr) as (r1 & Hn1 & Hk1 & Hnew1).
      destruct (Hr2 i r1 Hn1) as (r' & Hn2 & Hk2 & Hnew2).
      exists r'. split; [done|]. split.
      * intros c Hc. rewrite Hk2 by (apply Hc1; auto). by apply Hk1.
      * intros c Hin Hnot. destruct (decide (c = h)) as [-> | Hne].
        -- rewrite Hk2 by (apply Hc1; auto). by apply Hnew1.
        -- apply Hnew2.
           ++ destruct Hin as [<- | Hin]; done.
           ++ rewrite Hc1. tauto.
Qed.

(** X1.  The column check keeps the table: the number of rows stays, the
    columns that were there stay, and so does every cell of them. *)
Theorem ensure_columns_keeps_table df :
  length (rows (ensure_columns df)) = length (rows df) /\
  (forall c, In c (columns df) -> In c (columns (ensure_columns df))) /\
  (forall i r, nth_error (rows df) i = Some r ->
     exists r', nth_error (rows (ensure_columns df)) i = Some r' /\
       forall c, In c (columns df) -> r' !! c = r !! c).
Proof.
  destruct (fold_safe_col_spec _ df _ (ensure_columns_fold df))
    as (Hl & Hc & Hr).
  split; [exact Hl|]. split.
  - intros c H. apply Hc. by left.
  - intros i r Hi. destruct (Hr i r Hi) as (r' & Hn & Hk & _). eauto.
Qed.

(** X2.  After the column check each of the sixteen recognised columns is
    a column of the table, and a recognised column that was missing holds
    the empty string in every row, which the engine reads as blank. *)
Theorem ensure_columns_adds_blank df c :
  In c (base_columns ++ derived_columns)%list ->
  In c (columns (ensure_columns df)) /\
  (~ In c (columns df) ->
   forall i r', nth_error (rows (ensure_columns df)) i = Some r' ->
     r' !! c = Some (VStr "") /\ is_blank (VStr "") = true).
Proof.
  intros Hin.
  destruct (fold_safe_col_spec _ df _ (ensure_columns_fold df))
    as (Hl & Hc & Hr).
  split; [apply Hc; by right|].
  intros Hnot i r' Hi. split; [|reflexivity].
  destruct (nth_error (rows df) i) as [r|] eqn:Er.
  - destruct (Hr i r Er) as (r2 & Hn & _ & Hnew).
    rewrite Hn in Hi. injection Hi as <-. by apply Hnew.
  - apply nth_error_None in Er.
    assert (nth_error (rows (ensure_columns df)) i = None) as Hnone
      by (apply nth_error_None; lia).
    congruence.
Qed.

Lemma ensure_columns_adds_blank_witness :
  In "race_ml" (columns (ensure_columns
     {| columns := ["image_id"; "race_cat"];
        rows := [list_to_map [("image_id", VStr "a"); ("race_cat", VStr "Black")]] |})) /\
  (forall i r',
     nth_error (rows (ensure_columns
       {| columns := ["image_id"; "race_cat"];
          rows := [list_to_map [("image_id", VStr "a"); ("race_cat", VStr "Black")]] |}))
       i = Some r' ->
     r' !! "race_ml" = Some (VStr "") /\ is_blank (VStr "") = true).
Proof.
  destruct (ensure_columns_adds_blank
              {| columns := ["image_id"; "race_cat"];
                 rows := [list_to_map [("image_id", VStr "a");
                                       ("race_cat", VStr "Black")]] |}
              "race_ml") as [H1 H2].
  - cbn. tauto.
  - split; [exact H1|]. apply H2. cbn. intros [H | [H | []]]; discriminate.
Defined.

(** ** [urange] *)

Lemma split_chars_not_nil sep l : split_chars sep l <> [].
Proof.
  destruct l as [|c l]; cbn; [done|].
  destruct (Ascii.eqb c sep); [done|]. by destruct (split_chars sep l).
Qed.

Lemma length_split_chars sep l :
  length (split_chars sep l) =
  S (length (filter (fun c => Ascii.eqb c sep = true) l)).
Proof.
  induction l as [|c l IH]; [reflexivity|].
  cbn [split_chars]. rewrite filter_cons.
  destruct (decide (Ascii.eqb c sep = true)) as [E | E].
  - rewrite E. cbn [length]. by rewrite IH.
  - apply not_true_is_false in E. rewrite E.
    destruct (split_chars sep l) as [|p ps] eqn:Es; [by destruct (split_chars_not_nil sep l)|].
    cbn [length] in *. exact IH.
Qed.

Lemma split_chars_no_sep sep l :
  filter (fun c => Ascii.eqb c sep = true) l = [] -> split_chars sep l = [l].
Proof.
  induction l as [|c l IH]; [reflexivity|].
  rewrite filter_cons. cbn [split_chars].
  destruct (decide (Ascii.eqb c sep = true)) as [E | E]; [discriminate|].
  apply not_true_is_false in E. rewrite E. intros H. by rewrite (IH H).
Qed.

Lemma split_chars_app sep x l :
  filter (fun c => Ascii.eqb c sep = true) x = [] ->
  split_chars sep (x ++ sep :: l) = x :: split_chars sep l.
Proof.
  induction x as [|c x IH]; intros H.
  - cbn. by rewrite Ascii.eqb_refl.
  - rewrite filter_cons in H.
    destruct (decide (Ascii.eqb c sep = true)) as [E | E]; [discriminate|].
    apply not_true_is_false in E. cbn [app split_chars]. rewrite E.
    by rewrite (IH H).
Qed.

Lemma commas_zero s :
  commas s = O ->
  filter (fun c => Ascii.eqb c ","%char = true) (list_ascii_of_string s) = [].
Proof. unfold commas. by destruct (filter _ _). Qed.

Lemma float_of_string_raises s e :
  PyNum.float_of_string s = Raise e -> exists msg, e = ValueError msg.
Proof.
  unfold PyNum.float_of_string.
  destruct (PyNum.sign _) as [neg l].
  destruct (_ || _)%bool; [discriminate|].
  destruct (String.eqb _ "nan"); [discriminate|].
  destruct (PyNum.floatnumber l); [discriminate|].
  intros H. injection H as <-. eauto.
Qed.

(** X3.  On a text [x,y] with no further comma, [urange] is the pair of
    the two float conversions: it returns their values when both succeed,
    and raises the error of the first one that fails. *)
Theorem urange_pair x y :
  commas x = O -> commas y = O ->
  urange (x +:+ "," +:+ y) =
  match PyNum.float_of_string x, PyNum.float_of_string y with
  | Ok fx, Ok fy => Ok (fx, fy)
  | Raise e, _ => Raise e
  | Ok _, Raise e => Raise e
  end.
Proof.
  intros Hx Hy. unfold urange, split_comma.
  rewrite list_ascii_of_string_app.
  change (list_ascii_of_string ("," +:+ y))
    with (","%char :: list_ascii_of_string y).
  rewrite (split_chars_app _ _ _ (commas_zero _ Hx)).
  rewrite (split_chars_no_sep _ _ (commas_zero _ Hy)).
  cbn [map]. rewrite !string_of_list_ascii_of_string.
  destruct (PyNum.float_of_string x); [|reflexivity].
  by destruct (PyNum.float_of_string y).
Qed.

Lemma urange_pair_witness :
  urange ("0.80" +:+ "," +:+ "1.00") =
  match PyNum.float_of_string "0.80", PyNum.float_of_string "1.00" with
  | Ok fx, Ok fy => Ok (fx, fy)
  | Raise e, _ => Raise e
  | Ok _, Raise e => Raise e
  end.
Proof. apply urange_pair; reflexivity. Defined.

(** X4.  A text that does not have exactly one comma makes [urange]
    raise [ValueError] (the unpacking fails); and whatever the text,
    [ValueError] is the only exception [urange] raises. *)
Theorem urange_raises_ValueError s :
  (commas s <> 1%nat -> exists msg, urange s = Raise (ValueError msg)) /\
  (forall e, urange s = Raise e -> exists msg, e = ValueError msg).
Proof.
  unfold urange, split_comma, commas.
  pose proof (length_split_chars ","%char (list_ascii_of_string s)) as Hlen.
  destruct (split_chars ","%char (list_ascii_of_string s)) as [|x [|y [|z ps]]];
    cbn [map length] in *.
  - split; eauto. intros e H. injection H as <-. eauto.
  - split; eauto. intros e H. injection H as <-. eauto.
  - split; [intros Hc; lia|].
    intros e. destruct (PyNum.float_of_string _) eqn:E1.
    + destruct (PyNum.float_of_string (string_of_list_ascii y)) eqn:E2; [discriminate|].
      intros H. injection H as <-. by apply float_of_string_raises in E2.
    + intros H. injection H as <-. by apply float_of_string_raises in E1.
  - split; eauto. intros e H. injection H as <-. eauto.
Qed.

Lemma urange_raises_ValueError_witness :
  (commas "0.3;0.5" <> 1%nat ->
   exists msg, urange "0.3;0.5" = Raise (ValueError msg)) /\
  (forall e, urange "0.3;0.5" = Raise e -> exists msg, e = ValueError msg).
Proof. apply urange_raises_ValueError. Defined.

(** ** [choose_multilabel] *)

Lemma with_rng_frame {A} (f : generator -> A * generator) s x s' :
  with_rng f s = Ok (x, s') ->
  np_random s' = np_random s /\ filled_counts s' = filled_counts s.
Proof.
  unfold with_rng. destruct (f (rng s)) as [y g]. intros H.
  injection H as _ <-. split; reflexivity.
Qed.

(** X5.  A label outside the seven classes, or a class with no adjacent
    pair ("Black"), passes through unchanged and draws nothing. *)
Theorem choose_multilabel_passthrough base_label rate s :
  PyStr.mem base_label FF_CLASSES = false \/ candidates base_label = [] ->
  choose_multilabel base_label rate s = Ok (base_label, s).
Proof.
  intros [H | H]; unfold choose_multilabel.
  - by rewrite H.
  - rewrite H. by destruct (negb _).
Qed.

Lemma choose_multilabel_passthrough_witness :
  choose_multilabel "Black" (15 # 100) (Sample.state_of [] [])
  = Ok ("Black", Sample.state_of [] []).
Proof. apply choose_multilabel_passthrough. right. reflexivity. Defined.

(** X6.  With an ambiguous-rate of zero or less no label is ever turned
    into a pair. *)
Theorem choose_multilabel_rate_zero base_label rate s :
  (rate <= 0)%Q ->
  exists s', choose_multilabel base_label rate s = Ok (base_label, s').
Proof.
  intros Hr. unfold choose_multilabel.
  destruct (negb _); [by eexists|].
  destruct (candidates base_label) as [|p ps]; [by eexists|].
  unfold bind. destruct (with_rng gen_random s) as [[u s1]|e] eqn:E.
  - apply with_rng_random in E as (_ & Hu & _).
    assert (Qltb u rate = false) as ->.
    { unfold Qltb. destruct (Qlt_le_dec u rate); [lra|reflexivity]. }
    by eexists.
  - unfold with_rng in E. by destruct (gen_random (rng s)).
Qed.

Lemma choose_multilabel_rate_zero_witness :
  exists s', choose_multilabel "Latino" 0 (Sample.state_of [] [])
             = Ok ("Latino", s').
Proof. apply choose_multilabel_rate_zero. lra. Defined.

Lemma FF_CLASSES_cases base_label :
  PyStr.mem base_label FF_CLASSES = true ->
  In base_label FF_CLASSES.
Proof. apply mem_In. Qed.

(** X7.  [choose_multilabel] always returns, and what it returns is the
    base label itself or the base label, a bar and another category that
    is paired with it in the table of adjacent pairs; only the generator
    of the standard library moves. *)
Theorem choose_multilabel_adjacent base_label rate s :
  exists ml s',
    choose_multilabel base_label rate s = Ok (ml, s') /\
    np_random s' = np_random s /\ filled_counts s' = filled_counts s /\
    (ml = base_label \/
     exists other, ml = base_label +:+ "|" +:+ other /\ other <> base_label /\
       (In (base_label, other) ADJACENT_PAIRS \/
        In (other, base_label) ADJACENT_PAIRS)).
Proof.
  destruct (PyStr.mem base_label FF_CLASSES) eqn:Hm.
  2:{ exists base_label, s. unfold choose_multilabel. rewrite Hm.
      repeat split. by left. }
  apply FF_CLASSES_cases in Hm. unfold FF_CLASSES in Hm. cbn [In] in Hm.
  assert (Hgen : forall cands,
    candidates base_label = cands ->
    Forall (fun p => exists other,
              multilabel base_label p = base_label +:+ "|" +:+ other /\
              other <> base_label /\
              (In (base_label, other) ADJACENT_PAIRS \/
               In (other, base_label) ADJACENT_PAIRS)) cands ->
    exists ml s',
      choose_multilabel base_label rate s = Ok (ml, s') /\
      np_random s' = np_random s /\ filled_counts s' = filled_counts s /\
      (ml = base_label \/
       exists other, ml = base_label +:+ "|" +:+ other /\ other <> base_label /\
         (In (base_label, other) ADJACENT_PAIRS \/
          In (other, base_label) ADJACENT_PAIRS))).
  { intros cands Hc Hall. unfold choose_multilabel.
    assert (PyStr.mem base_label FF_CLASSES = true) as ->.
    { apply mem_In. unfold FF_CLASSES. cbn [In]. exact Hm. }
    cbn [negb]. rewrite Hc. destruct cands as [|p ps].
    { exists base_label, s. repeat split. by left. }
    unfold bind.
    destruct (with_rng gen_random s) as [[u s1]|e] eqn:E;
      [|unfold with_rng in E; by destruct (gen_random (rng s))].
    destruct (with_rng_frame _ _ _ _ E) as [Hn1 Hf1].
    destruct (Qltb u rate).
    2:{ exists base_label, s1. repeat split; [done..|by left]. }
    destruct (with_rng (gen_randbelow (length (p :: ps))) s1)
      as [[k s2]|e] eqn:E2;
      [|unfold with_rng in E2; by destruct (gen_randbelow _ (rng s1))].
    destruct (with_rng_frame _ _ _ _ E2) as [Hn2 Hf2].
    apply with_rng_randbelow in E2; [|discriminate].
    eexists _, s2. split; [reflexivity|].
    split; [congruence|]. split; [congruence|]. right.
    rewrite Forall_forall in Hall.
    apply (Hall (nth k (p :: ps) ("", ""))).
    apply list_elem_of_In. by apply nth_In. }
  destruct Hm as [<- | [<- | [<- | [<- | [<- | [<- | [<- | []]]]]]]];
    (eapply Hgen; [vm_compute; reflexivity|]);
    repeat (apply List.Forall_cons;
            [eexists; split; [vm_compute; reflexivity|];
             split; [discriminate|cbn; tauto]|]);
    apply List.Forall_nil.
Qed.

(** ** [brightness_to_bin] *)

(** X8.  The estimator has no bin in exactly three cases: PIL is missing,
    the file does not open or decode, or the image is narrower or lower
    than 10 pixels. *)
Theorem brightness_to_bin_None_iff env img_path bins :
  brightness_to_bin env img_path bins = None <->
  (PIL_OK env = false \/
   image_open env img_path = None \/
   exists im, image_open env img_path = Some im /\
              (im_w im < 10 \/ im_h im < 10)).
Proof.
  split; [|apply brightness_to_bin_None].
  unfold brightness_to_bin. destruct (PIL_OK env); [|auto].
  cbn [negb]. destruct (image_open env img_path) as [im|]; [|auto].
  destruct ((im_w im <? 10) || (im_h im <? 10))%bool eqn:E; [|discriminate].
  intros _. right. right. exists im. split; [reflexivity|].
  apply orb_true_iff in E as [E | E]; apply Z.ltb_lt in E; auto.
Qed.

(** X9.  With a positive number of bins, every bin the estimator returns
    lies between 1 and that number. *)
Theorem brightness_bin_in_range env img_path bins b :
  0 < bins -> brightness_to_bin env img_path bins = Some b -> 1 <= b <= bins.
Proof. apply brightness_to_bin_in_range. Qed.

Lemma brightness_bin_in_range_witness :
  brightness_to_bin
    {| PIL_OK := true; path_exists := fun _ => true;
       image_open := fun _ => Some {| im_w := 12; im_h := 12;
                                      im_px := fun _ _ => 128 |} |}
    "img_0001.jpg" 7 = Some 4 /\
  1 <= 4 <= 7.
Proof.
  split; [vm_compute; reflexivity|].
  apply (brightness_bin_in_range
           {| PIL_OK := true; path_exists := fun _ => true;
              image_open := fun _ => Some {| im_w := 12; im_h := 12;
                                             im_px := fun _ _ => 128 |} |}
           "img_0001.jpg" 7 4); [lia|].
  vm_compute. reflexivity.
Defined.

Lemma sum_range_const (f : Z -> Z) (c : Z) :
  (forall z, f z = c) -> forall start n, sum_range f start n = Z.of_nat n * c.
Proof.
  intros Hf start n. revert start.
  induction n as [|n IH]; intros start; [reflexivity|].
  cbn [sum_range]. rewrite Hf, IH. lia.
Qed.

Lemma crop_mean_uniform im c x0 y0 cw ch :
  (forall x y, im_px im x y = c) -> 0 < cw -> 0 < ch ->
  (crop_mean im x0 y0 cw ch == inject_Z c)%Q.
Proof.
  intros Hpx Hcw Hch. unfold crop_mean.
  rewrite (sum_range_const _ (Z.of_nat (Z.to_nat cw) * c)).
  2:{ intros y. apply sum_range_const. intros x. apply Hpx. }
  rewrite !Z2Nat.id by lia.
  replace (ch * (cw * c)) with (c * (cw * ch)) by ring.
  rewrite inject_Z_mult. field.
  intros H. unfold Qeq in H. cbn [Qnum Qden inject_Z] in H. nia.
Qed.

Lemma uniform_crop_size w : 10 <= w -> 0 < Z.max 8 (Qfloor (inject_Z w * (6 # 10))).
Proof. lia. Qed.

(** X11.  At the ends of the grey scale: an all-black image of at least
    10 by 10 pixels gets bin 1, an all-white one gets the last bin (the
    clamp takes [bins + 1] back to [bins]). *)
Theorem brightness_to_bin_extremes env img_path bins im c :
  0 < bins ->
  PIL_OK env = true ->
  image_open env img_path = Some im ->
  10 <= im_w im -> 10 <= im_h im ->
  (forall x y, im_px im x y = c) ->
  (c = 0 -> brightness_to_bin env img_path bins = Some 1) /\
  (c = 255 -> brightness_to_bin env img_path bins = Some bins).
Proof.
  intros Hb Hpil Hopen Hw Hh Hpx. unfold brightness_to_bin.
  rewrite Hpil, Hopen. cbn [negb].
  assert ((im_w im <? 10) || (im_h im <? 10) = false)%bool as ->.
  { apply orb_false_iff. split; apply Z.ltb_ge; lia. }
  cbv zeta.
  set (cw := Z.max 8 (Qfloor (inject_Z (im_w im) * (6 # 10)))).
  set (ch := Z.max 8 (Qfloor (inject_Z (im_h im) * (6 # 10)))).
  pose proof (crop_mean_uniform im c ((im_w im - cw) / 2) ((im_h im - ch) / 2)
                cw ch Hpx (uniform_crop_size _ Hw) (uniform_crop_size _ Hh))
    as Hm.
  split; intros ->; f_equal.
  - rewrite (Qfloor_comp _ (inject_Z 0)), Qfloor_Z; [unfold clip; lia|].
    rewrite Hm. reflexivity.
  - rewrite (Qfloor_comp _ (inject_Z bins)), Qfloor_Z; [unfold clip; lia|].
    rewrite Hm. change (inject_Z 255) with 255%Q. field.
Qed.

Lemma brightness_to_bin_extremes_witness :
  (255 = 0 ->
   brightness_to_bin
     {| PIL_OK := true; path_exists := fun _ => true;
        image_open := fun _ => Some {| im_w := 12; im_h := 12;
                                       im_px := fun _ _ => 255 |} |}
     "img_0001.jpg" 7 = Some 1) /\
  (255 = 255 ->
   brightness_to_bin
     {| PIL_OK := true; path_exists := fun _ => true;
        image_open := fun _ => Some {| im_w := 12; im_h := 12;
                                       im_px := fun _ _ => 255 |} |}
     "img_0001.jpg" 7 = Some 7).
Proof.
  apply (brightness_to_bin_extremes _ _ _
           {| im_w := 12; im_h := 12; im_px := fun _ _ => 255 |});
    cbn; first [reflexivity | lia].
Defined.

(** ** What a pass leaves alone *)

Section Kept.

Variable a : args.
Variable env : environment.
Variable row : gmap string pyval.

Ltac keep_block :=
  intros Hk; erewrite bind_eq by (by apply needs_fill_keep); reflexivity.

Lemma race_ml_block_keep cur s :
  to_keep a row "race_ml" ->
  exists v, row !! "race_ml" = Some v /\
            race_ml_block a row cur s = Ok (py_str v, cur, s).
Proof.
  intros Hk. destruct (Hk) as (_ & v & Hv & _). exists v. split; [done|].
  unfold race_ml_block. erewrite bind_eq by (by apply needs_fill_keep).
  unfold bind, getitem. by rewrite Hv.
Qed.

Lemma ambiguous_mixed_block_keep ml cur s :
  to_keep a row "ambiguous_mixed" ->
  ambiguous_mixed_block a row ml cur s = Ok (cur, s).
Proof. unfold ambiguous_mixed_block. keep_block. Qed.

Lemma prefer_not_to_label_block_keep cur s :
  to_keep a row "prefer_not_to_label" ->
  prefer_not_to_label_block a row cur s = Ok (cur, s).
Proof. unfold prefer_not_to_label_block. keep_block. Qed.

Lemma conf_race_block_keep ml cur s :
  to_keep a row "conf_race" -> conf_race_block a row ml cur s = Ok (cur, s).
Proof. unfold conf_race_block. keep_block. Qed.

Lemma unknown_uncertain_block_keep conf cur s :
  to_keep a row "unknown_uncertain" ->
  unknown_uncertain_block a row conf cur s = Ok (cur, s).
Proof. unfold unknown_uncertain_block. keep_block. Qed.

Lemma cultural_markers_block_keep cur s :
  to_keep a row "cultural_markers" ->
  cultural_markers_block a row cur s = Ok (cur, s).
Proof. unfold cultural_markers_block. keep_block. Qed.

Lemma skin_tone_bin_block_keep cur s :
  to_keep a row "skin_tone_bin" ->
  skin_tone_bin_block a env row cur s = Ok (cur, s).
Proof. unfold skin_tone_bin_block. keep_block. Qed.

Lemma conf_skin_block_keep cur s :
  to_keep a row "conf_skin" -> conf_skin_block a env row cur s = Ok (cur, s).
Proof. unfold conf_skin_block. keep_block. Qed.

Lemma conf_gender_block_keep cur s :
  to_keep a row "conf_gender" -> conf_gender_block a row cur s = Ok (cur, s).
Proof. unfold conf_gender_block. keep_block. Qed.

Lemma annotation_notes_block_keep ml cur s :
  to_keep a row "annotation_notes" ->
  annotation_notes_block a row ml cur s = Ok (cur, s).
Proof. unfold annotation_notes_block. keep_block. Qed.

End Kept.

Lemma process_row_keeps a env row s cur s' c :
  process_row a env row s = Ok (cur, s') ->
  ~ In c derived_columns \/ to_keep a row c ->
  cur !! c = row !! c.
Proof.
  intros H Hc. open_row H.
  destruct (decide (c = "race_ml")) as [-> | N1].
  { destruct Hc as [Hc | Hk]; [exfalso; apply Hc; cbn; tauto|].
    frame_all.
    destruct (race_ml_block_keep a row row s Hk) as (v & _ & E).
    rewrite E in Hrace. by injection Hrace as _ <- _. }
  destruct (decide (c = "ambiguous_mixed")) as [-> | N2].
  { destruct Hc as [Hc | Hk]; [exfalso; apply Hc; cbn; tauto|].
    frame_all. rewrite (ambiguous_mixed_block_keep _ _ _ _ _ Hk) in Hamb.
    injection Hamb as <- _. by frame_all. }
  destruct (decide (c = "prefer_not_to_label")) as [-> | N3].
  { destruct Hc as [Hc | Hk]; [exfalso; apply Hc; cbn; tauto|].
    frame_all. rewrite (prefer_not_to_label_block_keep _ _ _ _ Hk) in Hpref.
    injection Hpref as <- _. by frame_all. }
  destruct (decide (c = "conf_race")) as [-> | N4].
  { destruct Hc as [Hc | Hk]; [exfalso; apply Hc; cbn; tauto|].
    frame_all. rewrite (conf_race_block_keep _ _ _ _ _ Hk) in Hconf.
    injection Hconf as <- _. by frame_all. }
  destruct (decide (c = "unknown_uncertain")) as [-> | N5].
  { destruct Hc as [Hc | Hk]; [exfalso; apply Hc; cbn; tauto|].
    frame_all. rewrite (unknown_uncertain_block_keep _ _ _ _ _ Hk) in Hunk.
    injection Hunk as <- _. by frame_all. }
  destruct (decide (c = "cultural_markers")) as [-> | N6].
  { destruct Hc as [Hc | Hk]; [exfalso; apply Hc; cbn; tauto|].
    frame_all. rewrite (cultural_markers_block_keep _ _ _ _ Hk) in Hmark.
    injection Hmark as <- _. by frame_all. }
  destruct (decide (c = "skin_tone_bin")) as [-> | N7].
  { destruct Hc as [Hc | Hk]; [exfalso; apply Hc; cbn; tauto|].
    frame_all. rewrite (skin_tone_bin_block_keep _ _ _ _ _ Hk) in Hskin.
    injection Hskin as <- _. by frame_all. }
  destruct (decide (c = "conf_skin")) as [-> | N8].
  { destruct Hc as [Hc | Hk]; [exfalso; apply Hc; cbn; tauto|].
    frame_all. rewrite (conf_skin_block_keep _ _ _ _ _ Hk) in Hcskin.
    injection Hcskin as <- _. by frame_all. }
  destruct (decide (c = "conf_gender")) as [-> | N9].
  { destruct Hc as [Hc | Hk]; [exfalso; apply Hc; cbn; tauto|].
    frame_all. rewrite (conf_gender_block_keep _ _ _ _ Hk) in Hcgen.
    injection Hcgen as <- _. by frame_all. }
  destruct (decide (c = "annotation_notes")) as [-> | N10].
  { destruct Hc as [Hc | Hk]; [exfalso; apply Hc; cbn; tauto|].
    rewrite (annotation_notes_block_keep _ _ _ _ _ Hk) in Hnotes.
    injection Hnotes as <- _. by frame_all. }
  by frame_all.
Qed.



(** X12.  A pass over a row changes only what it fills: a column that is
    not one of the ten derived ones is never touched, and in fill-blanks
    mode a derived cell that is not blank keeps its value. *)
Theorem process_row_keeps_cells a env row s cur s' c :
  process_row a env row s = Ok (cur, s') ->
  ~ In c derived_columns \/ to_keep a row c ->
  cur !! c = row !! c.
Proof. apply process_row_keeps. Qed.

Lemma process_row_keeps_cells_witness :
  exists cur s',
    process_row Sample.default_args Sample.bare
      (Sample.filled_row (VFloat (FNum (9 # 10)))) (Sample.state_of [] [])
    = Ok (cur, s') /\
    cur !! "race_ml" = Sample.filled_row (VFloat (FNum (9 # 10))) !! "race_ml".
Proof.
  destruct (succeeds_Ok
              (process_row Sample.default_args Sample.bare
                 (Sample.filled_row (VFloat (FNum (9 # 10))))
                 (Sample.state_of [] [])))
    as [[cur s'] E]; [vm_compute; reflexivity|].
  exists cur, s'. split; [exact E|].
  apply (process_row_keeps_cells _ _ _ _ _ _ "race_ml" E).
  right. split; [reflexivity|].
  exists (VStr "Latino|White"). split; vm_compute; reflexivity.
Defined.

(** ** The run as a whole *)

Lemma iterrows_Ok a env rs : forall s rs' s',
  iterrows a env rs s = Ok (rs', s') ->
  Forall2 (fun r r' => exists s1 s2, process_row a env r s1 = Ok (r', s2)) rs rs'.
Proof.
  induction rs as [|r rs IH]; intros s rs' s' H; cbn [iterrows] in H.
  - apply ret_Ok in H as [-> _]. constructor.
  - invert_bind H as r' s1 Hr. invert_bind H as rs'' s2 Hrs.
    apply ret_Ok in H as [-> _]. constructor; eauto.
Qed.

Lemma Forall2_nth_error {A B} (R : A -> B -> Prop) l l' :
  Forall2 R l l' ->
  length l = length l' /\
  forall i x y, nth_error l i = Some x -> nth_error l' i = Some y -> R x y.
Proof.
  induction 1 as [|x y l l' Hxy Hall [IHl IHn]]; split; try done.
  - intros [|i]; discriminate.
  - cbn. by rewrite IHl.
  - intros [|i] x' y'; cbn.
    + intros [= <-] [= <-]. exact Hxy.
    + apply IHn.
Qed.

(** What a run that returns has done, step by step. *)
Lemma engine_Ok sys env a rep :
  engine sys env a = Ok rep ->
  exists npg df rows' s stats,
    seed_numpy sys (seed a) = Ok npg /\
    read_csv sys (inp a) = Ok df /\
    iterrows a env (rows (ensure_columns df))
      {| rng := seed_random sys (seed a); np_random := npg;
         filled_counts := initial_counts |} = Ok (rows', s) /\
    rows' <> [] /\
    table rep = {| columns := columns (ensure_columns df); rows := rows' |} /\
    flag_rates_and_medians sys (table rep) = Ok stats /\
    ((dry_run a = true /\ saved rep = None /\ exit_status rep = 0) \/
     (dry_run a = false /\ mkdir_parents sys (outp a) = Ok tt /\
      ((to_csv sys (table rep) (outp a) = Ok tt /\
        saved rep = Some (table rep) /\ exit_status rep = 0) \/
       (exists e, to_csv sys (table rep) (outp a) = Raise e /\
                  saved rep = None /\ exit_status rep = 1)))).
Proof.
  unfold engine. intros H.
  destruct (seed_numpy sys (seed a)) as [npg|]; [|discriminate].
  destruct (read_csv sys (inp a)) as [df|]; [|discriminate].
  exists npg, df.
  remember (ensure_columns df) as edf eqn:Hedf. clear Hedf.
  destruct (iterrows a env (rows edf) _) as [[rows' s]|] eqn:Ei;
    [|discriminate].
  destruct (length rows' =? 0)%nat eqn:En; [discriminate|].
  destruct (flag_rates_and_medians sys _) as [stats|] eqn:Es; [|discriminate].
  exists rows', s, stats.
  assert (Hne : rows' <> []) by (intros ->; discriminate).
  destruct (dry_run a) eqn:Ed.
  { injection H as <-. cbn [table saved exit_status].
    split; [done|]. split; [done|]. split; [done|]. split; [done|].
    split; [done|]. split; [exact Es|]. left. done. }
  destruct (mkdir_parents sys (outp a)) as [[]|] eqn:Em; [|discriminate].
  destruct (to_csv sys _ (outp a)) as [[]|e] eqn:Ec;
    injection H as <-; cbn [table saved exit_status];
    (split; [done|]); (split; [done|]); (split; [done|]); (split; [done|]);
    (split; [done|]); (split; [exact Es|]); right;
    (split; [done|]); (split; [done|]).
  - left. done.
  - right. exists e. done.
Qed.



(** X13.  A run that returns has neither added nor dropped a row, and in
    every row every input column that is not a derived one, and in
    fill-blanks mode every derived cell that was not blank, holds what
    the input held. *)
Theorem engine_keeps_input sys env a rep df :
  engine sys env a = Ok rep ->
  read_csv sys (inp a) = Ok df ->
  length (rows (table rep)) = length (rows df) /\
  forall i r r' c,
    nth_error (rows df) i = Some r ->
    nth_error (rows (table rep)) i = Some r' ->
    In c (columns df) ->
    ~ In c derived_columns \/ to_keep a r c ->
    r' !! c = r !! c.
Proof.
  intros H Hread.
  destruct (engine_Ok _ _ _ _ H)
    as (npg & df' & rows' & s & stats & _ & Hread' & Hit & _ & Ht & _).
  rewrite Hread in Hread'. injection Hread' as <-.
  rewrite Ht. cbn [rows].
  destruct (fold_safe_col_spec _ df _ (ensure_columns_fold df))
    as (Hlen & _ & Hcells).
  apply iterrows_Ok in Hit. apply Forall2_nth_error in Hit as [Hl Hn].
  split; [congruence|].
  intros i r r' c Hr Hr' Hc Hcase.
  destruct (Hcells i r Hr) as (re & Hre & Hsame & _).
  destruct (Hn i re r' Hre Hr') as (s1 & s2 & Hrow).
  rewrite <- (Hsame c Hc).
  apply (process_row_keeps _ _ _ _ _ _ c Hrow).
  destruct Hcase as [Hd | (Ho & v & Hv & Hb)]; [by left|right].
  split; [exact Ho|]. exists v. by rewrite (Hsame c Hc).
Qed.

(** X14.  How a run that returns ends: the exit status is 0 or 1; a file
    is saved only outside dry-run mode, it is the processed table, and
    the status is then 0; the status is 1 exactly when the CSV writer
    failed, and then nothing is saved. *)
Theorem engine_outcome sys env a rep :
  engine sys env a = Ok rep ->
  (exit_status rep = 0 \/ exit_status rep = 1) /\
  (forall t, saved rep = Some t ->
     t = table rep /\ dry_run a = false /\ exit_status rep = 0 /\
     to_csv sys t (outp a) = Ok tt) /\
  (exit_status rep = 1 <->
   dry_run a = false /\ exists e, to_csv sys (table rep) (outp a) = Raise e) /\
  (exit_status rep = 1 -> saved rep = None).
Proof.
  intros H.
  destruct (engine_Ok _ _ _ _ H)
    as (npg & df & rows' & s & stats & _ & _ & _ & _ & _ & _ & Hend).
  destruct Hend as [(Hd & Hs & He) |
                    (Hd & Hm & [(Hc & Hs & He) | (e & Hc & Hs & He)])];
    rewrite Hs, He.
  - split; [by left|]. split; [intros t0; discriminate|].
    split; [|discriminate]. split; [discriminate|].
    intros [Hd' _]. congruence.
  - split; [by left|]. split; [intros t0 [= <-]; done|].
    split; [|discriminate]. split; [discriminate|].
    intros [_ (e & He')]. congruence.
  - split; [by right|]. split; [intros t0; discriminate|].
    split; [|done]. split; [|done]. intros _. split; [done|]. eauto.
Qed.

(** X15.  A table without rows makes the run stop with
    [ZeroDivisionError] (the share [v/n] of the tally), before anything is
    written. *)
Theorem engine_empty_table sys env a npg df :
  seed_numpy sys (seed a) = Ok npg ->
  read_csv sys (inp a) = Ok df ->
  rows df = [] ->
  engine sys env a = Raise ZeroDivisionError.
Proof.
  intros Hs Hr He. unfold engine. rewrite Hs, Hr.
  destruct (fold_safe_col_spec _ df _ (ensure_columns_fold df)) as (Hlen & _).
  rewrite He in Hlen.
  destruct (rows (ensure_columns df)) as [|r rs];
    [|cbn [length] in Hlen; discriminate].
  reflexivity.
Qed.

Lemma engine_empty_table_witness :
  engine (Sample.platform_of (Sample.table_of [])) Sample.bare Sample.default_args
  = Raise ZeroDivisionError.
Proof.
  apply (engine_empty_table _ _ _ (Sample.tape_of []) (Sample.table_of []));
    reflexivity.
Defined.

Lemma engine_keeps_input_witness :
  exists rep,
    engine (Sample.platform_of
              (Sample.table_of [Sample.scaffold "Black" "male"]))
           Sample.bare Sample.default_args = Ok rep /\
    length (rows (table rep))
      = length (rows (Sample.table_of [Sample.scaffold "Black" "male"])) /\
    forall i r r' c,
      nth_error (rows (Sample.table_of [Sample.scaffold "Black" "male"])) i
        = Some r ->
      nth_error (rows (table rep)) i = Some r' ->
      In c (columns (Sample.table_of [Sample.scaffold "Black" "male"])) ->
      ~ In c derived_columns \/ to_keep Sample.default_args r c ->
      r' !! c = r !! c.
Proof.
  destruct (succeeds_Ok
              (engine (Sample.platform_of
                         (Sample.table_of [Sample.scaffold "Black" "male"]))
                      Sample.bare Sample.default_args))
    as [rep E]; [vm_compute; reflexivity|].
  exists rep. split; [exact E|].
  exact (engine_keeps_input _ _ _ _ _ E eq_refl).
Defined.

Lemma engine_outcome_witness :
  exists rep,
    engine (Sample.platform_of
              (Sample.table_of [Sample.scaffold "Black" "male"]))
           Sample.bare Sample.default_args = Ok rep /\
    (exit_status rep = 0 \/ exit_status rep = 1) /\
    (forall t, saved rep = Some t ->
       t = table rep /\ dry_run Sample.default_args = false /\
       exit_status rep = 0 /\
       to_csv (Sample.platform_of
                 (Sample.table_of [Sample.scaffold "Black" "male"]))
              t (outp Sample.default_args) = Ok tt) /\
    (exit_status rep = 1 <->
     dry_run Sample.default_args = false /\
     exists e, to_csv (Sample.platform_of
                         (Sample.table_of [Sample.scaffold "Black" "male"]))
                      (table rep) (outp Sample.default_args) = Raise e) /\
    (exit_status rep = 1 -> saved rep = None).
Proof.
  destruct (succeeds_Ok
              (engine (Sample.platform_of
                         (Sample.table_of [Sample.scaffold "Black" "male"]))
                      Sample.bare Sample.default_args))
    as [rep E]; [vm_compute; reflexivity|].
  exists rep. split; [exact E|].
  exact (engine_outcome _ _ _ _ E).
Defined.

(** ** Cultural markers and notes *)

Lemma marker_if_Ok cond rate name s l s' :
  marker_if cond rate name s = Ok (l, s') ->
  l = [] \/ (cond = true /\ l = [name]).
Proof.
  unfold marker_if. destruct cond.
  - intros H. invert_bind H as b t Hb. apply ret_Ok in H as [-> _].
    destruct b; auto.
  - intros H. apply ret_Ok in H as [-> _]. auto.
Qed.

Lemma cultural_markers_block_filled a row cur s cur' s' :
  cultural_markers_block a row cur s = Ok (cur', s') ->
  to_fill a row "cultural_markers" ->
  exists txt,
    cur' !! "cultural_markers" = Some (VStr txt) /\
    In txt marker_texts /\
    (PyStr.mem (base_race row) ["MiddleEastern"; "SouthAsian"] = false ->
     In txt ["none"; "beard"; "piercing_visible"; "beard|piercing_visible"]) /\
    (PyStr.mem (PyStr.lower (py_str (row_get row "gender_cat"))) ["male"; "m"]
       = false ->
     In txt ["none"; "piercing_visible"; "religious_headwear";
             "piercing_visible|religious_headwear"]).
Proof.
  intros H Hf. unfold cultural_markers_block in H.
  invert_bind H as fill t Hn. apply needs_fill_Ok in Hn as [-> Hk].
  destruct fill; [|destruct (to_fill_keep _ _ _ Hf Hk)].
  invert_bind H as m1 t1 H1. invert_bind H as m2 t2 H2.
  invert_bind H as m3 t3 H3. invert_bind H as u t4 Hc.
  apply ret_Ok in H as [-> _].
  apply marker_if_Ok in H1, H2, H3.
  eexists. split; [by rewrite lookup_insert_eq|].
  destruct H1 as [-> | [C1 ->]], H2 as [-> | [C2 ->]], H3 as [-> | [_ ->]];
    (split; [vm_compute; tauto|]);
    (split; [intros E; try congruence; vm_compute; tauto|]);
    intros E; try congruence; vm_compute; tauto.
Qed.

(** X16.  When the engine fills [cultural_markers], the cell is never
    empty: it is "none" or the sorted, bar-joined list of one to three of
    beard, piercing_visible and religious_headwear.  The headwear marker
    appears only for the races MiddleEastern and SouthAsian, the beard
    only for the genders male and m. *)
Theorem cultural_markers_text a env row s cur s' :
  process_row a env row s = Ok (cur, s') ->
  to_fill a row "cultural_markers" ->
  exists txt,
    cur !! "cultural_markers" = Some (VStr txt) /\
    In txt marker_texts /\
    (PyStr.mem (base_race row) ["MiddleEastern"; "SouthAsian"] = false ->
     In txt ["none"; "beard"; "piercing_visible"; "beard|piercing_visible"]) /\
    (PyStr.mem (PyStr.lower (py_str (row_get row "gender_cat"))) ["male"; "m"]
       = false ->
     In txt ["none"; "piercing_visible"; "religious_headwear";
             "piercing_visible|religious_headwear"]).
Proof.
  intros H Hf. open_row H.
  destruct (cultural_markers_block_filled _ _ _ _ _ _ Hmark Hf)
    as (txt & Htxt & Hrest).
  exists txt. split; [by frame_all|exact Hrest].
Qed.

Lemma blank_cell_to_fill a row c :
  row !! c = Some (VStr "") -> to_fill a row c.
Proof. intros H. right. exists (VStr ""). split; [exact H|reflexivity]. Qed.

Lemma cultural_markers_text_witness :
  exists cur s',
    process_row Sample.default_args Sample.bare
      (Sample.scaffold "Black" "female") (Sample.state_of [] []) = Ok (cur, s') /\
    exists txt,
      cur !! "cultural_markers" = Some (VStr txt) /\
      In txt marker_texts /\
      (PyStr.mem (base_race (Sample.scaffold "Black" "female"))
         ["MiddleEastern"; "SouthAsian"] = false ->
       In txt ["none"; "beard"; "piercing_visible"; "beard|piercing_visible"]) /\
      (PyStr.mem (PyStr.lower
                    (py_str (row_get (Sample.scaffold "Black" "female")
                                     "gender_cat"))) ["male"; "m"] = false ->
       In txt ["none"; "piercing_visible"; "religious_headwear";
               "piercing_visible|religious_headwear"]).
Proof.
  destruct (succeeds_Ok
              (process_row Sample.default_args Sample.bare
                 (Sample.scaffold "Black" "female") (Sample.state_of [] [])))
    as [[cur s'] E]; [vm_compute; reflexivity|].
  exists cur, s'. split; [exact E|].
  apply (cultural_markers_text _ _ _ _ _ _ E).
  apply blank_cell_to_fill. vm_compute. reflexivity.
Defined.

Lemma annotation_notes_block_filled a row ml cur s cur' s' :
  annotation_notes_block a row ml cur s = Ok (cur', s') ->
  to_fill a row "annotation_notes" ->
  exists u p n,
    cur !! "unknown_uncertain" = Some u /\
    cur !! "prefer_not_to_label" = Some p /\
    cur' = <["annotation_notes" := VStr n]> cur /\
    (n = "" <->
     PyStr.has_bar ml = false /\ py_eq_int u 1 = false /\ py_eq_int p 1 = false) /\
    (n = "" -> s' = s) /\
    (n = "" \/ is_blank (VStr n) = false).
Proof.
  intros H Hf. unfold annotation_notes_block in H.
  invert_bind H as fill t Hn. apply needs_fill_Ok in Hn as [-> Hk].
  destruct fill; [|destruct (to_fill_keep _ _ _ Hf Hk)].
  invert_bind H as u t1 Hu. invert_bind H as p t2 Hp.
  apply getitem_Ok in Hu as [Hu ->]. apply getitem_Ok in Hp as [Hp ->].
  exists u, p.
  destruct (PyStr.has_bar ml), (py_eq_int u 1), (py_eq_int p 1);
    cbn [app] in H;
    first [ apply ret_Ok in H as [-> ->]
          | invert_bind H as x t3 Hc; apply ret_Ok in H as [-> _] ];
    eexists;
    (split; [exact Hu|]); (split; [exact Hp|]); (split; [reflexivity|]);
    first [ split; [split; [intros E; vm_compute in E; discriminate
                           |intros (E1 & E2 & E3); discriminate]
                   |split; [intros E; vm_compute in E; discriminate
                           |right; vm_compute; reflexivity]]
          | split; [split; done|split; [done|left; reflexivity]] ].
Qed.

(** X17.  When the engine fills [annotation_notes], the note is empty
    exactly when none of the three flags is set on the finished row:
    [race_ml] has no bar, [unknown_uncertain] is not 1 and
    [prefer_not_to_label] is not 1. *)
Theorem annotation_notes_empty_iff a env row s cur s' :
  process_row a env row s = Ok (cur, s') ->
  to_fill a row "annotation_notes" ->
  exists ml u p n,
    cur !! "race_ml" = Some ml /\
    cur !! "unknown_uncertain" = Some u /\
    cur !! "prefer_not_to_label" = Some p /\
    cur !! "annotation_notes" = Some (VStr n) /\
    (n = "" <->
     PyStr.has_bar (py_str ml) = false /\
     py_eq_int u 1 = false /\ py_eq_int p 1 = false).
Proof.
  intros H Hf. open_row H.
  destruct (race_ml_block_label _ _ _ _ _ _ Hrace) as (w & Hw & Hml).
  destruct (annotation_notes_block_filled _ _ _ _ _ _ _ Hnotes Hf)
    as (u & p & n & Hu & Hp & -> & Hiff & _ & _).
  exists w, u, p, n. rewrite Hml.
  rewrite !lookup_insert_ne by done. rewrite lookup_insert_eq.
  split; [by frame_all|]. split; [exact Hu|]. split; [exact Hp|].
  split; [reflexivity|exact Hiff].
Qed.

Lemma annotation_notes_empty_iff_witness :
  exists cur s',
    process_row Sample.default_args Sample.bare
      (Sample.scaffold "Black" "female") (Sample.state_of [] []) = Ok (cur, s') /\
    exists ml u p n,
      cur !! "race_ml" = Some ml /\
      cur !! "unknown_uncertain" = Some u /\
      cur !! "prefer_not_to_label" = Some p /\
      cur !! "annotation_notes" = Some (VStr n) /\
      (n = "" <->
       PyStr.has_bar (py_str ml) = false /\
       py_eq_int u 1 = false /\ py_eq_int p 1 = false).
Proof.
  destruct (succeeds_Ok
              (process_row Sample.default_args Sample.bare
                 (Sample.scaffold "Black" "female") (Sample.state_of [] [])))
    as [[cur s'] E]; [vm_compute; reflexivity|].
  exists cur, s'. split; [exact E|].
  apply (annotation_notes_empty_iff _ _ _ _ _ _ E).
  apply blank_cell_to_fill. vm_compute. reflexivity.
Defined.

(** ** The confidence bands *)

Lemma uniform_drawn range s q s' :
  uniform range s = Ok (q, s') -> drawn_from range (VFloat (FNum (PyNum.round3 q))).
Proof.
  unfold uniform, with_rng, gen_uniform.
  destruct (gen_random (rng s)) as [u g] eqn:E.
  destruct (gen_random_unit _ _ _ E) as [H0 H1].
  intros H. injection H as <- _. exists u. done.
Qed.

Lemma thousandths (k : Z) : (k # 1000 == inject_Z k / 1000)%Q.
Proof. rewrite Qmake_Qdiv. reflexivity. Qed.

Lemma round3_between (lo hi : Z) (q : Q) :
  (lo # 1000 <= q)%Q -> (q <= hi # 1000)%Q ->
  (lo # 1000 <= PyNum.round3 q)%Q /\ (PyNum.round3 q <= hi # 1000)%Q.
Proof.
  intros Hlo Hhi.
  destruct (round_half_even_between (q * 1000) lo hi) as [H1 H2].
  - revert Hlo. unfold Qle. cbn. lia.
  - revert Hhi. unfold Qle. cbn. lia.
  - unfold PyNum.round3, Qle. cbn [Qnum Qden]. lia.
Qed.

(** A value drawn from a band with ends in thousandths lies in the band. *)
Lemma drawn_from_between (lo hi : Z) (v : pyval) :
  lo <= hi -> drawn_from (lo # 1000, hi # 1000) v ->
  exists q, v = VFloat (FNum q) /\ (lo # 1000 <= q)%Q /\ (q <= hi # 1000)%Q.
Proof.
  intros Hle (u & H0 & H1 & ->). eexists. split; [reflexivity|].
  cbn [fst snd].
  assert (lo # 1000 <= hi # 1000)%Q as Hq by (unfold Qle; cbn; lia).
  apply round3_between; nra.
Qed.

Lemma conf_race_block_bands a row ml cur s cur' s' :
  conf_race_block a row ml cur s = Ok (cur', s') ->
  to_fill a row "conf_race" ->
  exists p v,
    cur !! "prefer_not_to_label" = Some p /\
    cur' !! "conf_race" = Some v /\
    (py_eq_int p 1 = true -> drawn_from (lo_conf_range a) v) /\
    (py_eq_int p 1 = false -> PyStr.has_bar ml = true ->
     drawn_from (mid_conf_range a) v) /\
    (py_eq_int p 1 = false -> PyStr.has_bar ml = false ->
     drawn_from (hi_conf_range a) v \/ drawn_from (lo_conf_range a) v).
Proof.
  intros H Hf. unfold conf_race_block in H.
  invert_bind H as fill t Hn. apply needs_fill_Ok in Hn as [-> Hk].
  destruct fill; [|destruct (to_fill_keep _ _ _ Hf Hk)].
  invert_bind H as p t Hp. apply getitem_Ok in Hp as [Hp ->].
  invert_bind H as q t' Hq. invert_bind H as u t'' Hc.
  apply ret_Ok in H as [-> _].
  exists p, (VFloat (FNum (PyNum.round3 q))).
  split; [exact Hp|]. split; [by rewrite lookup_insert_eq|].
  destruct (py_eq_int p 1).
  { apply uniform_drawn in Hq. repeat split; try done. }
  destruct (PyStr.has_bar ml).
  { apply uniform_drawn in Hq. repeat split; try done. }
  invert_bind Hq as w t3 Hw.
  destruct (Qltb (uncertain_rate a) w); apply uniform_drawn in Hq;
    repeat split; try done; auto.
Qed.

(** X18.  The band of a race confidence that the engine fills follows the
    finished row: the low band when [prefer_not_to_label] is 1, else the
    middle band when [race_ml] holds two labels, else the high band or,
    by the uncertain-rate downgrade, the low band. *)
Theorem conf_race_band_policy a env row s cur s' :
  process_row a env row s = Ok (cur, s') ->
  to_fill a row "conf_race" ->
  exists p ml v,
    cur !! "prefer_not_to_label" = Some p /\
    cur !! "race_ml" = Some ml /\
    cur !! "conf_race" = Some v /\
    (py_eq_int p 1 = true -> drawn_from (lo_conf_range a) v) /\
    (py_eq_int p 1 = false -> PyStr.has_bar (py_str ml) = true ->
     drawn_from (mid_conf_range a) v) /\
    (py_eq_int p 1 = false -> PyStr.has_bar (py_str ml) = false ->
     drawn_from (hi_conf_range a) v \/ drawn_from (lo_conf_range a) v).
Proof.
  intros H Hf. open_row H.
  destruct (race_ml_block_label _ _ _ _ _ _ Hrace) as (w & Hw & Hml).
  destruct (conf_race_block_bands _ _ _ _ _ _ _ Hconf Hf)
    as (p & v & Hp & Hv & Hbands).
  exists p, w, v. rewrite Hml.
  split; [by frame_all|]. split; [by frame_all|]. split; [by frame_all|].
  exact Hbands.
Qed.

Lemma conf_race_band_policy_witness :
  exists cur s',
    process_row Sample.default_args Sample.bare
      (Sample.scaffold "Black" "female") (Sample.state_of [] []) = Ok (cur, s') /\
    exists p ml v,
      cur !! "prefer_not_to_label" = Some p /\
      cur !! "race_ml" = Some ml /\
      cur !! "conf_race" = Some v /\
      (py_eq_int p 1 = true -> drawn_from (lo_conf_range Sample.default_args) v) /\
      (py_eq_int p 1 = false -> PyStr.has_bar (py_str ml) = true ->
       drawn_from (mid_conf_range Sample.default_args) v) /\
      (py_eq_int p 1 = false -> PyStr.has_bar (py_str ml) = false ->
       drawn_from (hi_conf_range Sample.default_args) v \/
       drawn_from (lo_conf_range Sample.default_args) v).
Proof.
  destruct (succeeds_Ok
              (process_row Sample.default_args Sample.bare
                 (Sample.scaffold "Black" "female") (Sample.state_of [] [])))
    as [[cur s'] E]; [vm_compute; reflexivity|].
  exists cur, s'. split; [exact E|].
  apply (conf_race_band_policy _ _ _ _ _ _ E).
  apply blank_cell_to_fill. vm_compute. reflexivity.
Defined.



Lemma uniform_bounds (lo hi : Z) range s q s' :
  uniform range s = Ok (q, s') ->
  (fst range == lo # 1000)%Q -> (snd range == hi # 1000)%Q -> lo <= hi ->
  (lo # 1000 <= PyNum.round3 q)%Q /\ (PyNum.round3 q <= hi # 1000)%Q.
Proof.
  unfold uniform, with_rng, gen_uniform.
  destruct (gen_random (rng s)) as [u g] eqn:E.
  destruct (gen_random_unit _ _ _ E) as [H0 H1].
  intros H Ha Hb Hle. injection H as <- _.
  assert (lo # 1000 <= hi # 1000)%Q as Hq by (unfold Qle; cbn; lia).
  apply round3_between; rewrite Ha, Hb; nra.
Qed.

Section Bands.

Variable a : args.
Variable env : environment.
Variable row : gmap string pyval.

Lemma conf_gender_block_band cur s cur' s' :
  conf_gender_block a row cur s = Ok (cur', s') ->
  to_fill a row "conf_gender" ->
  exists q, cur' !! "conf_gender" = Some (VFloat (FNum q)) /\
    if PyStr.mem (PyStr.lower (PyStr.strip (py_str (row_get row "gender_cat"))))
                 ["male"; "m"; "female"; "f"]
    then (8 # 10 <= q)%Q /\ (q <= 1)%Q
    else (4 # 10 <= q)%Q /\ (q <= 7 # 10)%Q.
Proof.
  intros H Hf. unfold conf_gender_block in H.
  invert_bind H as fill t Hn. apply needs_fill_Ok in Hn as [-> Hk].
  destruct fill; [|destruct (to_fill_keep _ _ _ Hf Hk)].
  invert_bind H as q t' Hq. invert_bind H as u t'' Hc.
  apply ret_Ok in H as [-> _]. eexists.
  split; [by rewrite lookup_insert_eq|].
  destruct (PyStr.mem _ _).
  - destruct (uniform_bounds 800 1000 _ _ _ _ Hq) as [H1 H2];
      [reflexivity|reflexivity|lia|]. split; lra.
  - destruct (uniform_bounds 400 700 _ _ _ _ Hq) as [H1 H2];
      [reflexivity|reflexivity|lia|]. split; lra.
Qed.

Lemma conf_skin_block_band cur s cur' s' :
  conf_skin_block a env row cur s = Ok (cur', s') ->
  to_fill a row "conf_skin" ->
  exists q, cur' !! "conf_skin" = Some (VFloat (FNum q)) /\
    (5 # 10 <= q)%Q /\ (q <= 9 # 10)%Q /\
    (skin_tone_method a = Random \/ PIL_OK env = false -> (q <= 8 # 10)%Q).
Proof.
  intros H Hf. unfold conf_skin_block in H.
  invert_bind H as fill t Hn. apply needs_fill_Ok in Hn as [-> Hk].
  destruct fill; [|destruct (to_fill_keep _ _ _ Hf Hk)].
  invert_bind H as high t0 Hh. invert_bind H as q t' Hq.
  invert_bind H as u t'' Hc.
  apply ret_Ok in H as [-> _]. eexists.
  split; [by rewrite lookup_insert_eq|].
  destruct high.
  - destruct (uniform_bounds 600 900 _ _ _ _ Hq) as [H1 H2];
      [reflexivity|reflexivity|lia|].
    split; [lra|]. split; [lra|].
    intros [Hm | Hpil].
    + rewrite Hm in Hh. by apply ret_Ok in Hh as [? _].
    + destruct (skin_tone_method a); [by apply ret_Ok in Hh as [? _]|].
      rewrite Hpil in Hh. by apply ret_Ok in Hh as [? _].
  - destruct (uniform_bounds 500 800 _ _ _ _ Hq) as [H1 H2];
      [reflexivity|reflexivity|lia|].
    split; [lra|]. split; [lra|]. intros _. lra.
Qed.

End Bands.

(** X20.  A gender confidence that the engine fills lies in [0.8, 1.0]
    when the row's gender, stripped and in lower case, is male, m, female
    or f, and in [0.4, 0.7] otherwise. *)
Theorem conf_gender_band a env row s cur s' :
  process_row a env row s = Ok (cur, s') ->
  to_fill a row "conf_gender" ->
  exists q, cur !! "conf_gender" = Some (VFloat (FNum q)) /\
    if PyStr.mem (PyStr.lower (PyStr.strip (py_str (row_get row "gender_cat"))))
                 ["male"; "m"; "female"; "f"]
    then (8 # 10 <= q)%Q /\ (q <= 1)%Q
    else (4 # 10 <= q)%Q /\ (q <= 7 # 10)%Q.
Proof.
  intros H Hf. open_row H.
  destruct (conf_gender_block_band _ _ _ _ _ _ Hcgen Hf) as (q & Hq & Hb).
  exists q. split; [by frame_all|exact Hb].
Qed.

Lemma conf_gender_band_witness :
  exists cur s',
    process_row Sample.default_args Sample.bare
      (Sample.scaffold "Black" "female") (Sample.state_of [] []) = Ok (cur, s') /\
    exists q, cur !! "conf_gender" = Some (VFloat (FNum q)) /\
      if PyStr.mem (PyStr.lower (PyStr.strip
                      (py_str (row_get (Sample.scaffold "Black" "female")
                                       "gender_cat"))))
                   ["male"; "m"; "female"; "f"]
      then (8 # 10 <= q)%Q /\ (q <= 1)%Q
      else (4 # 10 <= q)%Q /\ (q <= 7 # 10)%Q.
Proof.
  destruct (succeeds_Ok
              (process_row Sample.default_args Sample.bare
                 (Sample.scaffold "Black" "female") (Sample.state_of [] [])))
    as [[cur s'] E]; [vm_compute; reflexivity|].
  exists cur, s'. split; [exact E|].
  apply (conf_gender_band _ _ _ _ _ _ E).
  apply blank_cell_to_fill. vm_compute. reflexivity.
Defined.

(** X21.  A skin confidence that the engine fills lies in [0.5, 0.9], and
    in [0.5, 0.8] under the random strategy or without PIL. *)
Theorem conf_skin_band a env row s cur s' :
  process_row a env row s = Ok (cur, s') ->
  to_fill a row "conf_skin" ->
  exists q, cur !! "conf_skin" = Some (VFloat (FNum q)) /\
    (5 # 10 <= q)%Q /\ (q <= 9 # 10)%Q /\
    (skin_tone_method a = Random \/ PIL_OK env = false -> (q <= 8 # 10)%Q).
Proof.
  intros H Hf. open_row H.
  destruct (conf_skin_block_band _ _ _ _ _ _ _ Hcskin Hf) as (q & Hq & Hb).
  exists q. split; [by frame_all|exact Hb].
Qed.

Lemma conf_skin_band_witness :
  exists cur s',
    process_row Sample.default_args Sample.bare
      (Sample.scaffold "Black" "female") (Sample.state_of [] []) = Ok (cur, s') /\
    exists q, cur !! "conf_skin" = Some (VFloat (FNum q)) /\
      (5 # 10 <= q)%Q /\ (q <= 9 # 10)%Q /\
      (skin_tone_method Sample.default_args = Random \/
       PIL_OK Sample.bare = false -> (q <= 8 # 10)%Q).
Proof.
  destruct (succeeds_Ok
              (process_row Sample.default_args Sample.bare
                 (Sample.scaffold "Black" "female") (Sample.state_of [] [])))
    as [[cur s'] E]; [vm_compute; reflexivity|].
  exists cur, s'. split; [exact E|].
  apply (conf_skin_band _ _ _ _ _ _ E).
  apply blank_cell_to_fill. vm_compute. reflexivity.
Defined.

(** ** The skin-tone bin *)

(** X22.  Whatever the number of bins, the strategy and the race: a bin
    that the engine writes is the decimal text of a number between 1 and
    the configured number of bins. *)
Theorem written_skin_tone_bin_in_range a env row s cur s' :
  0 < skin_bins a ->
  process_row a env row s = Ok (cur, s') ->
  to_fill a row "skin_tone_bin" ->
  exists b, cur !! "skin_tone_bin" = Some (VStr (pretty b)) /\
            1 <= b <= skin_bins a.
Proof. apply assigned_skin_tone_bin_in_range. Qed.

Lemma written_skin_tone_bin_in_range_witness :
  exists cur s',
    process_row Sample.default_args Sample.bare
      (Sample.scaffold "Black" "female") (Sample.state_of [] []) = Ok (cur, s') /\
    exists b, cur !! "skin_tone_bin" = Some (VStr (pretty b)) /\
              1 <= b <= skin_bins Sample.default_args.
Proof.
  destruct (succeeds_Ok
              (process_row Sample.default_args Sample.bare
                 (Sample.scaffold "Black" "female") (Sample.state_of [] [])))
    as [[cur s'] E]; [vm_compute; reflexivity|].
  exists cur, s'. split; [exact E|].
  apply (written_skin_tone_bin_in_range Sample.default_args Sample.bare
           (Sample.scaffold "Black" "female") (Sample.state_of [] []) cur s');
    [reflexivity|exact E|].
  apply blank_cell_to_fill. vm_compute. reflexivity.
Defined.

(** X23.  Under the random strategy the skin-tone block cannot fail when
    there are seven bins, or any positive number of bins and a race other
    than "Black" and "White": it writes a bin between 1 and the number of
    bins. *)
Theorem random_skin_tone_bin_succeeds a env row cur s :
  skin_tone_method a = Random ->
  0 < skin_bins a ->
  skin_bins a = 7 \/ (base_race row <> "Black" /\ base_race row <> "White") ->
  to_fill a row "skin_tone_bin" ->
  exists b s',
    skin_tone_bin_block a env row cur s
      = Ok (<["skin_tone_bin" := VStr (pretty b)]> cur, s') /\
    1 <= b <= skin_bins a.
Proof.
  intros Hm Hn Hcase Hf.
  destruct (random_bin_succeeds a row s Hn Hcase) as (b & s1 & Hb & Hr).
  exists b. eexists. split; [|exact Hr].
  rewrite (skin_tone_bin_block_falls_back a env row cur s Hf).
  - unfold bind. rewrite Hb. reflexivity.
  - unfold brightness_attempt. by rewrite Hm.
Qed.

Lemma random_skin_tone_bin_succeeds_witness :
  exists b s',
    skin_tone_bin_block (Sample.with_skin Random 5 Sample.default_args)
      Sample.bare (Sample.scaffold "Latino" "male")
      (Sample.scaffold "Latino" "male") (Sample.state_of [] [])
    = Ok (<["skin_tone_bin" := VStr (pretty b)]>
            (Sample.scaffold "Latino" "male"), s') /\
    1 <= b <= skin_bins (Sample.with_skin Random 5 Sample.default_args).
Proof.
  apply random_skin_tone_bin_succeeds.
  - reflexivity.
  - reflexivity.
  - right. split; vm_compute; discriminate.
  - apply blank_cell_to_fill. vm_compute. reflexivity.
Defined.

(** ** A second pass *)

Lemma pretty_N_char_not_space x : PyStr.is_space (pretty_N_char x) = false.
Proof. unfold pretty_N_char. by repeat case_match. Qed.

Lemma pretty_N_go_keeps x : forall s c,
  In c (list_ascii_of_string s) ->
  In c (list_ascii_of_string (pretty_N_go x s)).
Proof.
  induction (N.lt_wf_0 x) as [x _ IH]; intros s c Hc.
  assert (x = 0 \/ 0 < x)%N as [-> | Hx] by lia; [by rewrite pretty_N_go_0|].
  rewrite pretty_N_go_step by done. apply IH; [by apply N.div_lt|].
  cbn. by right.
Qed.

Lemma pretty_N_go_digit x s :
  (0 < x)%N ->
  exists c, In c (list_ascii_of_string (pretty_N_go x s)) /\
            PyStr.is_space c = false.
Proof.
  intros Hx. rewrite pretty_N_go_step by done.
  exists (pretty_N_char (x mod 10)). split; [|apply pretty_N_char_not_space].
  apply pretty_N_go_keeps. cbn. by left.
Qed.

(** The decimal text of an integer is never blank. *)
Lemma is_blank_pretty (z : Z) : is_blank (VStr (pretty z)) = false.
Proof.
  unfold is_blank. cbn [py_str]. destruct z as [|p|p].
  - reflexivity.
  - destruct (pretty_N_go_digit (N.pos p) "") as (c & Hin & Hc); [lia|].
    by apply (strip_not_empty c).
  - apply (strip_not_empty "-"%char); [reflexivity|].
    change (pretty (Z.neg p)) with ("-" +:+ pretty p).
    rewrite list_ascii_of_string_app. apply in_app_iff. left. cbn. by left.
Qed.

Lemma is_blank_flag b : is_blank (flag b) = false.
Proof. by destruct b. Qed.

Lemma marker_texts_not_blank txt :
  In txt marker_texts -> is_blank (VStr txt) = false.
Proof.
  unfold marker_texts. cbn [In].
  intros [<- | [<- | [<- | [<- | [<- | [<- | [<- | [<- | []]]]]]]]];
    reflexivity.
Qed.

Section NotBlank.

Variable a : args.
Variable env : environment.
Variable row : gmap string pyval.

(** The kept branch of a block: the cell is the row's, which is not blank. *)
Ltac kept_branch H Hk Hsame :=
  apply ret_Ok in H as [-> ->]; destruct Hk as (_ & v & Hv & Hb);
  exists v; by rewrite Hsame.

Lemma ambiguous_mixed_block_not_blank ml cur s cur' s' :
  cur !! "ambiguous_mixed" = row !! "ambiguous_mixed" ->
  ambiguous_mixed_block a row ml cur s = Ok (cur', s') ->
  exists v, cur' !! "ambiguous_mixed" = Some v /\ is_blank v = false.
Proof.
  intros Hsame H. unfold ambiguous_mixed_block in H.
  invert_bind H as fill t Hn. apply needs_fill_Ok in Hn as [-> Hk].
  destruct fill; [|kept_branch H Hk Hsame].
  invert_bind H as u t' Hc. apply ret_Ok in H as [-> _].
  eexists. split; [by rewrite lookup_insert_eq|apply is_blank_flag].
Qed.

Lemma prefer_not_to_label_block_not_blank cur s cur' s' :
  cur !! "prefer_not_to_label" = row !! "prefer_not_to_label" ->
  prefer_not_to_label_block a row cur s = Ok (cur', s') ->
  exists v, cur' !! "prefer_not_to_label" = Some v /\ is_blank v = false.
Proof.
  intros Hsame H. unfold prefer_not_to_label_block in H.
  invert_bind H as fill t Hn. apply needs_fill_Ok in Hn as [-> Hk].
  destruct fill; [|kept_branch H Hk Hsame].
  invert_bind H as b t' Hb. invert_bind H as u t'' Hc.
  apply ret_Ok in H as [-> _].
  eexists. split; [by rewrite lookup_insert_eq|apply is_blank_flag].
Qed.

Lemma unknown_uncertain_block_not_blank conf cur s cur' s' :
  cur !! "unknown_uncertain" = row !! "unknown_uncertain" ->
  unknown_uncertain_block a row conf cur s = Ok (cur', s') ->
  exists v, cur' !! "unknown_uncertain" = Some v /\ is_blank v = false.
Proof.
  intros Hsame H. unfold unknown_uncertain_block in H.
  invert_bind H as fill t Hn. apply needs_fill_Ok in Hn as [-> Hk].
  destruct fill; [|kept_branch H Hk Hsame].
  invert_bind H as b t' Hb. invert_bind H as u t'' Hc.
  apply ret_Ok in H as [-> _].
  eexists. split; [by rewrite lookup_insert_eq|apply is_blank_flag].
Qed.

Lemma cultural_markers_block_not_blank cur s cur' s' :
  cur !! "cultural_markers" = row !! "cultural_markers" ->
  cultural_markers_block a row cur s = Ok (cur', s') ->
  exists v, cur' !! "cultural_markers" = Some v /\ is_blank v = false.
Proof.
  intros Hsame H. pose proof H as H0. unfold cultural_markers_block in H.
  invert_bind H as fill t Hn. apply needs_fill_Ok in Hn as [-> Hk].
  destruct fill; [|kept_branch H Hk Hsame].
  destruct (cultural_markers_block_filled _ _ _ _ _ _ H0 Hk)
    as (txt & Htxt & Hin & _).
  exists (VStr txt). split; [exact Htxt|by apply marker_texts_not_blank].
Qed.

Lemma skin_tone_bin_block_not_blank cur s cur' s' :
  cur !! "skin_tone_bin" = row !! "skin_tone_bin" ->
  skin_tone_bin_block a env row cur s = Ok (cur', s') ->
  exists v, cur' !! "skin_tone_bin" = Some v /\ is_blank v = false.
Proof.
  intros Hsame H. unfold skin_tone_bin_block in H.
  invert_bind H as fill t Hn. apply needs_fill_Ok in Hn as [-> Hk].
  destruct fill; [|kept_branch H Hk Hsame].
  invert_bind H as r t' Hr. invert_bind H as b t'' Hb.
  invert_bind H as u t3 Hc. apply ret_Ok in H as [-> _].
  eexists. split; [by rewrite lookup_insert_eq|apply is_blank_pretty].
Qed.

Lemma conf_skin_block_not_blank cur s cur' s' :
  cur !! "conf_skin" = row !! "conf_skin" ->
  conf_skin_block a env row cur s = Ok (cur', s') ->
  exists v, cur' !! "conf_skin" = Some v /\ is_blank v = false.
Proof.
  intros Hsame H. unfold conf_skin_block in H.
  invert_bind H as fill t Hn. apply needs_fill_Ok in Hn as [-> Hk].
  destruct fill; [|kept_branch H Hk Hsame].
  invert_bind H as r t' Hr. invert_bind H as b t'' Hb.
  invert_bind H as u t3 Hc. apply ret_Ok in H as [-> _].
  eexists. split; [by rewrite lookup_insert_eq|apply is_blank_float].
Qed.

Lemma conf_gender_block_not_blank cur s cur' s' :
  cur !! "conf_gender" = row !! "conf_gender" ->
  conf_gender_block a row cur s = Ok (cur', s') ->
  exists v, cur' !! "conf_gender" = Some v /\ is_blank v = false.
Proof.
  intros Hsame H. unfold conf_gender_block in H.
  invert_bind H as fill t Hn. apply needs_fill_Ok in Hn as [-> Hk].
  destruct fill; [|kept_branch H Hk Hsame].
  invert_bind H as b t'' Hb. invert_bind H as u t3 Hc.
  apply ret_Ok in H as [-> _].
  eexists. split; [by rewrite lookup_insert_eq|apply is_blank_float].
Qed.

Lemma annotation_notes_block_cases ml cur s cur' s' :
  annotation_notes_block a row ml cur s = Ok (cur', s') ->
  to_fill a row "annotation_notes" \/ to_keep a row "annotation_notes".
Proof.
  intros H. unfold annotation_notes_block in H.
  invert_bind H as fill t Hn. apply needs_fill_Ok in Hn as [-> Hk].
  destruct fill; auto.
Qed.

End NotBlank.

Lemma lstrip_chars_head l c t :
  PyStr.lstrip_chars l = c :: t -> PyStr.is_space c = false /\ In c l.
Proof.
  induction l as [|d l IH]; cbn; [done|].
  destruct (PyStr.is_space d) eqn:E.
  - intros H. destruct (IH H). auto.
  - intros [= -> ->]. split; [done|by left].
Qed.

Lemma lstrip_chars_subset l c : In c (PyStr.lstrip_chars l) -> In c l.
Proof.
  induction l as [|d l IH]; cbn; [done|].
  destruct (PyStr.is_space d); [auto|done].
Qed.

(** A text that is not blank holds a character that is not white space. *)
Lemma not_blank_char s :
  String.eqb (PyStr.strip s) "" = false ->
  exists c, PyStr.is_space c = false /\ In c (list_ascii_of_string s).
Proof.
  unfold PyStr.strip, PyStr.strip_chars.
  destruct (PyStr.lstrip_chars (rev (PyStr.lstrip_chars (list_ascii_of_string s))))
    as [|c t] eqn:E; [discriminate|].
  intros _. apply lstrip_chars_head in E as [Hc Hin]. exists c. split; [done|].
  apply lstrip_chars_subset. by apply in_rev.
Qed.

Lemma is_blank_prefix s t :
  is_blank (VStr s) = false -> is_blank (VStr (s +:+ t)) = false.
Proof.
  unfold is_blank. cbn [py_str]. intros H.
  destruct (not_blank_char s H) as (c & Hc & Hin).
  apply (strip_not_empty c); [done|].
  rewrite list_ascii_of_string_app. apply in_app_iff. by left.
Qed.

Lemma choose_multilabel_not_blank base_label rate s ml s' :
  choose_multilabel base_label rate s = Ok (ml, s') ->
  is_blank (VStr base_label) = false -> is_blank (VStr ml) = false.
Proof.
  intros H Hb. unfold choose_multilabel in H.
  destruct (negb _); [by apply ret_Ok in H as [-> _]|].
  destruct (candidates base_label) as [|p ps];
    [by apply ret_Ok in H as [-> _]|].
  invert_bind H as u t Hu.
  destruct (Qltb u rate); [|by apply ret_Ok in H as [-> _]].
  invert_bind H as k t' Hk. apply ret_Ok in H as [-> _].
  unfold multilabel. destruct (nth k _ _) as [x y].
  by apply is_blank_prefix.
Qed.

Lemma race_ml_block_not_blank a row cur s ml cur' s' :
  is_blank (row_get row "race_cat") = false ->
  cur !! "race_ml" = row !! "race_ml" ->
  race_ml_block a row cur s = Ok (ml, cur', s') ->
  exists v, cur' !! "race_ml" = Some v /\ is_blank v = false.
Proof.
  intros Hrc Hsame H. unfold race_ml_block in H.
  invert_bind H as fill t Hn. apply needs_fill_Ok in Hn as [-> Hk].
  destruct fill.
  - invert_bind H as m t' Hm. invert_bind H as u t'' Hc.
    apply ret_Ok in H as [[= -> ->] _].
    exists (VStr m). split; [by rewrite lookup_insert_eq|].
    by apply (choose_multilabel_not_blank _ _ _ _ _ Hm).
  - invert_bind H as v t' Hv. apply ret_Ok in H as [[= -> ->] _].
    destruct Hk as (_ & w & Hw & Hb). exists w. by rewrite Hsame.
Qed.

(** After a fill-blanks pass over a row with a race category, every
    derived cell is settled. *)
Lemma processed_row_settled a env row s cur s' :
  process_row a env row s = Ok (cur, s') ->
  overwrite a = false ->
  is_blank (row_get row "race_cat") = false ->
  settled a cur.
Proof.
  intros H Ho Hrc. open_row H.
  assert (Nml : exists v, c1 !! "race_ml" = Some v /\ is_blank v = false)
    by (eapply race_ml_block_not_blank; [exact Hrc| |exact Hrace]; reflexivity).
  assert (Namb : exists v, c2 !! "ambiguous_mixed" = Some v /\ is_blank v = false).
  { eapply ambiguous_mixed_block_not_blank; [|exact Hamb]; by frame_all. }
  assert (Npref : exists v, c3 !! "prefer_not_to_label" = Some v /\ is_blank v = false).
  { eapply prefer_not_to_label_block_not_blank; [|exact Hpref]; by frame_all. }
  assert (Nconf : exists v, c4 !! "conf_race" = Some v /\ is_blank v = false).
  { eapply conf_race_block_not_blank; [|exact Hconf]; by frame_all. }
  assert (Nunk : exists v, c5 !! "unknown_uncertain" = Some v /\ is_blank v = false).
  { eapply unknown_uncertain_block_not_blank; [|exact Hunk]; by frame_all. }
  assert (Nmark : exists v, c6 !! "cultural_markers" = Some v /\ is_blank v = false).
  { eapply cultural_markers_block_not_blank; [|exact Hmark]; by frame_all. }
  assert (Nskin : exists v, c7 !! "skin_tone_bin" = Some v /\ is_blank v = false).
  { eapply skin_tone_bin_block_not_blank; [|exact Hskin]; by frame_all. }
  assert (Ncskin : exists v, c8 !! "conf_skin" = Some v /\ is_blank v = false).
  { eapply conf_skin_block_not_blank; [|exact Hcskin]; by frame_all. }
  assert (Ncgen : exists v, c9 !! "conf_gender" = Some v /\ is_blank v = false).
  { eapply conf_gender_block_not_blank; [|exact Hcgen]; by frame_all. }
  split; [|split].
  - intros c Hc. unfold value_columns in Hc. cbn [In] in Hc.
    split; [exact Ho|].
    destruct Hc as [<- | [<- | [<- | [<- | [<- | [<- | [<- | [<- | [<- | []]]]]]]]]];
      frame_all; assumption.
  - destruct Nconf as (v & Hv & Hb).
    unfold conf_val in Hval. invert_bind Hval as w t Hw.
    apply getitem_Ok in Hw as [Hw ->]. rewrite Hv in Hw. injection Hw as <-.
    rewrite Hb in Hval. unfold lift in Hval.
    destruct (py_float v) as [f|] eqn:Ef; [|discriminate].
    exists v, f. split; [by frame_all|exact Ef].
  - destruct (annotation_notes_block_cases _ _ _ _ _ _ _ Hnotes) as [Hf | Hk].
    + destruct (annotation_notes_block_filled _ _ _ _ _ _ _ Hnotes Hf)
        as (u & p & n & Hu & Hp & -> & Hiff & _ & [-> | Hn]).
      * right. split; [exact Ho|]. split; [by rewrite lookup_insert_eq|].
        destruct Nml as (w & Hw & _).
        assert (Hml : ml = py_str w).
        { clear - Hrace Hw. unfold race_ml_block in Hrace.
          invert_bind Hrace as fill t Hn. destruct fill.
          - invert_bind Hrace as m t' Hm. invert_bind Hrace as x t'' Hc.
            apply ret_Ok in Hrace as [[= -> ->] _].
            rewrite lookup_insert_eq in Hw. by injection Hw as <-.
          - invert_bind Hrace as v t' Hv. apply ret_Ok in Hrace as [[= -> ->] _].
            apply getitem_Ok in Hv as [Hv _]. rewrite Hv in Hw.
            by injection Hw as <-. }
        exists w, u, p.
        rewrite !lookup_insert_ne by done.
        split; [by frame_all|]. split; [exact Hu|]. split; [exact Hp|].
        rewrite <- Hml. by apply Hiff.
      * left. split; [exact Ho|]. exists (VStr n).
        split; [by rewrite lookup_insert_eq|exact Hn].
    + left. split; [exact Ho|].
      rewrite (annotation_notes_block_keep _ _ _ _ _ Hk) in Hnotes.
      injection Hnotes as <- _.
      destruct Hk as (_ & v & Hv & Hb). exists v. split; [|exact Hb].
      rewrite <- Hv. by frame_all.
Qed.

(** A settled row goes through the loop body untouched, whatever the
    images and the state of the generators: nothing is drawn, nothing is
    counted. *)
Lemma settled_row_stable a env r s :
  settled a r -> process_row a env r s = Ok (r, s).
Proof.
  intros (Hk & (v & f & Hv & Hf) & Hn).
  assert (K : forall c, In c value_columns -> to_keep a r c) by exact Hk.
  destruct (race_ml_block_keep a r r s (K "race_ml" ltac:(cbn; tauto)))
    as (w & Hw & Hml).
  assert (Hcv : conf_val r s = Ok (f, s)).
  { destruct (K "conf_race" ltac:(cbn; tauto)) as (_ & v' & Hv' & Hb).
    rewrite Hv in Hv'. injection Hv' as <-.
    unfold conf_val, bind, getitem, lift, ret. by rewrite Hv, Hb, Hf. }
  unfold process_row, row_to_conf.
  erewrite bind_eq; cycle 1.
  { erewrite bind_eq by exact Hml. cbv iota beta.
    erewrite bind_eq
      by (apply ambiguous_mixed_block_keep, K; cbn; tauto).
    erewrite bind_eq
      by (apply prefer_not_to_label_block_keep, K; cbn; tauto).
    erewrite bind_eq by (apply conf_race_block_keep, K; cbn; tauto).
    erewrite bind_eq by exact Hcv. reflexivity. }
  cbv iota beta. unfold row_from_conf.
  erewrite bind_eq by (apply unknown_uncertain_block_keep, K; cbn; tauto).
  erewrite bind_eq by (apply cultural_markers_block_keep, K; cbn; tauto).
  erewrite bind_eq by (apply skin_tone_bin_block_keep, K; cbn; tauto).
  erewrite bind_eq by (apply conf_skin_block_keep, K; cbn; tauto).
  erewrite bind_eq by (apply conf_gender_block_keep, K; cbn; tauto).
  destruct Hn as [Hkeep | (Ho & Hnotes & ml & u & p & Hm & Hu & Hp & Hb & Hu1 & Hp1)].
  - by apply annotation_notes_block_keep.
  - rewrite Hw in Hm. injection Hm as <-.
    unfold annotation_notes_block.
    erewrite bind_eq
      by (apply needs_fill_fill; right; exists (VStr ""); by split).
    cbv iota. unfold bind at 1. unfold getitem at 1. rewrite Hu.
    unfold ret at 1. cbv iota beta.
    unfold bind at 1. unfold getitem at 1. rewrite Hp.
    unfold ret at 1. cbv iota beta.
    rewrite Hb, Hu1, Hp1. cbn [app].
    change (PyStr.join "; " []) with "".
    by rewrite insert_id.
Qed.

Lemma settled_args a a2 r :
  overwrite a2 = overwrite a -> settled a r -> settled a2 r.
Proof.
  unfold settled, notes_settled, to_keep. intros ->. tauto.
Qed.

Lemma iterrows_settled a env rs s :
  Forall (settled a) rs -> iterrows a env rs s = Ok (rs, s).
Proof.
  intros H. induction H as [|r rs Hr _ IH]; [reflexivity|].
  cbn [iterrows]. erewrite bind_eq by (by apply settled_row_stable).
  erewrite bind_eq by exact IH. reflexivity.
Qed.

(** X24.  A row that has gone through a fill-blanks pass is a fixed point
    of the loop body: a second pass in fill-blanks mode, with whatever
    rates, seed, skin-tone method and image files, returns the same row,
    draws no random number and counts no filled cell.  (The row needs a
    race category; empty notes are written again as the same empty
    text.) *)
Theorem second_pass_changes_nothing a env row s cur s' a2 env2 s2 :
  process_row a env row s = Ok (cur, s') ->
  overwrite a = false ->
  is_blank (row_get row "race_cat") = false ->
  overwrite a2 = false ->
  process_row a2 env2 cur s2 = Ok (cur, s2).
Proof.
  intros H Ho Hrc Ho2. apply settled_row_stable.
  apply (settled_args a); [congruence|].
  by apply (processed_row_settled _ _ _ _ _ _ H).
Qed.

Lemma second_pass_changes_nothing_witness :
  exists cur s',
    process_row Sample.default_args Sample.bare
      (Sample.scaffold "Latino" "female") (Sample.state_of [] []) = Ok (cur, s') /\
    process_row (Sample.with_skin Brightness 5 Sample.default_args)
      Sample.no_images cur (Sample.state_of [7%N] [3%N])
    = Ok (cur, Sample.state_of [7%N] [3%N]).
Proof.
  destruct (succeeds_Ok (process_row Sample.default_args Sample.bare
              (Sample.scaffold "Latino" "female") (Sample.state_of [] [])))
    as [[cur s'] E]; [vm_compute; reflexivity|].
  exists cur, s'. split; [exact E|].
  apply (second_pass_changes_nothing _ _ _ _ _ _ _ _ _ E);
    vm_compute; reflexivity.
Defined.

Lemma ensure_columns_race_cat df :
  In "race_cat" (columns df) ->
  Forall (fun r => is_blank (row_get r "race_cat") = false) (rows df) ->
  Forall (fun r => is_blank (row_get r "race_cat") = false)
         (rows (ensure_columns df)).
Proof.
  intros Hcol Hall.
  destruct (fold_safe_col_spec _ df _ (ensure_columns_fold df))
    as (Hl & _ & Hr).
  apply List.Forall_forall. intros r' Hin.
  apply In_nth_error in Hin as [i Hi].
  destruct (nth_error (rows df) i) as [r|] eqn:Er.
  - destruct (Hr i r Er) as (r2 & Hn & Hk & _).
    rewrite Hn in Hi. injection Hi as <-.
    unfold row_get. rewrite (Hk _ Hcol).
    apply nth_error_In in Er.
    by apply (proj1 (List.Forall_forall _ _) Hall).
  - apply nth_error_None in Er.
    assert (nth_error (rows (ensure_columns df)) i = None) as Hnone
      by (apply nth_error_None; lia).
    congruence.
Qed.

Lemma ensure_columns_recognised df c :
  In c (base_columns ++ derived_columns)%list ->
  In c (columns (ensure_columns df)).
Proof.
  intros Hin.
  destruct (fold_safe_col_spec _ df _ (ensure_columns_fold df)) as (_ & Hc & _).
  apply Hc. by right.
Qed.

Lemma iterrows_all_settled a env a2 : forall rs s rs' s',
  overwrite a = false -> overwrite a2 = false ->
  Forall (fun r => is_blank (row_get r "race_cat") = false) rs ->
  iterrows a env rs s = Ok (rs', s') ->
  Forall (settled a2) rs'.
Proof.
  intros rs s rs' s' Ho Ho2 Hrows Hit.
  apply iterrows_Ok in Hit.
  induction Hit as [|r r' rs rs' (s1 & s2 & Hrow) _ IH].
  - apply List.Forall_nil.
  - apply List.Forall_cons.
    + apply (settled_args a); [congruence|].
      apply (processed_row_settled _ _ _ _ _ _ Hrow Ho).
      by inversion Hrows.
    + apply IH. by inversion Hrows.
Qed.

(** What a fill-blanks run over rows with a race category produces is a
    table of settled rows with every recognised column. *)
Lemma engine_output_settled sys env a df rep a2 :
  engine sys env a = Ok rep ->
  overwrite a = false ->
  read_csv sys (inp a) = Ok df ->
  In "race_cat" (columns df) ->
  Forall (fun r => is_blank (row_get r "race_cat") = false) (rows df) ->
  overwrite a2 = false ->
  (forall c, In c (base_columns ++ derived_columns)%list ->
             In c (columns (table rep))) /\
  rows (table rep) <> [] /\
  Forall (settled a2) (rows (table rep)).
Proof.
  intros H Ho Hread Hcol Hrc Ho2.
  destruct (engine_Ok _ _ _ _ H)
    as (npg & df' & rows' & s & stats & _ & Hread' & Hit & Hne & Ht & _).
  rewrite Hread in Hread'. injection Hread' as <-.
  pose proof (ensure_columns_race_cat df Hcol Hrc) as Hrows.
  pose proof (ensure_columns_recognised df) as Hcols.
  clear H Hread Hcol Hrc.
  remember (ensure_columns df) as edf eqn:Hedf. clear Hedf.
  rewrite Ht. cbn [columns rows].
  split; [exact Hcols|]. split; [exact Hne|].
  apply (iterrows_all_settled a env a2 _ _ _ _ Ho Ho2 Hrows Hit).
Qed.

(** X25.  The table that a fill-blanks run returns is a fixed point of
    the column check and of the row loop, in memory: when every input row
    had a race category, the column check adds nothing to the produced
    table, and passing its rows through the loop again in fill-blanks mode
    (whatever the rates, the seed, the skin-tone method and the image
    files) returns the same rows, draws no random number and counts no
    filled cell.  This is about the table as the run holds it, not about a
    table read back from the CSV file. *)
Theorem produced_table_is_fixed_point sys env a df rep a2 env2 s2 :
  engine sys env a = Ok rep ->
  overwrite a = false ->
  read_csv sys (inp a) = Ok df ->
  In "race_cat" (columns df) ->
  Forall (fun r => is_blank (row_get r "race_cat") = false) (rows df) ->
  overwrite a2 = false ->
  ensure_columns (table rep) = table rep /\
  iterrows a2 env2 (rows (table rep)) s2 = Ok (rows (table rep), s2).
Proof.
  intros H Ho Hread Hcol Hrc Ho2.
  destruct (engine_output_settled _ _ _ _ _ a2 H Ho Hread Hcol Hrc Ho2)
    as (Hcols & _ & Hset).
  split; [by apply ensure_columns_present|by apply iterrows_settled].
Qed.

Lemma produced_table_is_fixed_point_witness :
  exists rep,
    engine (Sample.platform_of
              (Sample.table_of [Sample.scaffold "Latino" "female"]))
           Sample.bare Sample.default_args = Ok rep /\
    ensure_columns (table rep) = table rep /\
    iterrows (Sample.with_skin Brightness 5 Sample.default_args)
             Sample.no_images (rows (table rep)) (Sample.state_of [7%N] [3%N])
    = Ok (rows (table rep), Sample.state_of [7%N] [3%N]).
Proof.
  destruct (succeeds_Ok
              (engine (Sample.platform_of
                         (Sample.table_of [Sample.scaffold "Latino" "female"]))
                      Sample.bare Sample.default_args))
    as [rep E]; [vm_compute; reflexivity|].
  exists rep. split; [exact E|].
  apply (produced_table_is_fixed_point
           (Sample.platform_of
              (Sample.table_of [Sample.scaffold "Latino" "female"]))
           Sample.bare Sample.default_args
           (Sample.table_of [Sample.scaffold "Latino" "female"]) rep
           (Sample.with_skin Brightness 5 Sample.default_args)
           Sample.no_images (Sample.state_of [7%N] [3%N]) E);
    try reflexivity.
  - cbn. tauto.
  - apply List.Forall_cons; [vm_compute; reflexivity|apply List.Forall_nil].
Defined.

(** ** The random strategy never looks at an image *)

(** X26.  Under the random skin-tone strategy the engine reads neither the
    PIL flag nor an image file: a run ends the same way, messages, table
    and saved file alike, in every environment. *)
Theorem random_strategy_ignores_images sys a env1 env2 :
  skin_tone_method a = Random ->
  engine sys env1 a = engine sys env2 a.
Proof.
  intros Hr. unfold engine.
  destruct (seed_numpy sys (seed a)) as [npg|e]; [|reflexivity].
  destruct (read_csv sys (inp a)) as [df|e]; [|reflexivity].
  by rewrite (iterrows_env a Hr env1 env2).
Qed.

Lemma random_strategy_ignores_images_witness :
  engine (Sample.platform_of
            (Sample.table_of [Sample.scaffold "Black" "male";
                              Sample.scaffold "MiddleEastern" "female"]))
         Sample.bare Sample.default_args
  = engine (Sample.platform_of
              (Sample.table_of [Sample.scaffold "Black" "male";
                                Sample.scaffold "MiddleEastern" "female"]))
           {| PIL_OK := true; path_exists := fun _ => true;
              image_open := fun _ => Some {| im_w := 12; im_h := 12;
                                             im_px := fun _ _ => 255 |} |}
           Sample.default_args.
Proof. apply random_strategy_ignores_images. reflexivity. Defined.
